(** * WorkTrack: productivity analytics and due-date reminders

    A shallow embedding of the backend code that computes the
    productivity statistics ([getProductivityStats],
    [getTeamProductivityStats]), runs the due-date reminder scan
    ([checkDueDateReminders]) and keeps a task's status, checklist and
    progress in step ([updateTaskStatus], [updateTaskChecklist]).

    Conventions of the embedding.
    - A JavaScript [Date] is its time value: a number of milliseconds
      since the epoch, in [Z].  The local time zone of the server is a
      fixed offset [tz] (milliseconds east of UTC); daylight-saving
      shifts are not modelled.
    - Counts and lengths are in [Z]; array lengths are below 2^32, so
      a count is a JavaScript number as it stands ([num]).  The rates,
      the progress and the score are computed as the engine does: a
      number is the rational in [Q] that its binary64 value stands for,
      every division, product and sum is rounded to the nearest
      binary64 value ([binary64]), and a division by 0, whose result is
      NaN or an infinity, is [None].  [Math.round] is [Math_round].
      The means of the team report, the average completion time and
      the numbers of weeks and of pages are quotients of integers,
      which are taken in [Q] as they are.
    - A MongoDB collection is the list of its documents, in the order a
      query without a sort returns them.
    - What the code does to the outside (notification documents, mails
      handed to the transport) is recorded in the order of the source. *)

From Stdlib Require Import ZArith QArith Qround Qminmax Qpower List Lia Bool.
From Stdlib Require Import Ascii String.
From Stdlib Require Import Floats.SpecFloat.
From Stdlib Require Import Lqa.
From Stdlib Require Import DecimalString Permutation Sorted.
From Equations Require Import Equations.
Import ListNotations.
Open Scope Z_scope.

(* ===================================================================== *)
(** * Data model *)
(* ===================================================================== *)

(** An id is the text of an ObjectId; the sample data abbreviates the
    24 hexadecimal digits ("t1", "u1"). *)
Definition Id := string.
Bind Scope string_scope with Id.

(** [status]: 'Pending' | 'In Progress' | 'Completed'. *)
Inductive Status := Pending | InProgress | Completed.

Inductive Priority := Low | Medium | High.

Inductive Role := admin | member.

Definition Status_eqb (a b : Status) : bool :=
  match a, b with
  | Pending, Pending | InProgress, InProgress | Completed, Completed => true
  | _, _ => false
  end.

(** [status.toString()], as it is written to the activity log. *)
Definition Status_toString (s : Status) : string :=
  match s with
  | Pending => "Pending"
  | InProgress => "In Progress"
  | Completed => "Completed"
  end.

Record ChecklistItem := {
  text : string;
  completed : bool
}.

Record ActivityLogEntry := {
  user : Id;
  action : string;
  details : string;
  oldValue : string;
  newValue : string
}.

Record Task := {
  _id : Id;
  title : string;
  status : Status;
  priority : Priority;
  dueDate : option Z;
  assignedTo : list Id;
  createdAt : Z;
  updatedAt : Z;
  todoChecklist : list ChecklistItem;
  progress : Z;
  reminderSent : option bool;
  reminderSentAt : option Z;
  activityLog : list ActivityLogEntry
}.

(** A user document; a missing [email] is the empty string (both are
    falsy for [!user.email]). *)
Record User := {
  uid : Id;
  name : string;
  email : string;
  role : Role
}.

Record Notification := {
  recipient : Id;
  type : string;
  subject : string;
  message : string;
  task : Id
}.

(** Modelled from the spec: [isAdmin] of utils/authHelper, which is not
    among the sources; a user is an admin when their role is [admin]. *)
Definition isAdmin (u : User) : bool :=
  match role u with admin => true | member => false end.

(* ===================================================================== *)
(** * JavaScript numbers, arrays and dates *)
(* ===================================================================== *)

(** [array.length]. *)
Definition len {A : Type} (l : list A) : Z := Z.of_nat (List.length l).

(** [array.filter(p).length]. *)
Definition count {A : Type} (p : A -> bool) (l : list A) : Z :=
  len (filter p l).

(** [array.reduce((sum, x) => sum + f(x), 0)]. *)
Definition sumOf {A : Type} (f : A -> Z) (l : list A) : Z :=
  fold_left (fun sum x => sum + f x) l 0.

(** An integer as a JavaScript number. *)
Definition num (z : Z) : Q := inject_Z z.

(** [Math.round]: nearest integer, a tie going up. *)
Definition Math_round (x : Q) : Z := Qfloor (x + (1 # 2))%Q.

(** ** binary64

    The finite values of binary64 are the rationals [m * 2^e] with a
    significand [m] of at most 53 bits.  [binary64 x] is the value
    nearest to [x], a tie going to the even significand: the rounding
    that IEEE 754 applies to the exact result of an operation.  The
    range of the exponent is not bounded here; the magnitudes that the
    code computes (counts, ratios of counts, percentages, weights) are
    far from the overflow threshold and from the subnormal numbers. *)

Definition pow2 (k : Z) : Q := (2 ^ k)%Q.

(** The exponent [e] with [2^e <= x < 2^(e+1)], for a positive [x]. *)
Definition binade (x : Q) : Z :=
  let e := Z.log2 (Qnum x) - Z.log2 (Z.pos (Qden x)) in
  if Qle_bool (pow2 e) x then e else e - 1.

(** The nearest integer, a tie going to the even one. *)
Definition roundHalfEven (x : Q) : Z :=
  let f := Qfloor x in
  match (x - inject_Z f ?= 1 # 2)%Q with
  | Lt => f
  | Gt => f + 1
  | Eq => if Z.even f then f else f + 1
  end.

(** The nearest value with a significand of 53 bits, for a positive
    [x]: [x] is scaled into [2^52, 2^53), rounded to an integer and
    scaled back. *)
Definition nearest53 (x : Q) : Q :=
  let e := binade x in
  (inject_Z (roundHalfEven (x * pow2 (52 - e))) * pow2 (e - 52))%Q.

Definition binary64 (x : Q) : Q :=
  match (x ?= 0)%Q with
  | Eq => 0%Q
  | Gt => nearest53 x
  | Lt => (- nearest53 (- x))%Q
  end.

(** [x * y] and [x + y]. *)
Definition JS_mul (x y : Q) : Q := binary64 (x * y).

Definition JS_add (x y : Q) : Q := binary64 (x + y).

(** [x / y]; [None] when [y] is 0, where the quotient is NaN or an
    infinity. *)
Definition JS_div (x y : Q) : option Q :=
  if Qeq_bool y 0 then None else Some (binary64 (x / y)).

(** The integer, or the number, that a field of a response carries.
    NaN and the infinities, which [JSON.stringify] writes as [null],
    are read as 0; the theorems on the rates and the score show that
    the code does not produce them. *)
Definition integerOf (n : option Z) : Z :=
  match n with Some z => z | None => 0 end.

Definition numberOf (x : option Q) : Q :=
  match x with Some q => q | None => 0%Q end.

(** Evaluation goes on with the value of a division, or stops with
    [None]. *)
Definition andThen {A B : Type} (a : option A) (f : A -> option B)
    : option B :=
  match a with Some x => f x | None => None end.

Notation "'let*' x ':=' a 'in' b" := (andThen a (fun x => b))
  (at level 10, x name, a at level 100, b at level 200).

(** [Math.round((part / whole) * 100)]. *)
Definition percentOf (part whole : Z) : option Z :=
  let* ratio := JS_div (num part) (num whole) in
  Some (Math_round (JS_mul ratio 100)).

(** The relative error of one rounding is at most [2^-53]. *)
Definition epsilon : Q := 1 # 9007199254740992.

Definition msPerDay : Z := 24 * 60 * 60 * 1000.

Section LocalTime.

(** Offset of the server's local time, milliseconds east of UTC. *)
Variable tz : Z.

(** [d.setHours(0, 0, 0, 0)]: local midnight of [d]'s day. *)
Definition startOfDay (d : Z) : Z := d - ((d + tz) mod msPerDay).

(** [d.setHours(h, m, s, ms)]. *)
Definition setHours (d h m s ms : Z) : Z :=
  startOfDay d + ((h * 60 + m) * 60 + s) * 1000 + ms.

(** [d.setDate(d.getDate() + n)]: [n] calendar days later, same local
    time of day. *)
Definition addDays (d n : Z) : Z := d + n * msPerDay.

(* =================================================================== *)
(** * Streak *)
(* =================================================================== *)

(** The body of the loop up to [completedOnDay]: is some task
    Completed with [updatedAt] between [dayStart] and [dayEnd]? *)
Definition completedOnDay (allTasks : list Task) (checkDate : Z) : bool :=
  let dayStart := checkDate in
  let dayEnd := setHours checkDate 23 59 59 999 in
  existsb (fun task =>
             Status_eqb (status task) Completed
             && (dayStart <=? updatedAt task)
             && (updatedAt task <=? dayEnd))
          allTasks.

End LocalTime.

(** Iterations left to the loop of [getProductivityStats], which leaves
    at the latest when [currentStreak] passes 365. *)
Definition userStreakRoom (currentStreak : Z) : nat :=
  Z.to_nat (366 - currentStreak).
Arguments userStreakRoom : simpl never.

(** Iterations left to the loop of [getTeamProductivityStats]. *)
Definition teamStreakRoom (currentStreak : Z) : nat :=
  Z.to_nat (365 - currentStreak).
Arguments teamStreakRoom : simpl never.

Definition inspect {A : Type} (a : A) : {b : A | a = b} :=
  exist _ a eq_refl.

(** [getProductivityStats]:
<<
    while (true) {
        ...
        if (completedOnDay) { currentStreak++; checkDate.setDate(checkDate.getDate() - 1); }
        else { break; }
        if (currentStreak > 365) break;
    }
>> *)
Equations? userStreakLoop (tz : Z) (allTasks : list Task)
    (currentStreak checkDate : Z) : Z
  by wf (userStreakRoom currentStreak) lt :=
  userStreakLoop tz allTasks currentStreak checkDate
    with inspect (completedOnDay tz allTasks checkDate) => {
    | exist _ true _ with inspect (currentStreak + 1 >? 365) => {
        | exist _ true _ := currentStreak + 1
        | exist _ false _ :=
            userStreakLoop tz allTasks (currentStreak + 1)
                           (addDays checkDate (-1)) };
    | exist _ false _ := currentStreak }.
Proof. unfold userStreakRoom. lia. Qed.

(** [getTeamProductivityStats]:
<<
    while (currentStreak < 365) {
        ...
        if (completedOnDay) { currentStreak++; checkDate.setDate(checkDate.getDate() - 1); }
        else { break; }
    }
>> *)
Equations? teamStreakLoop (tz : Z) (allTasks : list Task)
    (currentStreak checkDate : Z) : Z
  by wf (teamStreakRoom currentStreak) lt :=
  teamStreakLoop tz allTasks currentStreak checkDate
    with inspect (currentStreak <? 365) => {
    | exist _ false _ := currentStreak
    | exist _ true _ with inspect (completedOnDay tz allTasks checkDate) => {
        | exist _ true _ :=
            teamStreakLoop tz allTasks (currentStreak + 1)
                           (addDays checkDate (-1))
        | exist _ false _ := currentStreak } }.
Proof. unfold teamStreakRoom. lia. Qed.

(** [let currentStreak = 0; let checkDate = new Date();
     checkDate.setHours(0, 0, 0, 0); while ...]. *)
Definition userStreak (tz : Z) (allTasks : list Task) (now : Z) : Z :=
  userStreakLoop tz allTasks 0 (startOfDay tz now).

Definition teamStreak (tz : Z) (allTasks : list Task) (now : Z) : Z :=
  teamStreakLoop tz allTasks 0 (startOfDay tz now).

(* ===================================================================== *)
(** * Productivity statistics of one user *)
(* ===================================================================== *)

(** [t.status === 'Completed']. *)
Definition isCompleted (t : Task) : bool := Status_eqb (status t) Completed.

(** [task.dueDate && new Date(task.updatedAt) <= new Date(task.dueDate)]. *)
Definition isOnTime (task : Task) : bool :=
  match dueDate task with
  | Some due => updatedAt task <=? due
  | None => false
  end.

(** [task.status !== 'Completed' && task.dueDate &&
     new Date(task.dueDate) < new Date()]. *)
Definition isOverdue (now : Z) (task : Task) : bool :=
  negb (isCompleted task)
  && match dueDate task with
     | Some due => due <? now
     | None => false
     end.

(** [completedTasks.length > 0
       ? Math.round((onTimeCompletions / completedTasks.length) * 100) : 0]. *)
Definition onTimeRateNumber (completedTasks : list Task) : option Z :=
  let onTimeCompletions := count isOnTime completedTasks in
  if len completedTasks >? 0
  then percentOf onTimeCompletions (len completedTasks)
  else Some 0.

Definition onTimeRateOf (completedTasks : list Task) : Z :=
  integerOf (onTimeRateNumber completedTasks).

Record ChecklistStats := {
  total : Z;
  completedItems : Z
}.

(** The [forEach] that accumulates the checklist totals. *)
Definition checklistStatsOf (allTasks : list Task) : ChecklistStats :=
  fold_left
    (fun checklistStats task =>
       if len (todoChecklist task) >? 0
       then {| total := total checklistStats + len (todoChecklist task);
               completedItems := completedItems checklistStats
                                 + count completed (todoChecklist task) |}
       else checklistStats)
    allTasks
    {| total := 0; completedItems := 0 |}.

(** [checklistStats.total > 0
       ? Math.round((checklistStats.completed / checklistStats.total) * 100) : 0]. *)
Definition checklistCompletionRateNumber (checklistStats : ChecklistStats)
    : option Z :=
  if total checklistStats >? 0
  then percentOf (completedItems checklistStats) (total checklistStats)
  else Some 0.

Definition checklistCompletionRateOf (checklistStats : ChecklistStats) : Z :=
  integerOf (checklistCompletionRateNumber checklistStats).

(** [checklistTotal > 0 ? (checklistCompleted / checklistTotal) * 100 : 0]
    of the team report, which does not round the rate. *)
Definition checklistRateNumber (checklistStats : ChecklistStats) : option Q :=
  if total checklistStats >? 0
  then let* ratio := JS_div (num (completedItems checklistStats))
                            (num (total checklistStats)) in
       Some (JS_mul ratio 100)
  else Some 0%Q.

(** [Math.min(100, Math.round(totalTaskWeight + completionRateWeight
     + onTimeWeight + streakWeight + checklistWeight))], with the five
    weights as the source computes them; the sum is taken from the
    left, [0.25] and [0.15] are the numbers nearest to these decimals.
    In [getProductivityStats] the checklist rate is the rounded
    percentage; in [getTeamProductivityStats] it is not rounded. *)
Definition sumOfWeights (volume completionRate weeks : Q) (onTimeRate : Z)
    (checklistRate : Q) : Q :=
  let totalTaskWeight := JS_mul (Qmin volume 1) 20 in
  let completionRateWeight := JS_mul completionRate 25 in
  let onTimeWeight := JS_mul (num onTimeRate) (binary64 0.25) in
  let streakWeight := JS_mul (Qmin weeks 1) 15 in
  let checklistWeight := JS_mul checklistRate (binary64 0.15) in
  JS_add (JS_add (JS_add (JS_add totalTaskWeight completionRateWeight)
                         onTimeWeight)
                 streakWeight)
         checklistWeight.

Definition scoreNumber (nTasks nCompleted onTimeRate currentStreak : Z)
    (checklistRate : Q) : option Z :=
  let* volume := JS_div (num nTasks) 10 in
  let* completionRate := JS_div (num nCompleted) (num (Z.max nTasks 1)) in
  let* weeks := JS_div (num currentStreak) 7 in
  Some (Z.min 100
          (Math_round (sumOfWeights volume completionRate weeks onTimeRate
                                    checklistRate))).

Definition scoreOf (nTasks nCompleted onTimeRate currentStreak : Z)
    (checklistRate : Q) : Z :=
  integerOf (scoreNumber nTasks nCompleted onTimeRate currentStreak
                         checklistRate).

(** ** The weights in exact arithmetic

    The five weights and their sum as the worked example of the
    specification computes them, without the rounding of binary64. *)
Definition totalTaskWeight (nTasks : Z) : Q :=
  (Qmin (num nTasks / 10) 1 * 20)%Q.

Definition completionRateWeight (nCompleted nTasks : Z) : Q :=
  ((num nCompleted / num (Z.max nTasks 1)) * 25)%Q.

Definition onTimeWeight (onTimeRate : Z) : Q := (num onTimeRate * 0.25)%Q.

Definition streakWeight (currentStreak : Z) : Q :=
  (Qmin (num currentStreak / 7) 1 * 15)%Q.

Definition checklistWeight (checklistRate : Q) : Q := (checklistRate * 0.15)%Q.

Definition weightSum (nTasks nCompleted onTimeRate currentStreak : Z)
    (checklistRate : Q) : Q :=
  (totalTaskWeight nTasks + completionRateWeight nCompleted nTasks
   + onTimeWeight onTimeRate + streakWeight currentStreak
   + checklistWeight checklistRate)%Q.

(** ** The same expressions on floating-point data

    The operations of IEEE 754 binary64 (round to nearest, ties to
    even) on the sign, significand and exponent of a number, with the
    bounded exponent range.  They evaluate given counts a second time,
    bit by bit. *)
Module Binary64.

Definition prec : Z := 53.
Definition emax : Z := 1024.

(** An integer as a number. *)
Definition ofZ (z : Z) : spec_float :=
  match z with
  | 0 => S754_zero false
  | Z.pos _ => binary_normalize prec emax z 0 false
  | Z.neg _ => binary_normalize prec emax z 0 true
  end.

Definition mul : spec_float -> spec_float -> spec_float := SFmul prec emax.
Definition div : spec_float -> spec_float -> spec_float := SFdiv prec emax.
Definition add : spec_float -> spec_float -> spec_float := SFadd prec emax.

(** The literals [0.25] and [0.15]: the numbers nearest to 25/100 and
    15/100. *)
Definition quarter : spec_float := div (ofZ 25) (ofZ 100).
Definition fifteenHundredths : spec_float := div (ofZ 15) (ofZ 100).

(** [Math.min(x, y)]. *)
Definition Math_min (x y : spec_float) : spec_float :=
  match SFcompare x y with
  | Some Gt => y
  | Some _ => x
  | None => S754_nan
  end.

(** [Math.round(x)]: the floor of [x + 1/2], or [None] when [x] is not
    finite. *)
Definition Math_round (x : spec_float) : option Z :=
  match x with
  | S754_zero _ => Some 0
  | S754_finite s m e =>
      let n := if s then Z.neg m else Z.pos m in
      if 0 <=? e then Some (n * 2 ^ e)
      else Some ((2 * n + 2 ^ (- e)) / 2 ^ (1 - e))
  | S754_infinity _ | S754_nan => None
  end.

(** [Math.round((a / b) * 100)]. *)
Definition percent (a b : Z) : option Z :=
  Math_round (mul (div (ofZ a) (ofZ b)) (ofZ 100)).

(** [totalTaskWeight + completionRateWeight + onTimeWeight + streakWeight
     + checklistWeight], added from the left. *)
Definition weightSum (nTasks nCompleted onTimeRate currentStreak
    checklistRate : Z) : spec_float :=
  let totalTaskWeight :=
    mul (Math_min (div (ofZ nTasks) (ofZ 10)) (ofZ 1)) (ofZ 20) in
  let completionRateWeight :=
    mul (div (ofZ nCompleted) (ofZ (Z.max nTasks 1))) (ofZ 25) in
  let onTimeWeight := mul (ofZ onTimeRate) quarter in
  let streakWeight :=
    mul (Math_min (div (ofZ currentStreak) (ofZ 7)) (ofZ 1)) (ofZ 15) in
  let checklistWeight := mul (ofZ checklistRate) fifteenHundredths in
  add (add (add (add totalTaskWeight completionRateWeight) onTimeWeight)
           streakWeight)
      checklistWeight.

(** [Math.min(100, Math.round(...))] of [getProductivityStats]. *)
Definition scoreOf (nTasks nCompleted onTimeRate currentStreak
    checklistRate : Z) : option Z :=
  option_map (Z.min 100)
             (Math_round (weightSum nTasks nCompleted onTimeRate
                                    currentStreak checklistRate)).

End Binary64.

(** [parseInt(period) || 30]; [None] is a [period] that does not parse. *)
Definition daysToAnalyzeOf (period : option Z) : Z :=
  match period with
  | Some 0 | None => 30
  | Some n => n
  end.

(** [startDate.setDate(startDate.getDate() - daysToAnalyze);
     startDate.setHours(0, 0, 0, 0)]. *)
Definition startDateOf (tz now daysToAnalyze : Z) : Z :=
  startOfDay tz (addDays now (- daysToAnalyze)).

(** The response of [getProductivityStats], its groups ([summary],
    [periodStats], [checklistStats]) flattened.  The average completion
    time, the per-priority counts and the weekly trend, which the score
    does not read, are left out. *)
Record ProductivityStats := {
  period : Z;
  summary_totalTasks : Z;
  summary_completedTasks : Z;
  summary_pendingTasks : Z;
  summary_inProgressTasks : Z;
  summary_overdueTasks : Z;
  summary_productivityScore : Z;
  periodStats_tasksCompleted : Z;
  periodStats_tasksCreated : Z;
  periodStats_onTimeRate : Z;
  periodStats_currentStreak : Z;
  checklistStats_total : Z;
  checklistStats_completed : Z;
  checklistStats_rate : Z
}.

(** The body of [getProductivityStats] once [allTasks] is fetched. *)
Definition productivityStatsOf (tz now : Z) (period : option Z)
    (allTasks : list Task) : ProductivityStats :=
  let daysToAnalyze := daysToAnalyzeOf period in
  let startDate := startDateOf tz now daysToAnalyze in
  let completedInPeriod :=
    filter (fun task => isCompleted task && (startDate <=? updatedAt task))
           allTasks in
  let createdInPeriod :=
    filter (fun task => startDate <=? createdAt task) allTasks in
  let completedTasks := filter isCompleted allTasks in
  let onTimeRate := onTimeRateOf completedTasks in
  let currentStreak := userStreak tz allTasks now in
  let checklistStats := checklistStatsOf allTasks in
  let checklistCompletionRate := checklistCompletionRateOf checklistStats in
  let overdueTasks := count (isOverdue now) allTasks in
  let productivityScore :=
    scoreOf (len allTasks) (len completedTasks) onTimeRate currentStreak
            (num checklistCompletionRate) in
  {| period := daysToAnalyze;
     summary_totalTasks := len allTasks;
     summary_completedTasks := len completedTasks;
     summary_pendingTasks :=
       count (fun t => Status_eqb (status t) Pending) allTasks;
     summary_inProgressTasks :=
       count (fun t => Status_eqb (status t) InProgress) allTasks;
     summary_overdueTasks := overdueTasks;
     summary_productivityScore := productivityScore;
     periodStats_tasksCompleted := len completedInPeriod;
     periodStats_tasksCreated := len createdInPeriod;
     periodStats_onTimeRate := onTimeRate;
     periodStats_currentStreak := currentStreak;
     checklistStats_total := total checklistStats;
     checklistStats_completed := completedItems checklistStats;
     checklistStats_rate := checklistCompletionRate |}.

(** [Task.find({ assignedTo: userId })]. *)
Definition findByAssignee (tasks : list Task) (userId : Id) : list Task :=
  filter (fun t => existsb (String.eqb userId) (assignedTo t)) tasks.

(** [getProductivityStats]: the statistics of the caller, or of
    [targetUserId] when the caller is an admin. *)
Definition getProductivityStats (tz now : Z) (tasks : list Task)
    (reqUser : User) (period : option Z) (targetUserId : option Id)
    : ProductivityStats :=
  let userId :=
    match targetUserId with
    | Some target =>
        if negb (String.eqb target "") && isAdmin reqUser
        then target else uid reqUser
    | None => uid reqUser
    end in
  productivityStatsOf tz now period (findByAssignee tasks userId).

(* ===================================================================== *)
(** * Team statistics *)
(* ===================================================================== *)

(** One element of [teamStats]. *)
Record MemberStats := {
  memberUser : User;
  totalTasks : Z;
  completedTasks : Z;
  completedInPeriod : Z;
  pendingTasks : Z;
  inProgressTasks : Z;
  overdueTasks : Z;
  onTimeRate : Z;
  currentStreak : Z;
  productivityScore : Z
}.

(** The callback of [orgUsers.map] once the member's [allTasks] are
    fetched. *)
Definition memberStatsOf (tz now startDate : Z) (member : User)
    (allTasks : list Task) : MemberStats :=
  let completedTasks := filter isCompleted allTasks in
  let completedInPeriod :=
    filter (fun task => isCompleted task && (startDate <=? updatedAt task))
           allTasks in
  let onTimeRate := onTimeRateOf completedTasks in
  let overdueTasks := count (isOverdue now) allTasks in
  let checklistStats := checklistStatsOf allTasks in
  let currentStreak := teamStreak tz allTasks now in
  let checklistRate := numberOf (checklistRateNumber checklistStats) in
  let productivityScore :=
    scoreOf (len allTasks) (len completedTasks) onTimeRate currentStreak
            checklistRate in
  {| memberUser := member;
     totalTasks := len allTasks;
     completedTasks := len completedTasks;
     completedInPeriod := len completedInPeriod;
     pendingTasks := count (fun t => Status_eqb (status t) Pending) allTasks;
     inProgressTasks :=
       count (fun t => Status_eqb (status t) InProgress) allTasks;
     overdueTasks := overdueTasks;
     onTimeRate := onTimeRate;
     currentStreak := currentStreak;
     productivityScore := productivityScore |}.

(** [Array.prototype.sort(compare)]: a stable sort; an element goes
    before the first one it does not compare greater than. *)
Fixpoint insertSorted {A : Type} (compare : A -> A -> Z) (x : A)
    (l : list A) : list A :=
  match l with
  | [] => [x]
  | y :: l' =>
      if compare x y <=? 0 then x :: y :: l'
      else y :: insertSorted compare x l'
  end.

Definition Array_sort {A : Type} (compare : A -> A -> Z) (l : list A)
    : list A :=
  fold_right (insertSorted compare) [] l.

(** [(a, b) => b.productivityScore - a.productivityScore]. *)
Definition byScoreDescending (a b : MemberStats) : Z :=
  productivityScore b - productivityScore a.

Record TeamAverage := {
  avgProductivityScore : Z;
  totalCompleted : Z;
  avgOnTimeRate : Z;
  totalOverdue : Z
}.

(** [teamAverage], from the sorted [teamStats]. *)
Definition teamAverageOf (teamStats : list MemberStats) : TeamAverage :=
  {| avgProductivityScore :=
       if len teamStats >? 0
       then Math_round (num (sumOf productivityScore teamStats)
                        / num (len teamStats))%Q
       else 0;
     totalCompleted := sumOf completedInPeriod teamStats;
     avgOnTimeRate :=
       if len teamStats >? 0
       then Math_round (num (sumOf onTimeRate teamStats)
                        / num (len teamStats))%Q
       else 0;
     totalOverdue := sumOf overdueTasks teamStats |}.

Record TeamReport := {
  teamPeriod : Z;
  teamSize : Z;
  teamAverage : TeamAverage;
  members : list MemberStats
}.

(** Sorting and averaging, the end of [getTeamProductivityStats]. *)
Definition aggregate (daysToAnalyze : Z) (teamStats : list MemberStats)
    : TeamReport :=
  let teamStats := Array_sort byScoreDescending teamStats in
  {| teamPeriod := daysToAnalyze;
     teamSize := len teamStats;
     teamAverage := teamAverageOf teamStats;
     members := teamStats |}.

Inductive Response (A : Type) :=
| Ok (body : A)
| Forbidden (msg : string)
| NotFound (what : string).
Arguments Ok {A} body.
Arguments Forbidden {A} msg.
Arguments NotFound {A} what.

(** [getTeamProductivityStats].  [publicDomain] is
    [isPublicDomain(getOrgDomain(req.user.email))] and [orgUsers] the
    result of the [User.find] of the organization's members who are not
    admins; utils/domainHelper is not among the sources. *)
Definition getTeamProductivityStats (tz now : Z) (tasks : list Task)
    (reqUser : User) (publicDomain : bool) (orgUsers : list User)
    (period : option Z) : Response TeamReport :=
  if negb (isAdmin reqUser) then Forbidden "Admin access required"
  else
    let daysToAnalyze := daysToAnalyzeOf period in
    let startDate := startDateOf tz now daysToAnalyze in
    if publicDomain
    then Forbidden "Admin access restricted for public domains."
    else
      let teamStats :=
        map (fun user => memberStatsOf tz now startDate user
                                       (findByAssignee tasks (uid user)))
            orgUsers in
      Ok (aggregate daysToAnalyze teamStats).

(* ===================================================================== *)
(** * The task collection *)
(* ===================================================================== *)

(** [Task.findById(id)]. *)
Definition findById (tasks : list Task) (id : Id) : option Task :=
  find (fun t => String.eqb (_id t) id) tasks.

(** [Task.findByIdAndUpdate(id, update)]: the first document with this
    [_id] is updated, whatever its fields hold; no document, no change. *)
Fixpoint findByIdAndUpdate (tasks : list Task) (id : Id)
    (update : Task -> Task) : list Task :=
  match tasks with
  | [] => []
  | t :: rest =>
      if String.eqb (_id t) id then update t :: rest
      else t :: findByIdAndUpdate rest id update
  end.

(** [task.save()]: the document replaces the stored one of the same
    [_id].  The handlers that save a document are not given a clock
    here: the [updatedAt] that the schema sets at a save is left as the
    document read has it, and the theorems on these handlers say
    nothing of the [updatedAt] that is stored. *)
Definition save (tasks : list Task) (task : Task) : list Task :=
  findByIdAndUpdate tasks (_id task) (fun _ => task).

(** [{ reminderSent: true, reminderSentAt: new Date() }], as
    [findByIdAndUpdate] writes it: with the timestamps of the schema
    the write also sets [updatedAt] to its own time.  The two readings
    of the clock are taken to be one instant, [sentAt]. *)
Definition markReminderSent (sentAt : Z) (t : Task) : Task :=
  {| _id := _id t; title := title t; status := status t;
     priority := priority t; dueDate := dueDate t;
     assignedTo := assignedTo t; createdAt := createdAt t;
     updatedAt := sentAt; todoChecklist := todoChecklist t;
     progress := progress t;
     reminderSent := Some true; reminderSentAt := Some sentAt;
     activityLog := activityLog t |}.

(** The fields that [updateTaskStatus] and [updateTaskChecklist] assign. *)
Definition withStatus (t : Task) (s : Status) (log : list ActivityLogEntry)
    : Task :=
  {| _id := _id t; title := title t; status := s;
     priority := priority t; dueDate := dueDate t;
     assignedTo := assignedTo t; createdAt := createdAt t;
     updatedAt := updatedAt t; todoChecklist := todoChecklist t;
     progress := progress t;
     reminderSent := reminderSent t; reminderSentAt := reminderSentAt t;
     activityLog := log |}.

Definition withChecklist (t : Task) (checklist : list ChecklistItem)
    (p : Z) : Task :=
  {| _id := _id t; title := title t; status := status t;
     priority := priority t; dueDate := dueDate t;
     assignedTo := assignedTo t; createdAt := createdAt t;
     updatedAt := updatedAt t; todoChecklist := checklist;
     progress := p;
     reminderSent := reminderSent t; reminderSentAt := reminderSentAt t;
     activityLog := activityLog t |}.

(* ===================================================================== *)
(** * The due-date reminder scan *)
(* ===================================================================== *)

(** The collaborators of one scan: whether [Notification.create]
    resolves for a task and a recipient, whether the transport's
    [sendMail] resolves for a task and an address, and the value of
    [new Date()] when the flag of a task is written. *)
Record Outside := {
  notificationCreate : Id -> Id -> bool;
  transportSendMail : Id -> string -> bool;
  writeTime : Id -> Z
}.

(** What one scan does outside its own variables. *)
Inductive Effect :=
| InApp (n : Notification)
| MailAttempt (taskId : Id) (to : string) (delivered : bool)
| FlagWrite (taskId : Id) (sentAt : Z).

Definition effectTask (e : Effect) : Id :=
  match e with
  | InApp n => task n
  | MailAttempt taskId _ _ => taskId
  | FlagWrite taskId _ => taskId
  end.

Definition isFlagWrite (e : Effect) : bool :=
  match e with FlagWrite _ _ => true | _ => false end.

(** The effects that concern one task. *)
Definition effectsFor (id : Id) (effects : list Effect) : list Effect :=
  filter (fun e => String.eqb (effectTask e) id) effects.

Definition quote : string := String (Ascii.ascii_of_nat 34) EmptyString.

(** [sendDueDateReminder]: the [success] field of what it returns.  A
    rejection of [transporter.sendMail] is caught inside and returned as
    [{ success: false }]; the function does not throw on it. *)
Definition sendDueDateReminder (out : Outside) (taskId : Id)
    (address : string) : bool :=
  transportSendMail out taskId address.

(** The callback of [task.assignedTo.map]: [None] is [null], [Some b]
    is an object whose [success] is [b].  The value that
    [sendDueDateReminder] returns is not read. *)
Definition remindUser (out : Outside) (t : Task) (u : User)
    : list Effect * option bool :=
  if String.eqb (email u) "" then ([], None)
  else if notificationCreate out (_id t) (uid u)
  then
    let delivered := sendDueDateReminder out (_id t) (email u) in
    ([InApp {| recipient := uid u;
               type := "reminder";
               subject := "Task Due Soon";
               message := quote ++ title t ++ quote
                          ++ " is due in less than 24 hours!";
               task := _id t |};
      MailAttempt (_id t) (email u) delivered],
     Some true)
  else ([], Some false).

(** [populate('assignedTo', 'name email')]: the user documents of the
    referenced ids; a reference to no document is dropped. *)
Definition populate (users : list User) (ids : list Id) : list User :=
  flat_map (fun id =>
              match find (fun u => String.eqb (uid u) id) users with
              | Some u => [u]
              | None => []
              end)
           ids.

(** [r?.success]. *)
Definition succeeded (r : option bool) : bool :=
  match r with Some true => true | _ => false end.

(** [reminderSent: { $ne: true }]. *)
Definition notReminded (t : Task) : bool :=
  match reminderSent t with Some true => false | _ => true end.

(** The filter of the scan's [Task.find]. *)
Definition needsReminder (now : Z) (t : Task) : bool :=
  let twentyFourHoursFromNow := now + 24 * 60 * 60 * 1000 in
  negb (Status_eqb (status t) Completed)
  && match dueDate t with
     | Some due => (now <? due) && (due <=? twentyFourHoursFromNow)
     | None => false
     end
  && notReminded t.

Definition selectTasks (now : Z) (tasks : list Task) : list Task :=
  filter (needsReminder now) tasks.

(** One turn of [for (const task of tasksNeedingReminders)], on the
    collection and the effects so far. *)
Definition remindTask (out : Outside) (users : list User)
    (state : list Task * list Effect) (t : Task)
    : list Task * list Effect :=
  let results := map (remindUser out t) (populate users (assignedTo t)) in
  let successCount := count (fun r => succeeded (snd r)) results in
  let effects := snd state ++ List.concat (map fst results) in
  if successCount >? 0
  then (findByIdAndUpdate (fst state) (_id t)
                          (markReminderSent (writeTime out (_id t))),
        effects ++ [FlagWrite (_id t) (writeTime out (_id t))])
  else (fst state, effects).

(** The loop over the tasks that the query returned. *)
Definition dispatchReminders (out : Outside) (users : list User)
    (tasksNeedingReminders : list Task) (tasks : list Task)
    : list Task * list Effect :=
  fold_left (remindTask out users) tasksNeedingReminders (tasks, []).

Record ScanResult := {
  success : bool;
  tasksProcessed : Z
}.

Record Scan := {
  tasksAfter : list Task;
  effects : list Effect;
  result : ScanResult
}.

(** [checkDueDateReminders], with the task and user collections
    reachable. *)
Definition checkDueDateReminders (out : Outside) (now : Z)
    (users : list User) (tasks : list Task) : Scan :=
  let tasksNeedingReminders := selectTasks now tasks in
  let after := dispatchReminders out users tasksNeedingReminders tasks in
  {| tasksAfter := fst after;
     effects := snd after;
     result := {| success := true;
                  tasksProcessed := len tasksNeedingReminders |} |}.

(* ===================================================================== *)
(** * Status and checklist updates *)
(* ===================================================================== *)

(** [addActivityLog(task, userId, action, details, oldValue, newValue)]. *)
Definition addActivityLog (t : Task) (userId : Id)
    (action details oldValue newValue : string) : Task :=
  withStatus t (status t)
    (activityLog t ++ [{| user := userId; action := action;
                          details := details; oldValue := oldValue;
                          newValue := newValue |}]).

(** [task.todoChecklist.forEach((item) => (item.completed = true))]. *)
Definition completeAll (checklist : list ChecklistItem)
    : list ChecklistItem :=
  map (fun item => {| text := text item; completed := true |}) checklist.

(** [updateTaskStatus]: the collection after the request and the
    response.  [bodyStatus] is [req.body.status], [None] when falsy.

    The body of the handler is a [try]; its [catch] answers 500.  It is
    reached when an awaited call rejects: [findById] for an id that is
    not the text of an ObjectId, or the database failing.  The
    handlers here are those of the [try] with [id] an ObjectId and the
    database answering: the answer 500 is not among the responses, and
    no theorem says of a request of the code that it is not answered
    so. *)
Definition updateTaskStatus (tasks : list Task) (id : Id) (reqUser : User)
    (bodyStatus : option Status) : list Task * Response Task :=
  match findById tasks id with
  | None => (tasks, NotFound "Task")
  | Some t =>
      let isAssigned :=
        String.eqb (String.concat "," (assignedTo t)) (uid reqUser) in
      if negb isAssigned && negb (isAdmin reqUser)
      then (tasks, Forbidden "You are not authorized to update this task")
      else
        let oldStatus := status t in
        let t1 :=
          withStatus t (match bodyStatus with
                        | Some s => s
                        | None => status t
                        end) (activityLog t) in
        let t2 :=
          if negb (Status_eqb oldStatus (status t1))
          then addActivityLog t1 (uid reqUser) "status_changed"
                              "Status was changed"
                              (Status_toString oldStatus)
                              (Status_toString (status t1))
          else t1 in
        let t3 :=
          if Status_eqb (status t2) Completed
          then withChecklist t2 (completeAll (todoChecklist t2)) 100
          else t2 in
        (save tasks t3, Ok t3)
  end.

(** [totalItems > 0 ? Math.round((completedCount / totalItems) * 100) : 0]. *)
Definition progressNumber (todoChecklist : list ChecklistItem) : option Z :=
  let completedCount := count completed todoChecklist in
  let totalItems := len todoChecklist in
  if totalItems >? 0 then percentOf completedCount totalItems else Some 0.

(** [updateTaskChecklist], under the same convention. *)
Definition updateTaskChecklist (tasks : list Task) (id : Id)
    (reqUser : User) (todoChecklist' : list ChecklistItem)
    : list Task * Response Task :=
  match findById tasks id with
  | None => (tasks, NotFound "Task")
  | Some t =>
      if negb (existsb (String.eqb (uid reqUser)) (assignedTo t))
         && negb (isAdmin reqUser)
      then (tasks, Forbidden "You are not authorized to update this task")
      else
        let progress' := integerOf (progressNumber todoChecklist') in
        let t1 := withChecklist t todoChecklist' progress' in
        let t2 :=
          withStatus t1
            (if progress' =? 100 then Completed
             else if progress' >? 0 then InProgress
             else Pending)
            (activityLog t1) in
        (save tasks t2, Ok t2)
  end.

(* ===================================================================== *)
(** * The streak in the words of the specification *)
(* ===================================================================== *)

(** Day [i] before the day of [asOf] counts when some task is Completed
    with [updatedAt] within that day, from 00:00:00.000 to 23:59:59.999
    local time. *)
Definition dayCounts (tz : Z) (tasks : list Task) (asOf : Z) (i : nat)
    : bool :=
  let midnight := startOfDay tz asOf - Z.of_nat i * msPerDay in
  existsb (fun t =>
             isCompleted t
             && (midnight <=? updatedAt t)
             && (updatedAt t <=? midnight + msPerDay - 1))
          tasks.

(** [k] is the number of consecutive counting days that end at, and
    include, the day of [asOf]: the [k] days from that day backwards
    count and the day before them does not. *)
Definition consecutiveDays (tz : Z) (tasks : list Task) (asOf : Z) (k : nat)
    : bool :=
  forallb (dayCounts tz tasks asOf) (seq 0 k)
  && negb (dayCounts tz tasks asOf k).

(* ===================================================================== *)
(** * Notions used in the statements *)
(* ===================================================================== *)

(** [a] is ranked at least as high as [b]. *)
Definition scoreGe (a b : MemberStats) : Prop :=
  productivityScore b <= productivityScore a.

(** Every stored task of this id has its reminder flag set. *)
Definition flagged (id : Id) (tasks : list Task) : Prop :=
  forall t, In t tasks -> _id t = id -> reminderSent t = Some true.

(** Some assignee of [t] with an address had the callback of the scan
    report success: the notification document was created. *)
Definition someCallbackSucceeded (out : Outside) (users : list User)
    (t : Task) : bool :=
  existsb (fun u => negb (String.eqb (email u) "")
                    && notificationCreate out (_id t) (uid u))
          (populate users (assignedTo t)).

(** Some mail of the scan for [t] was accepted by the transport. *)
Definition someMailDelivered (out : Outside) (users : list User)
    (t : Task) : bool :=
  existsb (fun u => negb (String.eqb (email u) "")
                    && notificationCreate out (_id t) (uid u)
                    && transportSendMail out (_id t) (email u))
          (populate users (assignedTo t)).

Definition isDeliveredMail (e : Effect) : bool :=
  match e with MailAttempt _ _ delivered => delivered | _ => false end.

Definition isInApp (e : Effect) : bool :=
  match e with InApp _ => true | _ => false end.

(* ===================================================================== *)
(** * Sample data *)
(* ===================================================================== *)

(** 2025-11-03 12:00:00 UTC. *)
Definition noon : Z := 1762171200000.

Definition sampleTask (id : Id) (s : Status) (updated : Z)
    (due : option Z) (checklist : list ChecklistItem) : Task :=
  {| _id := id; title := "Report"; status := s; priority := Medium;
     dueDate := due; assignedTo := ["u1"%string];
     createdAt := updated - msPerDay; updatedAt := updated;
     todoChecklist := checklist; progress := 0;
     reminderSent := Some false; reminderSentAt := None;
     activityLog := [] |}.

(** A task completed at [now - i] days, without due date or checklist. *)
Definition completedDaysAgo (now : Z) (i : nat) : Task :=
  sampleTask (String "t"%char (NilEmpty.string_of_uint (Nat.to_uint i)))
             Completed (now - Z.of_nat i * msPerDay) None [].

(** One completion on each of the [n] days that end today. *)
Definition dailyCompletions (now : Z) (n : nat) : list Task :=
  map (completedDaysAgo now) (seq 0 n).

(** Completions today, yesterday and three days ago. *)
Definition gapOnDayTwo : list Task :=
  [completedDaysAgo noon 0; completedDaysAgo noon 1; completedDaysAgo noon 3].

Definition checked (n : nat) : list ChecklistItem :=
  repeat {| text := "step"; completed := true |} n.

Definition unchecked (n : nat) : list ChecklistItem :=
  repeat {| text := "step"; completed := false |} n.

(** Ten tasks of one user: six Completed, five of them by their due
    date, the last three on today, yesterday and the day before; twenty
    checklist items, fifteen of them completed. *)
Definition tenTasks : list Task :=
  [ sampleTask "a0" Completed noon (Some (noon + 3600000)) (checked 5);
    sampleTask "a1" Completed (noon - msPerDay) (Some noon) (checked 5);
    sampleTask "a2" Completed (noon - 2 * msPerDay) (Some noon) (checked 5);
    sampleTask "a3" Completed (noon - 10 * msPerDay) (Some noon) [];
    sampleTask "a4" Completed (noon - 11 * msPerDay) (Some noon) [];
    sampleTask "a5" Completed (noon - 12 * msPerDay)
               (Some (noon - 13 * msPerDay)) [];
    sampleTask "a6" Pending (noon - 5 * msPerDay) None (unchecked 5);
    sampleTask "a7" Pending (noon - 5 * msPerDay) (Some (noon + msPerDay)) [];
    sampleTask "a8" InProgress (noon - 6 * msPerDay) None [];
    sampleTask "a9" InProgress (noon - 7 * msPerDay)
               (Some (noon - msPerDay)) [] ].

Definition sampleUser (id : Id) : User :=
  {| uid := id; name := "Member"; email := id ++ "@example.org";
     role := member |}.

(** A member snapshot with the given score and on-time rate. *)
Definition sampleMember (id : Id) (score rate : Z) : MemberStats :=
  {| memberUser := sampleUser id;
     totalTasks := 10; completedTasks := 6; completedInPeriod := 4;
     pendingTasks := 2; inProgressTasks := 2; overdueTasks := 1;
     onTimeRate := rate; currentStreak := 1; productivityScore := score |}.

Definition threeMembers : list MemberStats :=
  [sampleMember "u1" 90 80; sampleMember "u2" 50 40; sampleMember "u3" 70 61].

(** Two members of one organization and a task due in ten hours that
    is assigned to both. *)
Definition alice : User :=
  {| uid := "u1"; name := "Alice"; email := "alice@example.org";
     role := member |}.

Definition bob : User :=
  {| uid := "u2"; name := "Bob"; email := "bob@example.org";
     role := member |}.

Definition dueIn (id : Id) (ms : Z) (assignees : list Id)
    (flag : option bool) : Task :=
  {| _id := id; title := "Report"; status := Pending; priority := High;
     dueDate := Some (noon + ms); assignedTo := assignees;
     createdAt := noon - msPerDay; updatedAt := noon - msPerDay;
     todoChecklist := []; progress := 0;
     reminderSent := flag; reminderSentAt := None;
     activityLog := [] |}.

Definition tenHours : Z := 10 * 60 * 60 * 1000.

(** Every notification is stored and every mail accepted. *)
Definition allDelivered (sentAt : Z) : Outside :=
  {| notificationCreate := fun _ _ => true;
     transportSendMail := fun _ _ => true;
     writeTime := fun _ => sentAt |}.

(** Every notification is stored and the transport rejects every mail. *)
Definition mailDown (sentAt : Z) : Outside :=
  {| notificationCreate := fun _ _ => true;
     transportSendMail := fun _ _ => false;
     writeTime := fun _ => sentAt |}.

(** The transport rejects the mails to Alice only. *)
Definition aliceBounces (sentAt : Z) : Outside :=
  {| notificationCreate := fun _ _ => true;
     transportSendMail :=
       fun _ address => negb (String.eqb address "alice@example.org");
     writeTime := fun _ => sentAt |}.

(** The notification store is down. *)
Definition storeDown (sentAt : Z) : Outside :=
  {| notificationCreate := fun _ _ => false;
     transportSendMail := fun _ _ => true;
     writeTime := fun _ => sentAt |}.

(** A task of Alice with three checklist items, one of them done. *)
Definition withThreeSteps : Task :=
  {| _id := "t7"; title := "Report"; status := InProgress; priority := Low;
     dueDate := None; assignedTo := ["u1"%string];
     createdAt := noon - msPerDay; updatedAt := noon - msPerDay;
     todoChecklist := [ {| text := "draft"; completed := true |};
                        {| text := "review"; completed := false |};
                        {| text := "send"; completed := false |} ];
     progress := 33;
     reminderSent := Some false; reminderSentAt := None;
     activityLog := [] |}.

(* ===================================================================== *)
(** * The rest of [getProductivityStats] *)
(* ===================================================================== *)

Definition Priority_eqb (a b : Priority) : bool :=
  match a, b with
  | Low, Low | Medium, Medium | High, High => true
  | _, _ => false
  end.

(** [Math.ceil(a / b)] for a positive [b]. *)
Definition Math_ceil_ratio (a b : Z) : Z := - ((- a) / b).

(** One element of [weeklyData]; [week] is the number in the text
    [`Week ${weeksToShow - i}`].  The date label is left out. *)
Record WeekStats := {
  week : Z;
  weekCompleted : Z;
  weekCreated : Z
}.

(** [weekStart.setDate(weekStart.getDate() - ((i + 1) * 7));
     weekStart.setHours(0, 0, 0, 0)]. *)
Definition weekStartOf (tz now i : Z) : Z :=
  startOfDay tz (addDays now (- ((i + 1) * 7))).

(** [weekEnd.setDate(weekEnd.getDate() - (i * 7));
     weekEnd.setHours(23, 59, 59, 999)]. *)
Definition weekEndOf (tz now i : Z) : Z :=
  setHours tz (addDays now (- (i * 7))) 23 59 59 999.

(** The body of the loop over the weeks. *)
Definition weekStatsOf (tz now weeksToShow : Z) (allTasks : list Task)
    (i : Z) : WeekStats :=
  let weekStart := weekStartOf tz now i in
  let weekEnd := weekEndOf tz now i in
  {| week := weeksToShow - i;
     weekCompleted :=
       count (fun task => isCompleted task
                          && (weekStart <=? updatedAt task)
                          && (updatedAt task <=? weekEnd))
             allTasks;
     weekCreated :=
       count (fun task => (weekStart <=? createdAt task)
                          && (createdAt task <=? weekEnd))
             allTasks |}.

(** [for (let i = 0; i < weeksToShow; i++) { ... weeklyData.unshift(...) }]. *)
Definition weeklyDataOf (tz now daysToAnalyze : Z) (allTasks : list Task)
    : list WeekStats :=
  let weeksToShow := Math_ceil_ratio daysToAnalyze 7 in
  fold_left (fun weeklyData i =>
               weekStatsOf tz now weeksToShow allTasks i :: weeklyData)
            (map Z.of_nat (seq 0 (Z.to_nat weeksToShow)))
            [].

(** [avgCompletionTime]: the mean time from creation to the last update
    of the Completed tasks, in days. *)
Definition avgCompletionTimeOf (allTasks : list Task) : Z :=
  let completedTasksWithTime := filter isCompleted allTasks in
  if len completedTasksWithTime >? 0
  then
    let totalTime :=
      sumOf (fun task => updatedAt task - createdAt task)
            completedTasksWithTime in
    Math_round (num totalTime / num (len completedTasksWithTime)
                / num (1000 * 60 * 60 * 24))%Q
  else 0.

Record PriorityCounts := {
  countHigh : Z;
  countMedium : Z;
  countLow : Z
}.

(** [completedByPriority], over the tasks completed in the period. *)
Definition completedByPriorityOf (tz now : Z) (period : option Z)
    (allTasks : list Task) : PriorityCounts :=
  let startDate := startDateOf tz now (daysToAnalyzeOf period) in
  let completedInPeriod :=
    filter (fun task => isCompleted task && (startDate <=? updatedAt task))
           allTasks in
  {| countHigh := count (fun t => Priority_eqb (priority t) High)
                        completedInPeriod;
     countMedium := count (fun t => Priority_eqb (priority t) Medium)
                          completedInPeriod;
     countLow := count (fun t => Priority_eqb (priority t) Low)
                       completedInPeriod |}.

(* ===================================================================== *)
(** * The dashboards *)
(* ===================================================================== *)

Record Statistics := {
  stat_totalTasks : Z;
  stat_pendingTasks : Z;
  stat_completedTasks : Z;
  stat_overdueTasks : Z
}.

(** [taskDistribution]: the keys are the statuses without white space,
    and [All]. *)
Record TaskDistribution := {
  dist_Pending : Z;
  dist_InProgress : Z;
  dist_Completed : Z;
  dist_All : Z
}.

Record PriorityLevels := {
  level_Low : Z;
  level_Medium : Z;
  level_High : Z
}.

(** The fields of a task that the dashboards list. *)
Record RecentTask := {
  recent_title : string;
  recent_status : Status;
  recent_priority : Priority;
  recent_dueDate : option Z;
  recent_createdAt : Z
}.

Record Dashboard := {
  statistics : Statistics;
  taskDistribution : TaskDistribution;
  taskPriorityLevels : PriorityLevels;
  recentTasks : list RecentTask
}.

Definition recentOf (t : Task) : RecentTask :=
  {| recent_title := title t; recent_status := status t;
     recent_priority := priority t; recent_dueDate := dueDate t;
     recent_createdAt := createdAt t |}.

(** [(a, b) => b.createdAt - a.createdAt], and [sort({ createdAt: -1 })]. *)
Definition byCreatedAtDescending (a b : Task) : Z :=
  createdAt b - createdAt a.

(** [{ $group: { _id: key, count: { $sum: 1 } } }]: one element for each
    value of the key that occurs, with the number of its documents. *)
Definition groupCount {K : Type} (eqb : K -> K -> bool) (key : Task -> K)
    (docs : list Task) : list (K * Z) :=
  fold_left
    (fun groups t =>
       if existsb (fun item => eqb (fst item) (key t)) groups
       then map (fun item => if eqb (fst item) (key t)
                             then (fst item, snd item + 1)
                             else item)
                groups
       else groups ++ [(key t, 1)])
    docs [].

(** [raw.find((item) => item._id === k)?.count || 0]. *)
Definition countIn {K : Type} (eqb : K -> K -> bool) (k : K)
    (raw : list (K * Z)) : Z :=
  match find (fun item => eqb (fst item) k) raw with
  | Some item => snd item
  | None => 0
  end.

(** [getUserDashboardData]. *)
Definition getUserDashboardData (now : Z) (tasks : list Task)
    (reqUser : User) : Dashboard :=
  let userId := uid reqUser in
  let mine := findByAssignee tasks userId in
  let totalTasks := len mine in
  let pendingTasks := count (fun t => Status_eqb (status t) Pending) mine in
  let completedTasks :=
    count (fun t => Status_eqb (status t) Completed) mine in
  let overdueTasks :=
    count (fun t => negb (Status_eqb (status t) Completed)
                    && match dueDate t with
                       | Some due => due <? now
                       | None => false
                       end)
          mine in
  let taskDistributionRaw := groupCount Status_eqb status mine in
  let taskPriorityLevelsRaw := groupCount Priority_eqb priority mine in
  {| statistics := {| stat_totalTasks := totalTasks;
                      stat_pendingTasks := pendingTasks;
                      stat_completedTasks := completedTasks;
                      stat_overdueTasks := overdueTasks |};
     taskDistribution :=
       {| dist_Pending := countIn Status_eqb Pending taskDistributionRaw;
          dist_InProgress := countIn Status_eqb InProgress taskDistributionRaw;
          dist_Completed := countIn Status_eqb Completed taskDistributionRaw;
          dist_All := totalTasks |};
     taskPriorityLevels :=
       {| level_Low := countIn Priority_eqb Low taskPriorityLevelsRaw;
          level_Medium := countIn Priority_eqb Medium taskPriorityLevelsRaw;
          level_High := countIn Priority_eqb High taskPriorityLevelsRaw |};
     recentTasks :=
       map recentOf (firstn 10 (Array_sort byCreatedAtDescending mine)) |}.

(** [populate({ path: 'assignedTo', match: { email: ... } })]: the
    referenced users whose address is of the domain; [ofDomain] is the
    test of the regular expression built from [getOrgDomain], which is
    not among the sources. *)
Definition populateMatching (ofDomain : string -> bool) (users : list User)
    (ids : list Id) : list User :=
  filter (fun u => ofDomain (email u)) (populate users ids).

(** An array is truthy, empty or not. *)
Definition Array_truthy {A : Type} (l : list A) : bool := true.

(** [getDashboardData].  [publicDomain] is
    [isPublicDomain(getOrgDomain(req.user.email))]. *)
Definition getDashboardData (now : Z) (tasks : list Task) (users : list User)
    (reqUser : User) (publicDomain : bool) (ofDomain : string -> bool)
    : Response Dashboard :=
  if negb (isAdmin reqUser) || publicDomain
  then Forbidden "Unauthorized to access dashboard data"
  else
    let populated :=
      map (fun t => (t, populateMatching ofDomain users (assignedTo t)))
          tasks in
    let filteredTasks :=
      map fst (filter (fun t => Array_truthy (snd t)) populated) in
    let totalTasks := len filteredTasks in
    let pendingTasks :=
      count (fun t => Status_eqb (status t) Pending) filteredTasks in
    let completedTasks :=
      count (fun t => Status_eqb (status t) Completed) filteredTasks in
    let overdueTasks :=
      count (fun t => negb (Status_eqb (status t) Completed)
                      && match dueDate t with
                         | Some due => due <? now
                         | None => false
                         end)
            filteredTasks in
    Ok {| statistics := {| stat_totalTasks := totalTasks;
                           stat_pendingTasks := pendingTasks;
                           stat_completedTasks := completedTasks;
                           stat_overdueTasks := overdueTasks |};
          taskDistribution :=
            {| dist_Pending :=
                 count (fun t => Status_eqb (status t) Pending) filteredTasks;
               dist_InProgress :=
                 count (fun t => Status_eqb (status t) InProgress)
                       filteredTasks;
               dist_Completed :=
                 count (fun t => Status_eqb (status t) Completed)
                       filteredTasks;
               dist_All := totalTasks |};
          taskPriorityLevels :=
            {| level_Low :=
                 count (fun t => Priority_eqb (priority t) Low) filteredTasks;
               level_Medium :=
                 count (fun t => Priority_eqb (priority t) Medium)
                       filteredTasks;
               level_High :=
                 count (fun t => Priority_eqb (priority t) High)
                       filteredTasks |};
          recentTasks :=
            map recentOf
                (firstn 10 (Array_sort byCreatedAtDescending filteredTasks)) |}.

(* ===================================================================== *)
(** * The team report as it is exported *)
(* ===================================================================== *)

(** [getTeamProductivityData] of the report controller; [None] is the
    error it throws for a public domain.  The callback over the members
    and the end are those of [getTeamProductivityStats], statement by
    statement. *)
Definition getTeamProductivityData (tz now : Z) (tasks : list Task)
    (publicDomain : bool) (orgUsers : list User) (period : option Z)
    : option TeamReport :=
  let daysToAnalyze := daysToAnalyzeOf period in
  let startDate := startDateOf tz now daysToAnalyze in
  if publicDomain then None
  else
    let teamStats :=
      map (fun user => memberStatsOf tz now startDate user
                                     (findByAssignee tasks (uid user)))
          orgUsers in
    Some (aggregate daysToAnalyze teamStats).









(** [data.members[0]] and [data.members[data.members.length - 1]], the
    rows "Top Performer" and "Lowest Performer". *)
Definition topPerformerOf (data : TeamReport) : option MemberStats :=
  hd_error (members data).

Definition lowestPerformerOf (data : TeamReport) : option MemberStats :=
  last (map Some (members data)) None.

(** [member.totalTasks > 0
       ? Math.round((member.completedTasks / member.totalTasks) * 100) : 0]. *)
Definition completionRateNumber (m : MemberStats) : option Z :=
  if totalTasks m >? 0
  then percentOf (completedTasks m) (totalTasks m)
  else Some 0.

Definition completionRateOf (m : MemberStats) : Z :=
  integerOf (completionRateNumber m).

(* ===================================================================== *)
(** * The reminder for one task *)
(* ===================================================================== *)

(** What a handler answers: a body, or the status and message of
    [sendForbidden], [sendNotFound] and [sendBadRequest].  The answer
    of the [catch] of a handler ([sendError], 500), given when an
    awaited call rejects, is not modelled: [id] is the text of an
    ObjectId and the database answers. *)
Inductive Outcome (A : Type) :=
| Answered (body : A)
| Refused (statusCode : Z) (reason : string).
Arguments Answered {A} body.
Arguments Refused {A} statusCode reason.

Definition sendForbidden {A : Type} (reason : string) : Outcome A :=
  Refused 403 reason.

Definition sendNotFound {A : Type} (entity : string) : Outcome A :=
  Refused 404 (entity ++ " not found").

Definition sendBadRequest {A : Type} (reason : string) : Outcome A :=
  Refused 400 reason.

(** What [sendTaskReminder] does outside: the notification documents
    it creates, with their sender, and the mails it hands over. *)
Inductive ManualEffect :=
| ManualInApp (n : Notification) (sender : Id)
| ManualMail (taskId : Id) (to : string) (delivered : bool).

Definition isManualInApp (e : ManualEffect) : bool :=
  match e with ManualInApp _ _ => true | _ => false end.

Definition isManualMail (e : ManualEffect) : bool :=
  match e with ManualMail _ _ _ => true | _ => false end.

(** One turn of [for (const user of task.assignedTo)]. *)
Definition remindAssignee (out : Outside) (reqUser : User) (t : Task)
    (state : list ManualEffect * Z) (u : User) : list ManualEffect * Z :=
  if String.eqb (email u) "" then state
  else if notificationCreate out (_id t) (uid u)
  then
    let delivered := sendDueDateReminder out (_id t) (email u) in
    (fst state
     ++ [ManualInApp {| recipient := uid u;
                        type := "reminder";
                        subject := "Task Reminder";
                        message := "Reminder: " ++ quote ++ title t ++ quote
                                   ++ " needs your attention!";
                        task := _id t |}
                     (uid reqUser);
         ManualMail (_id t) (email u) delivered],
     snd state + 1)
  else state.

(** [sendTaskReminder]: the effects and the answer, whose body is
    [sentCount]. *)
Definition sendTaskReminder (out : Outside) (users : list User)
    (tasks : list Task) (reqUser : User) (id : Id)
    : list ManualEffect * Outcome Z :=
  if negb (isAdmin reqUser)
  then ([], sendForbidden "Access denied. Admin only.")
  else
    match findById tasks id with
    | None => ([], sendNotFound "Task")
    | Some t =>
        if Status_eqb (status t) Completed
        then ([], sendBadRequest "Cannot send reminder for completed task")
        else
          let after :=
            fold_left (remindAssignee out reqUser t)
                      (populate users (assignedTo t)) ([], 0) in
          (fst after, Answered (snd after))
    end.


(* ===================================================================== *)
(** * Labels *)
(* ===================================================================== *)

(** A task document with its labels.  The fields [description],
    [attachments], [comments] and [createdBy] are read by none of the
    handlers below and are left out. *)
Record LabelledTask := {
  doc : Task;
  labels : list string
}.

(** A value of the request body where an array is expected. *)
Inductive BodyValue (A : Type) :=
| IsArray (items : list A)
| NotArray.
Arguments IsArray {A} items.
Arguments NotArray {A}.

(** [l.includes(x)] and [l.indexOf(x)] on strings. *)
Definition Array_includes (l : list string) (x : string) : bool :=
  existsb (String.eqb x) l.

Fixpoint Array_indexOf (l : list string) (x : string) : option nat :=
  match l with
  | [] => None
  | y :: rest =>
      if String.eqb y x then Some 0%nat
      else option_map S (Array_indexOf rest x)
  end.

(** [l.splice(i, 1)]: what is left of [l]. *)
Definition Array_splice1 {A : Type} (l : list A) (i : nat) : list A :=
  firstn i l ++ skipn (S i) l.

Section Labels.

(** [sanitizeInput] of utils/validation, which is not among the
    sources, and [String.prototype.trim]. *)
Variables sanitizeInput trim : string -> string.

(** [addLabels], from the document that [Task.findById] returns to the
    document that [task.save()] stores ([None]: nothing is saved) and
    the answer, whose body is [task.labels]. *)
Definition addLabels (task : option LabelledTask) (reqUser : User)
    (bodyLabels : BodyValue string)
    : option LabelledTask * Outcome (list string) :=
  let labels' :=
    match bodyLabels with
    | IsArray items => IsArray (map sanitizeInput items)
    | NotArray => IsArray []
    end in
  match task with
  | None => (None, sendNotFound "Task")
  | Some task =>
      match labels' with
      | NotArray => (None, sendBadRequest "Labels must be an array")
      | IsArray labels' =>
          let newLabels :=
            filter (fun label =>
                      negb (Array_includes (labels task) (trim label)))
                   labels' in
          let pushed := labels task ++ map trim newLabels in
          let doc' :=
            if len newLabels >? 0
            then addActivityLog (doc task) (uid reqUser) "label_added"
                   ("Labels added: " ++ String.concat ", " newLabels) "" ""
            else doc task in
          (Some {| doc := doc'; labels := pushed |}, Answered pushed)
      end
  end.

(** [removeLabel]; [decoded] is [decodeURIComponent(req.params.label)]. *)
Definition removeLabel (task : option LabelledTask) (reqUser : User)
    (decoded : string) : option LabelledTask * Outcome (list string) :=
  let labelToRemove := sanitizeInput decoded in
  match task with
  | None => (None, sendNotFound "Task")
  | Some task =>
      match Array_indexOf (labels task) labelToRemove with
      | None => (None, sendNotFound "Label")
      | Some labelIndex =>
          let spliced := Array_splice1 (labels task) labelIndex in
          let doc' :=
            addActivityLog (doc task) (uid reqUser) "label_removed"
              ("Label removed: " ++ labelToRemove) "" "" in
          (Some {| doc := doc'; labels := spliced |}, Answered spliced)
      end
  end.

End Labels.

(* ===================================================================== *)
(** * Copies and the general update *)
(* ===================================================================== *)

(** [Task.findById(id)] on documents with labels. *)
Definition findDocById (collection : list LabelledTask) (id : Id)
    : option LabelledTask :=
  find (fun x => String.eqb (_id (doc x)) id) collection.

(** [duplicateTask].  [now] is the [new Date()] of the handler,
    [newId] and [created] are the [_id] and the timestamps that
    [Task.create] gives the new document; it is stored after the
    others. *)
Definition duplicateTask (now created : Z) (newId : Id)
    (collection : list LabelledTask) (reqUser : User) (publicDomain : bool)
    (id : Id) : list LabelledTask * Outcome LabelledTask :=
  if negb (isAdmin reqUser)
  then (collection, sendForbidden "Only admins can duplicate tasks.")
  else
    match findDocById collection id with
    | None => (collection, sendNotFound "Task")
    | Some originalTask =>
        if publicDomain
        then (collection,
              sendForbidden
                "Admins from public domains cannot duplicate tasks.")
        else
          let newDueDate := addDays now 7 in
          let duplicatedTask :=
            {| _id := newId;
               title := title (doc originalTask) ++ " (Copy)";
               status := Pending;
               priority := priority (doc originalTask);
               dueDate := Some newDueDate;
               assignedTo := assignedTo (doc originalTask);
               createdAt := created; updatedAt := created;
               todoChecklist :=
                 map (fun item => {| text := text item; completed := false |})
                     (todoChecklist (doc originalTask));
               progress := 0;
               reminderSent := Some false; reminderSentAt := None;
               activityLog := [] |} in
          let duplicatedTask :=
            {| doc := addActivityLog duplicatedTask (uid reqUser) "created"
                        ("Task duplicated from " ++ quote
                         ++ title (doc originalTask) ++ quote) "" "";
               labels := labels originalTask |} in
          (collection ++ [duplicatedTask], Answered duplicatedTask)
    end.

Definition Priority_toString (p : Priority) : string :=
  match p with Low => "Low" | Medium => "Medium" | High => "High" end.

(** The fields of [req.body] that [updateTask] reads, [description] and
    [attachments] apart.  A missing or empty [title] is the empty
    string; [None] is a value that is missing or falsy; [priority] and
    [status], when present, are among the values of the schema. *)
Record UpdateBody := {
  body_title : string;
  body_priority : option Priority;
  body_status : option Status;
  body_dueDate : option Z;
  body_todoChecklist : option (list ChecklistItem);
  body_labels : option (list string);
  body_assignedTo : option (BodyValue Id)
}.

(** The assignments of [updateTask] to the fields of the document. *)
Definition withDetails (t : Task) (title' : string) (priority' : Priority)
    (dueDate' : option Z) (todoChecklist' : list ChecklistItem) : Task :=
  {| _id := _id t; title := title'; status := status t;
     priority := priority'; dueDate := dueDate';
     assignedTo := assignedTo t; createdAt := createdAt t;
     updatedAt := updatedAt t; todoChecklist := todoChecklist';
     progress := progress t;
     reminderSent := reminderSent t; reminderSentAt := reminderSentAt t;
     activityLog := activityLog t |}.

Definition withAssignedTo (t : Task) (assignedTo' : list Id) : Task :=
  {| _id := _id t; title := title t; status := status t;
     priority := priority t; dueDate := dueDate t;
     assignedTo := assignedTo'; createdAt := createdAt t;
     updatedAt := updatedAt t; todoChecklist := todoChecklist t;
     progress := progress t;
     reminderSent := reminderSent t; reminderSentAt := reminderSentAt t;
     activityLog := activityLog t |}.

(** [updateTask], from the document found to the document saved
    ([None]: nothing is saved) and the answer. *)
Definition updateTask (task : option LabelledTask) (reqUser : User)
    (body : UpdateBody) : option LabelledTask * Outcome LabelledTask :=
  match task with
  | None => (None, sendNotFound "Task")
  | Some task =>
      let t := doc task in
      let changes :=
        if negb (String.eqb (body_title body) "")
           && negb (String.eqb (body_title body) (title t))
        then [("title"%string, title t, body_title body)]
        else [] in
      let t :=
        match body_priority body with
        | Some p =>
            if negb (Priority_eqb p (priority t))
            then addActivityLog t (uid reqUser) "priority_changed"
                   "Priority was changed" (Priority_toString (priority t))
                   (Priority_toString p)
            else t
        | None => t
        end in
      let t :=
        match body_status body with
        | Some s =>
            if negb (Status_eqb s (status t))
            then addActivityLog t (uid reqUser) "status_changed"
                   "Status was changed" (Status_toString (status t))
                   (Status_toString s)
            else t
        | None => t
        end in
      let t :=
        withDetails t
          (if String.eqb (body_title body) "" then title t
           else body_title body)
          (match body_priority body with Some p => p | None => priority t end)
          (match body_dueDate body with
           | Some due => Some due
           | None => dueDate t
           end)
          (match body_todoChecklist body with
           | Some checklist => checklist
           | None => todoChecklist t
           end) in
      let labels' :=
        match body_labels body with
        | Some l => l
        | None => labels task
        end in
      match body_assignedTo body with
      | Some NotArray => (None, sendBadRequest "assignedTo must be an array")
      | assigned =>
          let t :=
            match assigned with
            | Some (IsArray ids) =>
                withAssignedTo
                  (addActivityLog t (uid reqUser) "assigned"
                                  "Task assignment was updated" "" "")
                  ids
            | _ => t
            end in
          let t :=
            if len changes >? 0
            then addActivityLog t (uid reqUser) "updated" "Task was updated"
                                "" ""
            else t in
          let updatedTask := {| doc := t; labels := labels' |} in
          (Some updatedTask, Answered updatedTask)
      end
  end.

(* ===================================================================== *)
(** * The task list *)
(* ===================================================================== *)

(** The parameters of [getTasks] after their defaults: an empty string
    is a parameter that is missing, [None] a date that is missing, and
    [pageNum] and [limitNum] are [parseInt(...) || 1] and
    [parseInt(...) || 10] for the positive values they are meant for. *)
Record TaskQuery := {
  q : string;
  q_status : string;
  q_priority : string;
  q_assignee : string;
  q_dueDateFrom : option Z;
  q_dueDateTo : option Z;
  pageNum : positive;
  limitNum : positive
}.

(** One element of [tasks] in the answer: the document, its populated
    assignees and [completedCount]. *)
Record ListedTask := {
  listed : Task;
  listedAssignees : list User;
  completedCount : Z
}.

Record Pagination := {
  currentPage : Z;
  totalPages : Z;
  totalItems : Z;
  itemsPerPage : Z;
  hasNextPage : bool;
  hasPrevPage : bool
}.

Record TaskList := {
  listedTasks : list ListedTask;
  pagination : Pagination
}.

Section TaskList.

(** [regexTest q title] is the match of [{ $regex: q, $options: 'i' }]
    on a title, and [ofDomain] the match of the address of an assignee
    against the domain of the admin. *)
Variable regexTest : string -> string -> bool.
Variable ofDomain : string -> bool.

(** The filter that [getTasks] builds; [assignee] is what ends up in
    [filter.assignedTo], if anything. *)
Definition matchesFilter (query : TaskQuery) (assignee : option Id)
    (t : Task) : bool :=
  (if String.eqb (q query) "" then true else regexTest (q query) (title t))
  && (if String.eqb (q_status query) "" then true
      else String.eqb (Status_toString (status t)) (q_status query))
  && (if String.eqb (q_priority query) "" then true
      else String.eqb (Priority_toString (priority t)) (q_priority query))
  && match assignee with
     | Some id => existsb (String.eqb id) (assignedTo t)
     | None => true
     end
  && match q_dueDateFrom query, q_dueDateTo query with
     | None, None => true
     | from, to =>
         match dueDate t with
         | Some due =>
             match from with Some d => d <=? due | None => true end
             && match to with Some d => due <=? d | None => true end
         | None => false
         end
     end.

(** [.sort({ createdAt: -1 }).skip(skip).limit(limitNum)]. *)
Definition pageOf (query : TaskQuery) (found : list Task) : list Task :=
  let skip := (Z.pos (pageNum query) - 1) * Z.pos (limitNum query) in
  firstn (Pos.to_nat (limitNum query))
         (skipn (Z.to_nat skip) (Array_sort byCreatedAtDescending found)).

Definition paginationOf (query : TaskQuery) (totalTasks : Z) : Pagination :=
  let totalPages := Math_ceil_ratio totalTasks (Z.pos (limitNum query)) in
  {| currentPage := Z.pos (pageNum query);
     totalPages := totalPages;
     totalItems := totalTasks;
     itemsPerPage := Z.pos (limitNum query);
     hasNextPage := Z.pos (pageNum query) <? totalPages;
     hasPrevPage := Z.pos (pageNum query) >? 1 |}.

(** [{ ...task, completedCount }]. *)
Definition withCompletedCount (item : Task * list User) : ListedTask :=
  {| listed := fst item;
     listedAssignees := snd item;
     completedCount := count completed (todoChecklist (fst item)) |}.

(** [getTasks]. *)
Definition getTasks (tasks : list Task) (users : list User)
    (reqUser : User) (publicDomain : bool) (query : TaskQuery)
    : Outcome TaskList :=
  if isAdmin reqUser
  then
    if publicDomain
    then sendForbidden "Admin access restricted for public domains."
    else
      let assignee :=
        if String.eqb (q_assignee query) "" then None
        else Some (q_assignee query) in
      let found := filter (matchesFilter query assignee) tasks in
      let totalTasks := len found in
      let page :=
        map (fun t => (t, populateMatching ofDomain users (assignedTo t)))
            (pageOf query found) in
      let page :=
        filter (fun item => Array_truthy (snd item) && (len (snd item) >? 0))
               page in
      Answered {| listedTasks := map withCompletedCount page;
                  pagination := paginationOf query totalTasks |}
  else
    let found := filter (matchesFilter query (Some (uid reqUser))) tasks in
    let totalTasks := len found in
    let page :=
      map (fun t => (t, populate users (assignedTo t)))
          (pageOf query found) in
    Answered {| listedTasks := map withCompletedCount page;
                pagination := paginationOf query totalTasks |}.

End TaskList.

(* ===================================================================== *)
(** * More notions used in the statements *)
(* ===================================================================== *)

(** A document without what the write of the reminder flag sets: the
    flag, its time and the time of the last write. *)
Definition withoutReminder (t : Task) : Task :=
  {| _id := _id t; title := title t; status := status t;
     priority := priority t; dueDate := dueDate t;
     assignedTo := assignedTo t; createdAt := createdAt t;
     updatedAt := 0; todoChecklist := todoChecklist t;
     progress := progress t;
     reminderSent := None; reminderSentAt := None;
     activityLog := activityLog t |}.


Definition isMailAttempt (e : Effect) : bool :=
  match e with MailAttempt _ _ _ => true | _ => false end.

(** The notifications among the effects. *)
Definition notificationsOf (effects : list Effect) : list Notification :=
  flat_map (fun e => match e with InApp n => [n] | _ => [] end) effects.

(** The ids for which the effects hold a write of the flag. *)
Definition markedIds (effects : list Effect) : list Id :=
  flat_map (fun e => match e with FlagWrite id _ => [id] | _ => [] end)
           effects.

(** The effects of one turn of the scan's loop, for the task [t]. *)
Definition effectsOfTask (out : Outside) (users : list User) (t : Task)
    : list Effect :=
  List.concat (map (fun u => fst (remindUser out t u))
                   (populate users (assignedTo t)))
  ++ (if someCallbackSucceeded out users t
      then [FlagWrite (_id t) (writeTime out (_id t))]
      else []).

(** The assignees of [t] for whom a reminder is recorded: those that
    [populate] finds, with an address, whose notification is stored. *)
Definition remindedUsers (out : Outside) (users : list User) (t : Task)
    : list User :=
  filter (fun u => negb (String.eqb (email u) "")
                   && notificationCreate out (_id t) (uid u))
         (populate users (assignedTo t)).

(** The notifications among the effects of [sendTaskReminder]. *)
Definition manualNotificationsOf (effects : list ManualEffect)
    : list Notification :=
  flat_map (fun e => match e with ManualInApp n _ => [n] | _ => [] end)
           effects.

(** The senders recorded with them. *)
Definition sendersOf (effects : list ManualEffect) : list Id :=
  flat_map (fun e => match e with ManualInApp _ sender => [sender] | _ => [] end)
           effects.

Definition isRejectedManualMail (e : ManualEffect) : bool :=
  match e with ManualMail _ _ delivered => negb delivered | _ => false end.

(** What an update by one of the two routes leaves alone: every task
    of another id, the ids and their order, and, of the task it saves,
    everything but status, checklist, progress and activity log. *)
Definition touchesOneTask (tasks : list Task) (id : Id)
    (r : list Task * Response Task) : Prop :=
  map _id (fst r) = map _id tasks
  /\ (forall id', id' <> id -> findById (fst r) id' = findById tasks id')
  /\ (forall t', snd r = Ok t' ->
                 exists t,
                   findById tasks id = Some t
                   /\ findById (fst r) id = Some t'
                   /\ _id t' = id
                   /\ title t' = title t
                   /\ priority t' = priority t
                   /\ dueDate t' = dueDate t
                   /\ assignedTo t' = assignedTo t
                   /\ createdAt t' = createdAt t
                   /\ reminderSent t' = reminderSent t
                   /\ reminderSentAt t' = reminderSentAt t)
  /\ (forall msg, snd r = Forbidden msg \/ snd r = NotFound msg ->
                  fst r = tasks)
  /\ (forall what, snd r = NotFound what ->
                   what = "Task"%string /\ findById tasks id = None).

(** The query with another [assignee] parameter, and with another
    [page]. *)
Definition withAssignee (query : TaskQuery) (assignee : string)
    : TaskQuery :=
  {| q := q query; q_status := q_status query;
     q_priority := q_priority query; q_assignee := assignee;
     q_dueDateFrom := q_dueDateFrom query; q_dueDateTo := q_dueDateTo query;
     pageNum := pageNum query; limitNum := limitNum query |}.

Definition withPage (query : TaskQuery) (page : positive) : TaskQuery :=
  {| q := q query; q_status := q_status query;
     q_priority := q_priority query; q_assignee := q_assignee query;
     q_dueDateFrom := q_dueDateFrom query; q_dueDateTo := q_dueDateTo query;
     pageNum := page; limitNum := limitNum query |}.

(** The documents on the page that an answer of [getTasks] lists. *)
Definition documentsOf (answer : Outcome TaskList) : list Task :=
  match answer with
  | Answered r => map listed (listedTasks r)
  | Refused _ _ => []
  end.

(** [a] was created no earlier than [b]. *)
Definition createdNoEarlier (a b : Task) : Prop := createdAt b <= createdAt a.

(* ===================================================================== *)
(** * More sample data *)
(* ===================================================================== *)

(** Ten tasks, one completed by its due date on each of the ten days that
    end today, each with two checklist items, both done. *)
Definition tenPerfectTasks : list Task :=
  map (fun i =>
         sampleTask (String "p"%char (NilEmpty.string_of_uint (Nat.to_uint i)))
                    Completed (noon - Z.of_nat i * msPerDay)
                    (Some (noon + msPerDay)) (checked 2))
      (seq 0 10).

(** An admin of the organization. *)
Definition carol : User :=
  {| uid := "u9"; name := "Carol"; email := "carol@example.org";
     role := admin |}.

(** A task of Alice with 125 checklist items, 12 of them done. *)
Definition longChecklist : Task :=
  sampleTask "c1" Pending (noon - msPerDay) None (checked 12 ++ unchecked 113).

(** A task of Alice that carries two labels. *)
Definition labelled : LabelledTask :=
  {| doc := withThreeSteps; labels := ["bug"; "urgent"]%string |}.

(** The first page of ten of everything. *)
Definition everything : TaskQuery :=
  {| q := ""; q_status := ""; q_priority := ""; q_assignee := "";
     q_dueDateFrom := None; q_dueDateTo := None;
     pageNum := 1; limitNum := 10 |}.

(** Three tasks created on three days: one of Alice, one of Bob, one of
    somebody who is not among the users. *)
Definition threeTasks : list Task :=
  [ dueIn "t1" tenHours ["u1"]%string None;
    withStatus (dueIn "t2" tenHours ["u2"]%string None) InProgress [];
    dueIn "t3" tenHours ["u7"]%string None ].

(** Rewrites the tests that the hypotheses decide. *)
Ltac by_branch :=
  repeat match goal with
         | H : ?b = true |- context [if ?b then _ else _] => rewrite H
         | H : ?b = false |- context [if ?b then _ else _] => rewrite H
         end;
  try reflexivity.


(* ===================================================================== *)
(** * Lists and numbers *)
(* ===================================================================== *)

Lemma len_nonneg {A : Type} (l : list A) : 0 <= len l.
Proof. unfold len. lia. Qed.

Lemma len_cons {A : Type} (x : A) (l : list A) : len (x :: l) = len l + 1.
Proof. unfold len. simpl List.length. lia. Qed.

Lemma count_nonneg {A : Type} (p : A -> bool) (l : list A) : 0 <= count p l.
Proof. apply len_nonneg. Qed.

Lemma count_le_len {A : Type} (p : A -> bool) (l : list A) :
  count p l <= len l.
Proof.
  unfold count, len. pose proof (filter_length_le p l). lia.
Qed.

Lemma count_all {A : Type} (p : A -> bool) (l : list A) :
  (forall x, In x l -> p x = true) -> count p l = len l.
Proof.
  intros Hall. unfold count. f_equal.
  induction l as [| x l IH]; [reflexivity |].
  simpl. rewrite (Hall x (or_introl eq_refl)).
  f_equal. apply IH. intros y Hy. apply Hall. now right.
Qed.

Lemma fold_left_sum_shift {A : Type} (f : A -> Z) (l : list A) (a : Z) :
  fold_left (fun sum x => sum + f x) l a = a + sumOf f l.
Proof.
  unfold sumOf. revert a.
  induction l as [| x l IH]; intros a; cbn [fold_left]; [lia |].
  rewrite (IH (a + f x)), (IH (0 + f x)). lia.
Qed.

Lemma sumOf_cons {A : Type} (f : A -> Z) (x : A) (l : list A) :
  sumOf f (x :: l) = f x + sumOf f l.
Proof.
  unfold sumOf at 1. cbn [fold_left]. rewrite fold_left_sum_shift. lia.
Qed.

Lemma sumOf_Permutation {A : Type} (f : A -> Z) (l l' : list A) :
  Permutation l l' -> sumOf f l = sumOf f l'.
Proof.
  induction 1 as [| x l l' _ IH | x y l | l l' l'' _ IH1 _ IH2];
    rewrite ?sumOf_cons; lia.
Qed.

(** [Math.round] of an integer ratio, in integers. *)
Lemma Math_round_ratio (a b : Z) :
  0 < b ->
  Math_round (num a / num b)%Q = (2 * a + b) / (2 * b).
Proof.
  intros Hb. unfold Math_round, num.
  assert (Heq : (inject_Z a / inject_Z b + (1 # 2) == (2 * a + b) # Z.to_pos (2 * b))%Q).
  { destruct b as [| p | p]; try lia.
    unfold Qeq, Qdiv, Qmult, Qplus, Qinv, inject_Z. cbn [Qnum Qden].
    rewrite !Pos2Z.inj_mul, Z2Pos.id by lia. lia. }
  rewrite Heq. unfold Qfloor. rewrite Z2Pos.id by lia. reflexivity.
Qed.

(** The result of [Math.round] is the integer nearest to the ratio. *)
Lemma Math_round_ratio_nearest (a b : Z) :
  0 < b ->
  2 * b * Math_round (num a / num b)%Q <= 2 * a + b
  < 2 * b * (Math_round (num a / num b)%Q + 1).
Proof.
  intros Hb. rewrite Math_round_ratio by assumption.
  pose proof (Z.mul_div_le (2 * a + b) (2 * b) ltac:(lia)).
  pose proof (Z.mul_succ_div_gt (2 * a + b) (2 * b) ltac:(lia)).
  lia.
Qed.

Lemma Math_round_nonneg (x : Q) : (0 <= x)%Q -> 0 <= Math_round x.
Proof.
  intros Hx. unfold Math_round.
  change 0 with (Qfloor 0). apply Qfloor_resp_le.
  apply Qle_trans with x; [assumption |].
  rewrite <- (Qplus_0_r x) at 1. apply Qplus_le_r. discriminate.
Qed.

(* ===================================================================== *)
(** * Rounding to binary64 *)
(* ===================================================================== *)

Lemma pow2_pos (k : Z) : (0 < pow2 k)%Q.
Proof. apply Qpower_0_lt. reflexivity. Qed.

Lemma pow2_add (a b : Z) : (pow2 (a + b) == pow2 a * pow2 b)%Q.
Proof. apply Qpower_plus. discriminate. Qed.

Lemma pow2_le (a b : Z) : a <= b -> (pow2 a <= pow2 b)%Q.
Proof. intros H. apply Qpower_le_compat_l; [exact H | discriminate]. Qed.

Lemma pow2_lt (a b : Z) : a < b -> (pow2 a < pow2 b)%Q.
Proof. intros H. apply Qpower_lt_compat_l; [exact H | reflexivity]. Qed.

Lemma pow2_lt_inv (a b : Z) : (pow2 a < pow2 b)%Q -> a < b.
Proof. intros H. apply (Qpower_lt_compat_l_inv 2); [exact H | reflexivity]. Qed.

Lemma pow2_Z (k : Z) : 0 <= k -> (pow2 k == inject_Z (2 ^ k))%Q.
Proof.
  intros H. unfold pow2. change 2%Q with (inject_Z 2).
  symmetry. now apply Zpower_Qpower.
Qed.

Lemma pow2_cancel (k : Z) : (pow2 k * pow2 (- k) == 1)%Q.
Proof. rewrite <- pow2_add. now replace (k + - k) with 0 by lia. Qed.

Lemma pow2_sub_Z (a b : Z) :
  0 <= a -> 0 <= b ->
  (pow2 (a - b) == inject_Z (2 ^ a) / inject_Z (2 ^ b))%Q.
Proof.
  intros Ha Hb. unfold pow2. rewrite Qpower_minus by discriminate.
  change 2%Q with (inject_Z 2).
  rewrite <- (Zpower_Qpower 2 a Ha), <- (Zpower_Qpower 2 b Hb). reflexivity.
Qed.

Lemma binade_spec (x : Q) :
  (0 < x)%Q -> (pow2 (binade x) <= x)%Q /\ (x < pow2 (binade x + 1))%Q.
Proof.
  intros Hx. unfold binade.
  destruct x as [p q].
  assert (Hp : 0 < p) by (unfold Qlt in Hx; cbn in Hx; lia).
  cbn [Qnum Qden].
  set (a := Z.log2 p). set (b := Z.log2 (Z.pos q)).
  pose proof (Z.log2_spec p Hp) as Hpa. fold a in Hpa.
  pose proof (Z.log2_spec (Z.pos q) ltac:(lia)) as Hqb. fold b in Hqb.
  pose proof (Z.log2_nonneg p) as Ha. fold a in Ha.
  pose proof (Z.log2_nonneg (Z.pos q)) as Hb. fold b in Hb.
  assert (H2a : 0 < 2 ^ a) by (apply Z.pow_pos_nonneg; lia).
  assert (H2b : 0 < 2 ^ b) by (apply Z.pow_pos_nonneg; lia).
  rewrite !Z.pow_succ_r in * by lia.
  assert (Hup : (p # q < pow2 (a - b + 1))%Q).
  { replace (a - b + 1) with ((a + 1) - b) by lia.
    rewrite pow2_sub_Z by lia.
    apply Qlt_shift_div_l;
      [change 0%Q with (inject_Z 0); rewrite <- Zlt_Qlt; lia |].
    rewrite Z.pow_add_r, Z.pow_1_r by lia.
    unfold Qlt. cbn [Qnum Qden Qmult inject_Z].
    rewrite Pos.mul_1_r. nia. }
  assert (Hlow : (pow2 (a - b - 1) <= p # q)%Q).
  { replace (a - b - 1) with (a - (b + 1)) by lia.
    rewrite pow2_sub_Z by lia.
    apply Qle_shift_div_r;
      [change 0%Q with (inject_Z 0); rewrite <- Zlt_Qlt;
       apply Z.pow_pos_nonneg; lia |].
    rewrite Z.pow_add_r, Z.pow_1_r by lia.
    unfold Qle. cbn [Qnum Qden Qmult inject_Z].
    rewrite Pos.mul_1_r. nia. }
  destruct (Qle_bool (pow2 (a - b)) (p # q)) eqn:Hle.
  - apply Qle_bool_iff in Hle. split; assumption.
  - assert (Hlt : (p # q < pow2 (a - b))%Q).
    { apply Qnot_le_lt. intros H. apply Qle_bool_iff in H. congruence. }
    split; [exact Hlow |].
    now replace (a - b - 1 + 1) with (a - b) by lia.
Qed.

Lemma binade_unique (x : Q) (e : Z) :
  (pow2 e <= x)%Q -> (x < pow2 (e + 1))%Q -> binade x = e.
Proof.
  intros Hlo Hhi.
  assert (Hx : (0 < x)%Q)
    by (apply Qlt_le_trans with (pow2 e); [apply pow2_pos | exact Hlo]).
  destruct (binade_spec x Hx) as [Hlo' Hhi'].
  assert (binade x < e + 1)
    by (apply pow2_lt_inv; eapply Qle_lt_trans; eassumption).
  assert (e < binade x + 1)
    by (apply pow2_lt_inv; eapply Qle_lt_trans; eassumption).
  lia.
Qed.

Lemma binade_comp (x y : Q) : (0 < x)%Q -> (x == y)%Q -> binade x = binade y.
Proof.
  intros Hx Hxy. symmetry. destruct (binade_spec x Hx) as [Hlo Hhi].
  apply binade_unique; now rewrite <- Hxy.
Qed.

Lemma binade_le (x y : Q) :
  (0 < x)%Q -> (x <= y)%Q -> binade x <= binade y.
Proof.
  intros Hx Hxy.
  assert (Hy : (0 < y)%Q) by (eapply Qlt_le_trans; eassumption).
  destruct (binade_spec x Hx) as [Hlo _].
  destruct (binade_spec y Hy) as [_ Hhi].
  assert (binade x < binade y + 1); [| lia].
  apply pow2_lt_inv.
  eapply Qle_lt_trans; [exact Hlo |]. eapply Qle_lt_trans; eassumption.
Qed.

(** ** Rounding to the nearest integer, ties to even *)

Lemma roundHalfEven_cases (x : Q) :
  let f := Qfloor x in
  (inject_Z f <= x)%Q /\ (x < inject_Z f + 1)%Q
  /\ (((x - inject_Z f < 1 # 2)%Q /\ roundHalfEven x = f)
      \/ ((1 # 2 < x - inject_Z f)%Q /\ roundHalfEven x = f + 1)
      \/ ((x - inject_Z f == 1 # 2)%Q
          /\ roundHalfEven x = if Z.even f then f else f + 1)).
Proof.
  intros f. subst f.
  split; [apply Qfloor_le |].
  split.
  { pose proof (Qlt_floor x) as H. rewrite inject_Z_plus in H. exact H. }
  unfold roundHalfEven.
  destruct (Qcompare_spec (x - inject_Z (Qfloor x)) (1 # 2)) as [H | H | H].
  - right; right. now split.
  - left. now split.
  - right; left. now split.
Qed.

Lemma roundHalfEven_near (x : Q) :
  (inject_Z (roundHalfEven x) - (1 # 2) <= x)%Q
  /\ (x <= inject_Z (roundHalfEven x) + (1 # 2))%Q.
Proof.
  destruct (roundHalfEven_cases x) as (Hlo & Hhi & [[H ->] | [[H ->] | [H ->]]]).
  - split; lra.
  - rewrite inject_Z_plus. change (inject_Z 1) with 1%Q. split; lra.
  - destruct (Z.even (Qfloor x)).
    + split; lra.
    + rewrite inject_Z_plus. change (inject_Z 1) with 1%Q. split; lra.
Qed.

Lemma roundHalfEven_comp (x y : Q) :
  (x == y)%Q -> roundHalfEven x = roundHalfEven y.
Proof.
  intros H. unfold roundHalfEven.
  rewrite (Qfloor_comp _ _ H).
  assert (Hc : (x - inject_Z (Qfloor y) ?= 1 # 2)%Q
               = (y - inject_Z (Qfloor y) ?= 1 # 2)%Q)
    by (apply Qcompare_comp; [now rewrite H | reflexivity]).
  now rewrite Hc.
Qed.

Lemma roundHalfEven_Z (n : Z) : roundHalfEven (inject_Z n) = n.
Proof.
  destruct (roundHalfEven_cases (inject_Z n))
    as (_ & _ & [[_ H] | [[H _] | [H _]]]);
    rewrite Qfloor_Z in *; [exact H | lra | lra].
Qed.

Lemma roundHalfEven_le (x y : Q) :
  (x <= y)%Q -> roundHalfEven x <= roundHalfEven y.
Proof.
  intros Hxy.
  pose proof (Qfloor_resp_le x y Hxy) as Hf.
  destruct (roundHalfEven_cases x) as (Hxlo & Hxhi & Hx).
  destruct (roundHalfEven_cases y) as (Hylo & Hyhi & Hy).
  cbn zeta in *.
  destruct (Z.eq_dec (Qfloor x) (Qfloor y)) as [Heq | Hne].
  - rewrite Heq in *.
    destruct Hx as [[Hx ->] | [[Hx ->] | [Hx ->]]];
      destruct Hy as [[Hy ->] | [[Hy ->] | [Hy ->]]];
      try lia; try lra;
      destruct (Z.even (Qfloor y)); try lia; lra.
  - assert (Qfloor x + 1 <= Qfloor y) by lia.
    assert (roundHalfEven x <= Qfloor x + 1)
      by (destruct Hx as [[_ ->] | [[_ ->] | [_ ->]]];
          [lia | lia | destruct (Z.even (Qfloor x)); lia]).
    assert (Qfloor y <= roundHalfEven y)
      by (destruct Hy as [[_ ->] | [[_ ->] | [_ ->]]];
          [lia | lia | destruct (Z.even (Qfloor y)); lia]).
    lia.
Qed.

(** ** The nearest value of 53 significant bits *)

Lemma scaled_bounds (x : Q) :
  (0 < x)%Q ->
  let e := binade x in
  (pow2 52 <= x * pow2 (52 - e))%Q /\ (x * pow2 (52 - e) < pow2 53)%Q.
Proof.
  intros Hx e. destruct (binade_spec x Hx) as [Hlo Hhi]. fold e in Hlo, Hhi.
  pose proof (pow2_pos (52 - e)) as Hs.
  split.
  - replace 52 with (e + (52 - e)) at 1 by lia. rewrite pow2_add.
    now apply Qmult_le_compat_r; [| apply Qlt_le_weak].
  - replace 53 with ((e + 1) + (52 - e)) by lia. rewrite pow2_add.
    now apply Qmult_lt_compat_r.
Qed.

Lemma significand_bounds (x : Q) :
  (0 < x)%Q ->
  2 ^ 52 <= roundHalfEven (x * pow2 (52 - binade x)) <= 2 ^ 53.
Proof.
  intros Hx. destruct (scaled_bounds x Hx) as [Hlo Hhi]. cbn zeta in *.
  split.
  - rewrite <- (roundHalfEven_Z (2 ^ 52)).
    apply roundHalfEven_le. now rewrite <- pow2_Z by lia.
  - rewrite <- (roundHalfEven_Z (2 ^ 53)).
    apply roundHalfEven_le. rewrite <- pow2_Z by lia.
    now apply Qlt_le_weak.
Qed.

Lemma nearest53_bounds (x : Q) :
  (0 < x)%Q ->
  (pow2 (binade x) <= nearest53 x)%Q
  /\ (nearest53 x <= pow2 (binade x + 1))%Q.
Proof.
  intros Hx. unfold nearest53.
  destruct (significand_bounds x Hx) as [Hlo Hhi].
  set (m := roundHalfEven _) in *. set (e := binade x).
  pose proof (pow2_pos (e - 52)) as Hs.
  split.
  - replace e with (52 + (e - 52)) at 1 by lia. rewrite pow2_add.
    apply Qmult_le_compat_r; [| now apply Qlt_le_weak].
    rewrite pow2_Z by lia. now rewrite <- Zle_Qle.
  - replace (e + 1) with (53 + (e - 52)) by lia. rewrite pow2_add.
    apply Qmult_le_compat_r; [| now apply Qlt_le_weak].
    rewrite pow2_Z by lia. now rewrite <- Zle_Qle.
Qed.

Lemma nearest53_pos (x : Q) : (0 < x)%Q -> (0 < nearest53 x)%Q.
Proof.
  intros Hx. destruct (nearest53_bounds x Hx) as [Hlo _].
  eapply Qlt_le_trans; [apply pow2_pos | exact Hlo].
Qed.

Lemma nearest53_comp (x y : Q) :
  (0 < x)%Q -> (x == y)%Q -> (nearest53 x == nearest53 y)%Q.
Proof.
  intros Hx Hxy. unfold nearest53.
  rewrite <- (binade_comp x y Hx Hxy).
  rewrite (roundHalfEven_comp (x * pow2 (52 - binade x))
                              (y * pow2 (52 - binade x)))
    by (apply Qmult_comp; [exact Hxy | reflexivity]).
  reflexivity.
Qed.

Lemma nearest53_le (x y : Q) :
  (0 < x)%Q -> (x <= y)%Q -> (nearest53 x <= nearest53 y)%Q.
Proof.
  intros Hx Hxy.
  assert (Hy : (0 < y)%Q) by (eapply Qlt_le_trans; eassumption).
  pose proof (binade_le x y Hx Hxy) as He.
  destruct (Z.eq_dec (binade x) (binade y)) as [Heq | Hne].
  - unfold nearest53. rewrite Heq.
    apply Qmult_le_compat_r; [| apply Qlt_le_weak, pow2_pos].
    rewrite <- Zle_Qle. apply roundHalfEven_le.
    apply Qmult_le_compat_r; [exact Hxy | apply Qlt_le_weak, pow2_pos].
  - destruct (nearest53_bounds x Hx) as [_ Hhi].
    destruct (nearest53_bounds y Hy) as [Hlo _].
    eapply Qle_trans; [exact Hhi |]. eapply Qle_trans; [| exact Hlo].
    apply pow2_le. lia.
Qed.

(** The error is at most half a unit in the last place. *)
Lemma nearest53_error (x : Q) :
  (0 < x)%Q ->
  (x - x * pow2 (- 53) <= nearest53 x)%Q
  /\ (nearest53 x <= x + x * pow2 (- 53))%Q.
Proof.
  intros Hx. destruct (binade_spec x Hx) as [Hlo _]. unfold nearest53.
  set (e := binade x) in *.
  destruct (roundHalfEven_near (x * pow2 (52 - e))) as [Hn1 Hn2].
  set (m := inject_Z (roundHalfEven (x * pow2 (52 - e)))) in *.
  pose proof (pow2_pos (e - 52)) as Hs.
  assert (Hunit : (pow2 (52 - e) * pow2 (e - 52) == 1)%Q)
    by (rewrite <- pow2_add; now replace (52 - e + (e - 52)) with 0 by lia).
  assert (Hhalf : ((1 # 2) * pow2 (e - 52) <= x * pow2 (- 53))%Q).
  { assert (H : ((1 # 2) * pow2 (e - 52) == pow2 e * pow2 (- 53))%Q).
    { change (1 # 2)%Q with (pow2 (- 1)). rewrite <- !pow2_add.
      now replace (- 1 + (e - 52)) with (e + - 53) by lia. }
    rewrite H. apply Qmult_le_compat_r; [exact Hlo |].
    apply Qlt_le_weak, pow2_pos. }
  assert (Hx' : (x == x * pow2 (52 - e) * pow2 (e - 52))%Q)
    by (rewrite <- Qmult_assoc, Hunit; ring).
  assert (H1 : ((m - (1 # 2)) * pow2 (e - 52)
                <= x * pow2 (52 - e) * pow2 (e - 52))%Q)
    by (apply Qmult_le_compat_r; [exact Hn1 | now apply Qlt_le_weak]).
  assert (H2 : (x * pow2 (52 - e) * pow2 (e - 52)
                <= (m + (1 # 2)) * pow2 (e - 52))%Q)
    by (apply Qmult_le_compat_r; [exact Hn2 | now apply Qlt_le_weak]).
  rewrite <- Hx' in H1, H2.
  split; lra.
Qed.

Lemma nearest53_exact (x : Q) (k : Z) :
  (0 < x)%Q ->
  (x * pow2 (52 - binade x) == inject_Z k)%Q ->
  (nearest53 x == x)%Q.
Proof.
  intros Hx Hk. unfold nearest53.
  rewrite (roundHalfEven_comp _ _ Hk), roundHalfEven_Z, <- Hk.
  rewrite <- Qmult_assoc, <- pow2_add.
  replace (52 - binade x + (binade x - 52)) with 0 by lia.
  change (pow2 0) with 1%Q. ring.
Qed.

(** ** binary64 *)

Lemma binary64_pos_eq (x : Q) : (0 < x)%Q -> binary64 x = nearest53 x.
Proof.
  intros Hx. unfold binary64.
  now replace (x ?= 0)%Q with Gt by (symmetry; now apply Qgt_alt).
Qed.

Lemma binary64_zero (x : Q) : (x == 0)%Q -> binary64 x = 0%Q.
Proof.
  intros Hx. unfold binary64.
  now replace (x ?= 0)%Q with Eq by (symmetry; now apply Qeq_alt).
Qed.

Lemma binary64_nonneg (x : Q) : (0 <= x)%Q -> (0 <= binary64 x)%Q.
Proof.
  intros Hx. destruct (Qlt_le_dec 0 x) as [Hpos | Hle].
  - rewrite binary64_pos_eq by exact Hpos.
    now apply Qlt_le_weak, nearest53_pos.
  - rewrite binary64_zero; [apply Qle_refl |]. now apply Qle_antisym.
Qed.

Lemma binary64_le (x y : Q) :
  (0 <= x)%Q -> (x <= y)%Q -> (binary64 x <= binary64 y)%Q.
Proof.
  intros Hx Hxy. destruct (Qlt_le_dec 0 x) as [Hpos | Hle].
  - rewrite !binary64_pos_eq
      by (try exact Hpos; eapply Qlt_le_trans; eassumption).
    now apply nearest53_le.
  - rewrite (binary64_zero x) by now apply Qle_antisym.
    apply binary64_nonneg. eapply Qle_trans; eassumption.
Qed.

Lemma binary64_comp (x y : Q) :
  (x == y)%Q -> (binary64 x == binary64 y)%Q.
Proof.
  intros Hxy. unfold binary64.
  replace (y ?= 0)%Q with (x ?= 0)%Q
    by (apply Qcompare_comp; [exact Hxy | reflexivity]).
  destruct (Qcompare_spec x 0) as [H | H | H].
  - reflexivity.
  - assert (Hx : (0 < - x)%Q) by lra.
    rewrite (nearest53_comp (- x) (- y) Hx); [reflexivity |].
    now rewrite Hxy.
  - now apply nearest53_comp.
Qed.

#[global] Instance binary64_Proper : Proper (Qeq ==> Qeq) binary64.
Proof. intros x y H. now apply binary64_comp. Qed.

Lemma binary64_error (x : Q) :
  (0 <= x)%Q ->
  (x - x * pow2 (- 53) <= binary64 x)%Q
  /\ (binary64 x <= x + x * pow2 (- 53))%Q.
Proof.
  intros Hx. destruct (Qlt_le_dec 0 x) as [Hpos | Hle].
  - rewrite binary64_pos_eq by exact Hpos. now apply nearest53_error.
  - assert (H0 : (x == 0)%Q) by now apply Qle_antisym.
    rewrite (binary64_zero x H0), H0. split; lra.
Qed.

(** An integer below 2^53 is a number. *)
Lemma binary64_Z (n : Z) :
  0 <= n < 2 ^ 53 -> (binary64 (inject_Z n) == inject_Z n)%Q.
Proof.
  intros [Hn0 Hn]. destruct (Z.eq_dec n 0) as [-> | Hne]; [reflexivity |].
  assert (Hpos : 0 < n) by lia.
  assert (Hx : (0 < inject_Z n)%Q)
    by (change 0%Q with (inject_Z 0); now rewrite <- Zlt_Qlt).
  rewrite binary64_pos_eq by exact Hx.
  pose proof (Z.log2_spec n Hpos) as Hlog.
  pose proof (Z.log2_nonneg n) as Hl0.
  assert (Hl : Z.log2 n < 53) by (apply Z.log2_lt_pow2; lia).
  assert (He : binade (inject_Z n) = Z.log2 n).
  { apply binade_unique.
    - rewrite pow2_Z by lia. rewrite <- Zle_Qle. lia.
    - rewrite pow2_Z by lia. rewrite <- Zlt_Qlt.
      now replace (Z.log2 n + 1) with (Z.succ (Z.log2 n)) by lia. }
  apply (nearest53_exact _ (n * 2 ^ (52 - Z.log2 n))); [exact Hx |].
  rewrite He, pow2_Z by lia. now rewrite inject_Z_mult.
Qed.

(* ===================================================================== *)
(** * The streak loops *)
(* ===================================================================== *)

Lemma userStreakLoop_eq (tz : Z) (l : list Task) (cs cd : Z) :
  userStreakLoop tz l cs cd =
  if completedOnDay tz l cd
  then if cs + 1 >? 365 then cs + 1
       else userStreakLoop tz l (cs + 1) (addDays cd (-1))
  else cs.
Proof. funelim (userStreakLoop tz l cs cd); by_branch. Qed.

Lemma teamStreakLoop_eq (tz : Z) (l : list Task) (cs cd : Z) :
  teamStreakLoop tz l cs cd =
  if cs <? 365
  then if completedOnDay tz l cd
       then teamStreakLoop tz l (cs + 1) (addDays cd (-1))
       else cs
  else cs.
Proof. funelim (teamStreakLoop tz l cs cd); by_branch. Qed.

(** The loop of [getProductivityStats] leaves with at most 366. *)
Lemma userStreakLoop_bounds (tz : Z) (l : list Task) (cs cd : Z) :
  cs <= 365 -> cs <= userStreakLoop tz l cs cd <= 366.
Proof.
  funelim (userStreakLoop tz l cs cd); intros Hcs; lia.
Qed.

(** The loop of [getTeamProductivityStats] leaves with at most 365. *)
Lemma teamStreakLoop_bounds (tz : Z) (l : list Task) (cs cd : Z) :
  cs <= 365 -> cs <= teamStreakLoop tz l cs cd <= 365.
Proof.
  funelim (teamStreakLoop tz l cs cd); intros Hcs; lia.
Qed.

Lemma addDays_addDays (d n m : Z) : addDays (addDays d n) m = addDays d (n + m).
Proof. unfold addDays. lia. Qed.

Lemma addDays_0 (d : Z) : addDays d 0 = d.
Proof. unfold addDays. lia. Qed.

(** A run of [k] counting days followed by a day that does not count:
    the loop adds [k], as long as it stays within 365. *)
Lemma userStreakLoop_run (tz : Z) (l : list Task) (k : nat) :
  forall cs cd,
    (forall i, (i < k)%nat ->
               completedOnDay tz l (addDays cd (- Z.of_nat i)) = true) ->
    completedOnDay tz l (addDays cd (- Z.of_nat k)) = false ->
    cs + Z.of_nat k <= 365 ->
    userStreakLoop tz l cs cd = cs + Z.of_nat k.
Proof.
  induction k as [| k IH]; intros cs cd Hrun Hstop Hle;
    rewrite userStreakLoop_eq.
  - change (- Z.of_nat 0) with 0 in Hstop. rewrite addDays_0 in Hstop.
    rewrite Hstop. simpl. lia.
  - pose proof (Hrun 0%nat ltac:(lia)) as H0.
    change (- Z.of_nat 0) with 0 in H0. rewrite addDays_0 in H0.
    rewrite H0.
    destruct (cs + 1 >? 365) eqn:Hcap; [lia |].
    rewrite (IH (cs + 1) (addDays cd (-1))); [lia | | | lia].
    + intros i Hi. rewrite addDays_addDays.
      replace (-1 + - Z.of_nat i) with (- Z.of_nat (S i)) by lia.
      apply Hrun. lia.
    + rewrite addDays_addDays.
      replace (-1 + - Z.of_nat k) with (- Z.of_nat (S k)) by lia.
      exact Hstop.
Qed.

(** A run that reaches the bound of the loop: the result is 366. *)
Lemma userStreakLoop_capped (tz : Z) (l : list Task) (n : nat) :
  forall cs cd,
    (0 < n)%nat ->
    cs + Z.of_nat n = 366 ->
    (forall i, (i < n)%nat ->
               completedOnDay tz l (addDays cd (- Z.of_nat i)) = true) ->
    userStreakLoop tz l cs cd = 366.
Proof.
  induction n as [| n IH]; intros cs cd Hpos Hsum Hrun; [lia |].
  rewrite userStreakLoop_eq.
  pose proof (Hrun 0%nat ltac:(lia)) as H0.
  change (- Z.of_nat 0) with 0 in H0. rewrite addDays_0 in H0.
  rewrite H0.
  destruct (cs + 1 >? 365) eqn:Hcap; [lia |].
  apply IH; [lia | lia |].
  intros i Hi. rewrite addDays_addDays.
  replace (-1 + - Z.of_nat i) with (- Z.of_nat (S i)) by lia.
  apply Hrun. lia.
Qed.

(** ** Local midnights *)

Lemma msPerDay_pos : 0 < msPerDay.
Proof. reflexivity. Qed.

Lemma startOfDay_midnight (tz d : Z) : (startOfDay tz d + tz) mod msPerDay = 0.
Proof.
  unfold startOfDay.
  replace (d - (d + tz) mod msPerDay + tz)
    with ((d + tz) - (d + tz) mod msPerDay) by lia.
  rewrite Zminus_mod, Z.mod_mod, Z.sub_diag by (pose proof msPerDay_pos; lia).
  reflexivity.
Qed.

Lemma startOfDay_of_midnight (tz d : Z) :
  (d + tz) mod msPerDay = 0 -> startOfDay tz d = d.
Proof. unfold startOfDay. intros ->. lia. Qed.

Lemma addDays_midnight (tz d n : Z) :
  (d + tz) mod msPerDay = 0 -> (addDays d n + tz) mod msPerDay = 0.
Proof.
  intros H. unfold addDays.
  replace (d + n * msPerDay + tz) with ((d + tz) + n * msPerDay) by lia.
  rewrite Z.mod_add by (pose proof msPerDay_pos; lia). exact H.
Qed.

(** At a local midnight, [dayEnd] is the last millisecond of that day. *)
Lemma setHours_end_of_day (tz d : Z) :
  (d + tz) mod msPerDay = 0 -> setHours tz d 23 59 59 999 = d + msPerDay - 1.
Proof.
  intros H. unfold setHours. rewrite (startOfDay_of_midnight _ _ H).
  unfold msPerDay. lia.
Qed.

(** What the loop tests on its [i]-th turn is that day [i] counts. *)
Lemma completedOnDay_dayCounts (tz : Z) (l : list Task) (now : Z) (i : nat) :
  completedOnDay tz l (addDays (startOfDay tz now) (- Z.of_nat i))
  = dayCounts tz l now i.
Proof.
  unfold completedOnDay, dayCounts.
  rewrite setHours_end_of_day
    by (apply addDays_midnight, startOfDay_midnight).
  unfold addDays, isCompleted.
  replace (startOfDay tz now + - Z.of_nat i * msPerDay)
    with (startOfDay tz now - Z.of_nat i * msPerDay) by lia.
  reflexivity.
Qed.

Lemma consecutiveDays_run (tz : Z) (l : list Task) (now : Z) (k : nat) :
  consecutiveDays tz l now k = true ->
  (forall i, (i < k)%nat -> dayCounts tz l now i = true)
  /\ dayCounts tz l now k = false.
Proof.
  unfold consecutiveDays. intros H.
  apply andb_true_iff in H. destruct H as [Hall Hstop].
  split.
  - intros i Hi. rewrite forallb_forall in Hall. apply Hall.
    apply in_seq. lia.
  - now apply negb_true_iff.
Qed.

(* ===================================================================== *)
(** * The streak: bound and meaning *)
(* ===================================================================== *)

Lemma userStreak_bounds (tz : Z) (allTasks : list Task) (now : Z) :
  0 <= userStreak tz allTasks now <= 366.
Proof. apply userStreakLoop_bounds. lia. Qed.

Lemma teamStreak_bounds (tz : Z) (allTasks : list Task) (now : Z) :
  0 <= teamStreak tz allTasks now <= 365.
Proof. apply teamStreakLoop_bounds. lia. Qed.

(** C5.  The walk of [getTeamProductivityStats] stops with a streak of
    at most 365 on every task list.  The walk of [getProductivityStats]
    tests its bound after the increment and only leaves when the streak
    has passed 365: with a completion on each of the 366 days that end
    today it scans 366 days and returns 366.  It never returns more. *)
Theorem streak_bound_365_user_path_366 :
  periodStats_currentStreak
    (getProductivityStats 0 noon (dailyCompletions noon 366) alice
                          (Some 30) None) = 366
  /\ userStreak 0 (dailyCompletions noon 366) noon = 366
  /\ (forall tz now period allTasks,
         0 <= periodStats_currentStreak
                (productivityStatsOf tz now period allTasks) <= 366)
  /\ (forall tz now startDate member allTasks,
         0 <= currentStreak (memberStatsOf tz now startDate member allTasks)
         <= 365)
  /\ currentStreak (memberStatsOf 0 noon (startDateOf 0 noon 30) alice
                                  (dailyCompletions noon 366)) = 365.
Proof.
  split; [vm_compute; reflexivity |].
  split; [vm_compute; reflexivity |].
  split; [intros; apply userStreak_bounds |].
  split; [intros; apply teamStreak_bounds |].
  vm_compute; reflexivity.
Qed.

(** The streak of [getProductivityStats] is the length of the run of
    counting days that ends today, while that length is at most 365. *)
Lemma userStreak_consecutiveDays (tz : Z) (tasks : list Task) (now : Z)
    (k : nat) :
  consecutiveDays tz tasks now k = true ->
  (k <= 365)%nat ->
  userStreak tz tasks now = Z.of_nat k.
Proof.
  intros Hk Hle. apply consecutiveDays_run in Hk. destruct Hk as [Hrun Hstop].
  unfold userStreak.
  rewrite (userStreakLoop_run tz tasks k); [lia | | | lia].
  - intros i Hi. rewrite completedOnDay_dayCounts. now apply Hrun.
  - now rewrite completedOnDay_dayCounts.
Qed.

(** A longer run is cut by the bound of the loop. *)
Lemma userStreak_long_run (tz : Z) (tasks : list Task) (now : Z) (k : nat) :
  consecutiveDays tz tasks now k = true ->
  (365 < k)%nat ->
  365 <= userStreak tz tasks now <= Z.of_nat k.
Proof.
  intros Hk Hlt. apply consecutiveDays_run in Hk. destruct Hk as [Hrun _].
  unfold userStreak.
  rewrite (userStreakLoop_capped tz tasks 366); [lia | lia | lia |].
  intros i Hi. rewrite completedOnDay_dayCounts. apply Hrun. lia.
Qed.

(** C6, as stated, fails on a run of 367 days: the streak is cut. *)
Lemma streak_is_not_the_run_length :
  ~ (forall tz tasks now k,
        consecutiveDays tz tasks now k = true ->
        userStreak tz tasks now = Z.of_nat k).
Proof.
  intros H.
  specialize (H 0 (dailyCompletions noon 367) noon 367%nat).
  assert (Hrun : consecutiveDays 0 (dailyCompletions noon 367) noon 367 = true)
    by (vm_compute; reflexivity).
  specialize (H Hrun).
  assert (Hcut : userStreak 0 (dailyCompletions noon 367) noon = 366)
    by (vm_compute; reflexivity).
  rewrite Hcut in H. discriminate H.
Qed.

(** C6, amended.  The streak of [getProductivityStats] equals the number
    of consecutive days, ending at and including today, on each of which
    some task is Completed with [updatedAt] within that day, whenever
    that number is at most 365; a longer run is cut by the bound of the
    walk, the streak then being at least 365 and at most the run.  An
    empty task list has streak 0; no completion today gives 0 whatever
    the earlier days hold; completions today, yesterday and three days
    ago with none two days ago give 2. *)
Theorem streak_counts_consecutive_days :
  (forall tz tasks now k,
      consecutiveDays tz tasks now k = true ->
      (k <= 365)%nat ->
      userStreak tz tasks now = Z.of_nat k)
  /\ (forall tz tasks now k,
         consecutiveDays tz tasks now k = true ->
         (365 < k)%nat ->
         365 <= userStreak tz tasks now <= Z.of_nat k)
  /\ (forall tz now, userStreak tz [] now = 0)
  /\ (forall tz tasks now,
         dayCounts tz tasks now 0 = false ->
         userStreak tz tasks now = 0)
  /\ (forall tz tasks now,
         dayCounts tz tasks now 0 = true ->
         dayCounts tz tasks now 1 = true ->
         dayCounts tz tasks now 2 = false ->
         dayCounts tz tasks now 3 = true ->
         userStreak tz tasks now = 2).
Proof.
  split; [exact userStreak_consecutiveDays |].
  split; [exact userStreak_long_run |].
  split; [| split].
  - intros tz now.
    apply (userStreak_consecutiveDays tz [] now 0); [reflexivity | lia].
  - intros tz tasks now H0.
    apply (userStreak_consecutiveDays tz tasks now 0); [| lia].
    unfold consecutiveDays. simpl. now rewrite H0.
  - intros tz tasks now H0 H1 H2 _.
    apply (userStreak_consecutiveDays tz tasks now 2); [| lia].
    unfold consecutiveDays. simpl. now rewrite H0, H1, H2.
Qed.

Lemma streak_counts_consecutive_days_witness :
  consecutiveDays 0 gapOnDayTwo noon 2 = true
  /\ userStreak 0 gapOnDayTwo noon = 2
  /\ userStreak 0 (tl gapOnDayTwo) noon = 0.
Proof.
  pose proof streak_counts_consecutive_days as [Hrun [_ [_ [Hnone _]]]].
  split; [reflexivity |].
  split.
  - apply (Hrun 0 gapOnDayTwo noon 2%nat); [reflexivity | lia].
  - apply (Hnone 0 (tl gapOnDayTwo) noon). reflexivity.
Defined.

(* ===================================================================== *)
(** * The score *)
(* ===================================================================== *)

Lemma num_nonneg (z : Z) : 0 <= z -> (0 <= num z)%Q.
Proof.
  intros H. unfold num. change 0%Q with (inject_Z 0).
  now rewrite <- Zle_Qle.
Qed.

Lemma num_pos (z : Z) : 0 < z -> (0 < num z)%Q.
Proof.
  intros H. unfold num. change 0%Q with (inject_Z 0).
  now rewrite <- Zlt_Qlt.
Qed.

Lemma num_le (a b : Z) : a <= b -> (num a <= num b)%Q.
Proof. intros H. unfold num. now rewrite <- Zle_Qle. Qed.

Lemma num_neq_0 (z : Z) : z <> 0 -> ~ (num z == 0)%Q.
Proof.
  intros Hz H. unfold num in H. change 0%Q with (inject_Z 0) in H.
  now apply (proj1 (inject_Z_injective z 0)) in H.
Qed.

Lemma Qdiv_nonneg (a b : Q) : (0 <= a)%Q -> (0 < b)%Q -> (0 <= a / b)%Q.
Proof.
  intros Ha Hb. apply Qle_shift_div_l; [assumption |].
  now rewrite Qmult_0_l.
Qed.

Lemma Qdiv_le_1 (a b : Q) : (0 < b)%Q -> (a <= b)%Q -> (a / b <= 1)%Q.
Proof.
  intros Hb Hab. apply Qle_shift_div_r; [assumption |].
  now rewrite Qmult_1_l.
Qed.

Lemma Qmin_nonneg (a b : Q) : (0 <= a)%Q -> (0 <= b)%Q -> (0 <= Qmin a b)%Q.
Proof. intros Ha Hb. now apply Q.min_glb. Qed.

(** Ratios of counts compare as their cross products do. *)
Lemma ratio_le (a b c d : Z) :
  0 < b -> 0 < d -> a * d <= c * b -> (num a / num b <= num c / num d)%Q.
Proof.
  intros Hb Hd Hcross.
  apply Qle_shift_div_r; [now apply num_pos |].
  assert (H : (num c / num d * num b == num c * num b / num d)%Q)
    by (field; apply num_neq_0; lia).
  rewrite H. apply Qle_shift_div_l; [now apply num_pos |].
  unfold num. rewrite <- !inject_Z_mult, <- Zle_Qle. exact Hcross.
Qed.

Lemma ratio_nonneg (a b : Z) : 0 <= a -> 0 < b -> (0 <= num a / num b)%Q.
Proof.
  intros Ha Hb. apply Qdiv_nonneg; [now apply num_nonneg | now apply num_pos].
Qed.

Lemma ratio_le_1 (a b : Z) : 0 < b -> a <= b -> (num a / num b <= 1)%Q.
Proof.
  intros Hb Ha. apply Qdiv_le_1; [now apply num_pos | now apply num_le].
Qed.

Lemma ratio_ge_1 (n d : Z) : 0 < d -> d <= n -> (1 <= num n / num d)%Q.
Proof.
  intros Hd Hn. apply Qle_shift_div_l; [now apply num_pos |].
  rewrite Qmult_1_l. now apply num_le.
Qed.

(** ** [Math.round] *)

Lemma Math_round_le (x y : Q) : (x <= y)%Q -> Math_round x <= Math_round y.
Proof.
  intros H. unfold Math_round. apply Qfloor_resp_le.
  now apply Qplus_le_l.
Qed.

Lemma Math_round_comp (x y : Q) : (x == y)%Q -> Math_round x = Math_round y.
Proof. intros H. unfold Math_round. apply Qfloor_comp. now rewrite H. Qed.

#[global] Instance Math_round_Proper : Proper (Qeq ==> eq) Math_round.
Proof. intros x y H. now apply Math_round_comp. Qed.

Lemma Math_round_num (z : Z) : Math_round (num z) = z.
Proof.
  unfold Math_round, num.
  assert (H : (inject_Z z + (1 # 2) == (2 * z + 1) # 2)%Q).
  { unfold Qeq, Qplus, inject_Z. cbn [Qnum Qden]. lia. }
  rewrite H. unfold Qfloor.
  change (Z.pos 2) with 2.
  symmetry. apply (Z.div_unique (2 * z + 1) 2 z 1); lia.
Qed.

(** [Math.round] moves a number by at most one half. *)
Lemma Math_round_near (q : Q) :
  (q - (1 # 2) <= num (Math_round q) <= q + (1 # 2))%Q.
Proof.
  unfold Math_round, num.
  pose proof (Qfloor_le (q + (1 # 2))) as Hle.
  pose proof (Qlt_floor (q + (1 # 2))) as Hlt.
  rewrite inject_Z_plus in Hlt. change (inject_Z 1) with 1%Q in Hlt.
  split; lra.
Qed.

(** ** The operators *)

Lemma JS_div_value (x y : Q) :
  ~ (y == 0)%Q -> JS_div x y = Some (binary64 (x / y)).
Proof.
  intros Hy. unfold JS_div. destruct (Qeq_bool y 0) eqn:E; [| reflexivity].
  apply Qeq_bool_iff in E. contradiction.
Qed.

Lemma JS_div_by_zero (x y : Q) : (y == 0)%Q -> JS_div x y = None.
Proof.
  intros Hy. unfold JS_div. apply Qeq_bool_iff in Hy. now rewrite Hy.
Qed.

#[global] Instance JS_mul_Proper : Proper (Qeq ==> Qeq ==> Qeq) JS_mul.
Proof. intros x x' Hx y y' Hy. unfold JS_mul. now rewrite Hx, Hy. Qed.

#[global] Instance JS_add_Proper : Proper (Qeq ==> Qeq ==> Qeq) JS_add.
Proof. intros x x' Hx y y' Hy. unfold JS_add. now rewrite Hx, Hy. Qed.

Lemma JS_mul_nonneg (x y : Q) :
  (0 <= x)%Q -> (0 <= y)%Q -> (0 <= JS_mul x y)%Q.
Proof.
  intros Hx Hy. apply binary64_nonneg. now apply Qmult_le_0_compat.
Qed.

Lemma JS_add_nonneg (x y : Q) :
  (0 <= x)%Q -> (0 <= y)%Q -> (0 <= JS_add x y)%Q.
Proof. intros Hx Hy. apply binary64_nonneg. lra. Qed.

Lemma JS_mul_le (x x' y y' : Q) :
  (0 <= x <= x')%Q -> (0 <= y <= y')%Q -> (JS_mul x y <= JS_mul x' y')%Q.
Proof.
  intros Hx Hy. apply binary64_le.
  - apply Qmult_le_0_compat; [apply Hx | apply Hy].
  - now apply Qmult_le_compat_nonneg.
Qed.

Lemma JS_add_le (x x' y y' : Q) :
  (0 <= x <= x')%Q -> (0 <= y <= y')%Q -> (JS_add x y <= JS_add x' y')%Q.
Proof. intros Hx Hy. apply binary64_le; lra. Qed.

(** One rounding moves a number by at most its [2^-53]-th part. *)
Lemma binary64_relative_error (x : Q) :
  (0 <= x)%Q ->
  (x - x * epsilon <= binary64 x <= x + x * epsilon)%Q.
Proof.
  intros Hx. destruct (binary64_error x Hx) as [Hlo Hhi].
  assert (He : (pow2 (- 53) == epsilon)%Q) by reflexivity.
  rewrite He in Hlo, Hhi. now split.
Qed.

(** ** Percentages *)

Lemma percentOf_value (part whole : Z) :
  whole <> 0 ->
  percentOf part whole
  = Some (Math_round (JS_mul (binary64 (num part / num whole)) 100)).
Proof.
  intros Hw. unfold percentOf.
  now rewrite (JS_div_value _ _ (num_neq_0 whole Hw)).
Qed.

(** A percentage of nothing is not a number. *)
Lemma percentOf_of_nothing (part : Z) : percentOf part 0 = None.
Proof. reflexivity. Qed.

Lemma percentOf_le (a b c d : Z) :
  0 <= a -> 0 < b -> 0 < d -> a * d <= c * b ->
  integerOf (percentOf a b) <= integerOf (percentOf c d).
Proof.
  intros Ha Hb Hd Hcross. rewrite !percentOf_value by lia. cbn [integerOf].
  apply Math_round_le, JS_mul_le; [| split; discriminate].
  split; [apply binary64_nonneg; now apply ratio_nonneg |].
  apply binary64_le; [now apply ratio_nonneg | now apply ratio_le].
Qed.

Lemma percentOf_all (n : Z) : 0 < n -> percentOf n n = Some 100.
Proof.
  intros Hn. rewrite percentOf_value by lia. apply f_equal.
  assert (H : (num n / num n == 1)%Q)
    by (apply Qmult_inv_r, num_neq_0; lia).
  rewrite H. vm_compute. reflexivity.
Qed.

Lemma percentOf_none (n : Z) : 0 < n -> percentOf 0 n = Some 0.
Proof.
  intros Hn. rewrite percentOf_value by lia. apply f_equal.
  assert (H : (num 0 / num n == 0)%Q) by (unfold Qdiv; apply Qmult_0_l).
  rewrite H. vm_compute. reflexivity.
Qed.

Lemma percentOf_bounds (a b : Z) :
  0 < b -> 0 <= a <= b -> 0 <= integerOf (percentOf a b) <= 100.
Proof.
  intros Hb Ha. split.
  - apply Z.le_trans with (integerOf (percentOf 0 b));
      [rewrite percentOf_none by lia; reflexivity | apply percentOf_le; lia].
  - apply Z.le_trans with (integerOf (percentOf b b));
      [apply percentOf_le; nia | rewrite percentOf_all by lia; reflexivity].
Qed.

(** Where the percentage reaches 100 and where it leaves 0: up to 199
    items every item counts, from 201 on one item does not. *)
Lemma percentOf_below_100 (a b : Z) :
  0 <= a < b -> b < 200 -> integerOf (percentOf a b) < 100.
Proof.
  intros Ha Hb.
  apply Z.le_lt_trans with (integerOf (percentOf 198 199));
    [apply percentOf_le; lia | vm_compute; reflexivity].
Qed.

Lemma percentOf_above_0 (a b : Z) :
  0 < a <= b -> b < 200 -> 0 < integerOf (percentOf a b).
Proof.
  intros Ha Hb.
  apply Z.lt_le_trans with (integerOf (percentOf 1 199));
    [vm_compute; reflexivity | apply percentOf_le; lia].
Qed.

Lemma percentOf_all_but_one (b : Z) :
  200 < b -> integerOf (percentOf (b - 1) b) = 100.
Proof.
  intros Hb.
  assert (H1 : integerOf (percentOf 200 201)
               <= integerOf (percentOf (b - 1) b))
    by (apply percentOf_le; lia).
  assert (H2 : integerOf (percentOf 200 201) = 100)
    by (vm_compute; reflexivity).
  pose proof (percentOf_bounds (b - 1) b). lia.
Qed.

Lemma percentOf_one_of_many (b : Z) :
  200 < b -> integerOf (percentOf 1 b) = 0.
Proof.
  intros Hb.
  assert (H1 : integerOf (percentOf 1 b) <= integerOf (percentOf 1 201))
    by (apply percentOf_le; lia).
  assert (H2 : integerOf (percentOf 1 201) = 0)
    by (vm_compute; reflexivity).
  pose proof (percentOf_bounds 1 b). lia.
Qed.

(** The percentage is within one half of the exact one: a list of
    fewer than 2^32 items is too short for the roundings of the
    quotient and of the product to add up to more. *)
Lemma percentOf_near (a b : Z) :
  0 < b < 2 ^ 32 -> 0 <= a <= b ->
  200 * a - b <= 2 * b * integerOf (percentOf a b) <= 200 * a + b.
Proof.
  intros Hb Ha. rewrite percentOf_value by lia. cbn [integerOf].
  unfold JS_mul.
  assert (Hr0 : (0 <= num a / num b)%Q) by (apply ratio_nonneg; lia).
  assert (Hr1 : (num a / num b <= 1)%Q) by (apply ratio_le_1; lia).
  assert (HrB : (num a / num b * num b == num a)%Q)
    by (field; apply num_neq_0; lia).
  destruct (binary64_relative_error _ Hr0) as [Hq1 Hq2].
  pose proof (binary64_nonneg _ Hr0) as Hq0.
  set (r := (num a / num b)%Q) in *. set (q := binary64 r) in *.
  clearbody q. clearbody r.
  assert (Hy0 : (0 <= q * 100)%Q) by lra.
  destruct (binary64_relative_error _ Hy0) as [Hy1 Hy2].
  set (y := binary64 (q * 100)) in *. clearbody y.
  destruct (Math_round_near y) as [Hp1 Hp2].
  set (p := Math_round y) in *. clearbody p.
  assert (HB : (0 < num b)%Q) by (apply num_pos; lia).
  assert (HB32 : (num b <= 4294967295)%Q)
    by (change 4294967295%Q with (num 4294967295); apply num_le; lia).
  assert (HA0 : (0 <= num a)%Q) by (apply num_nonneg; lia).
  assert (HAB : (num a <= num b)%Q) by (apply num_le; lia).
  unfold epsilon in *.
  assert (Hup : (num p * num b
                 <= (100 * r * (1 + (1 # 9007199254740992))
                     * (1 + (1 # 9007199254740992)) + (1 # 2)) * num b)%Q).
  { apply Qmult_le_compat_r; [lra | now apply Qlt_le_weak]. }
  assert (Hdown : ((100 * r * (1 - (1 # 9007199254740992))
                    * (1 - (1 # 9007199254740992)) - (1 # 2)) * num b
                   <= num p * num b)%Q).
  { apply Qmult_le_compat_r; [lra | now apply Qlt_le_weak]. }
  assert (Hup' : (num p * num b
                  <= 100 * num a * (1 + (1 # 9007199254740992))
                     * (1 + (1 # 9007199254740992)) + (1 # 2) * num b)%Q).
  { rewrite <- HrB. eapply Qle_trans; [exact Hup |].
    apply Qle_lteq. right. ring. }
  assert (Hdown' : (100 * num a * (1 - (1 # 9007199254740992))
                    * (1 - (1 # 9007199254740992)) - (1 # 2) * num b
                    <= num p * num b)%Q).
  { rewrite <- HrB. eapply Qle_trans; [| exact Hdown].
    apply Qle_lteq. right. ring. }
  clear Hup Hdown.
  remember (num p * num b)%Q as pb eqn:Hpb.
  assert (E : (2 * num b * num p == 2 * pb)%Q) by (rewrite Hpb; ring).
  clear Hpb Hq1 Hq2 Hy1 Hy2 Hp1 Hp2 HrB.
  assert (Hlt : (num (2 * b * p) < num (200 * a + b + 1))%Q).
  { unfold num. rewrite !inject_Z_plus, !inject_Z_mult.
    fold (num a) (num b) (num p).
    change (inject_Z 2) with 2%Q. change (inject_Z 200) with 200%Q.
    change (inject_Z 1) with 1%Q.
    rewrite E. lra. }
  assert (Hgt : (num (200 * a - b - 1) < num (2 * b * p))%Q).
  { unfold num, Z.sub.
    rewrite !inject_Z_plus, !inject_Z_opp, !inject_Z_mult.
    fold (num a) (num b) (num p).
    change (inject_Z 2) with 2%Q. change (inject_Z 200) with 200%Q.
    change (inject_Z 1) with 1%Q.
    rewrite E. lra. }
  unfold num in Hlt, Hgt. rewrite <- Zlt_Qlt in Hlt, Hgt. lia.
Qed.

(** ** The two rates *)

Lemma onTimeRateNumber_value (completed : list Task) :
  onTimeRateNumber completed = Some (onTimeRateOf completed).
Proof.
  unfold onTimeRateOf, onTimeRateNumber.
  destruct (len completed >? 0) eqn:Hlen; [| reflexivity].
  rewrite percentOf_value by lia. reflexivity.
Qed.

Lemma onTimeRateOf_le_100 (completed : list Task) :
  0 <= onTimeRateOf completed <= 100.
Proof.
  unfold onTimeRateOf, onTimeRateNumber.
  destruct (len completed >? 0) eqn:Hlen; [| cbn [integerOf]; lia].
  apply percentOf_bounds; [lia |].
  split; [apply count_nonneg | apply count_le_len].
Qed.

Lemma onTimeRateOf_nonneg (completed : list Task) : 0 <= onTimeRateOf completed.
Proof. apply onTimeRateOf_le_100. Qed.

(** The totals of the checklists: all items, and the completed ones. *)
Lemma checklistStatsOf_fold (l : list Task) (acc : ChecklistStats) :
  let r := fold_left
             (fun checklistStats task =>
                if len (todoChecklist task) >? 0
                then {| total := total checklistStats
                                 + len (todoChecklist task);
                        completedItems := completedItems checklistStats
                                          + count completed
                                                  (todoChecklist task) |}
                else checklistStats)
             l acc in
  total r = total acc + sumOf (fun t => len (todoChecklist t)) l
  /\ completedItems r
     = completedItems acc + sumOf (fun t => count completed (todoChecklist t)) l.
Proof.
  revert acc. induction l as [| t l IH]; intros acc; cbn [fold_left].
  - unfold sumOf. cbn [fold_left]. split; lia.
  - destruct (IH (if len (todoChecklist t) >? 0
                  then {| total := total acc + len (todoChecklist t);
                          completedItems := completedItems acc
                                            + count completed (todoChecklist t) |}
                  else acc)) as [Ht Hc].
    rewrite Ht, Hc, !sumOf_cons.
    destruct (len (todoChecklist t) >? 0) eqn:Hlen;
      cbn [total completedItems]; [split; lia |].
    assert (len (todoChecklist t) = 0) by (pose proof (len_nonneg (todoChecklist t)); lia).
    assert (count completed (todoChecklist t) = 0).
    { pose proof (count_le_len completed (todoChecklist t)).
      pose proof (count_nonneg completed (todoChecklist t)). lia. }
    split; lia.
Qed.

Lemma sumOf_nonneg {A : Type} (f : A -> Z) (l : list A) :
  (forall x, 0 <= f x) -> 0 <= sumOf f l.
Proof.
  intros Hf. induction l as [| x l IH]; [reflexivity |].
  rewrite sumOf_cons. pose proof (Hf x). lia.
Qed.

Lemma sumOf_le {A : Type} (f g : A -> Z) (l : list A) :
  (forall x, f x <= g x) -> sumOf f l <= sumOf g l.
Proof.
  intros Hfg. induction l as [| x l IH]; [reflexivity |].
  rewrite !sumOf_cons. pose proof (Hfg x). lia.
Qed.

Lemma checklistStatsOf_totals (allTasks : list Task) :
  total (checklistStatsOf allTasks)
  = sumOf (fun t => len (todoChecklist t)) allTasks
  /\ completedItems (checklistStatsOf allTasks)
     = sumOf (fun t => count completed (todoChecklist t)) allTasks.
Proof.
  unfold checklistStatsOf.
  destruct (checklistStatsOf_fold allTasks {| total := 0; completedItems := 0 |})
    as [Ht Hc].
  cbn [total completedItems] in Ht, Hc. rewrite Z.add_0_l in Ht, Hc.
  now split.
Qed.

Lemma checklistStatsOf_bounds (allTasks : list Task) :
  0 <= completedItems (checklistStatsOf allTasks)
  <= total (checklistStatsOf allTasks).
Proof.
  destruct (checklistStatsOf_totals allTasks) as [-> ->]. split.
  - apply sumOf_nonneg. intros t. apply count_nonneg.
  - apply sumOf_le. intros t. apply count_le_len.
Qed.

Lemma checklistCompletionRateNumber_value (checklistStats : ChecklistStats) :
  checklistCompletionRateNumber checklistStats
  = Some (checklistCompletionRateOf checklistStats).
Proof.
  unfold checklistCompletionRateOf, checklistCompletionRateNumber.
  destruct (total checklistStats >? 0) eqn:Htot; [| reflexivity].
  rewrite percentOf_value by lia. reflexivity.
Qed.

Lemma checklistCompletionRateOf_le_100 (allTasks : list Task) :
  0 <= checklistCompletionRateOf (checklistStatsOf allTasks) <= 100.
Proof.
  unfold checklistCompletionRateOf, checklistCompletionRateNumber.
  destruct (total (checklistStatsOf allTasks) >? 0) eqn:Htot;
    [| cbn [integerOf]; lia].
  apply percentOf_bounds; [lia | apply checklistStatsOf_bounds].
Qed.

Lemma checklistCompletionRateOf_nonneg (allTasks : list Task) :
  0 <= checklistCompletionRateOf (checklistStatsOf allTasks).
Proof. apply checklistCompletionRateOf_le_100. Qed.

(** The rate of the team report, which is not rounded to an integer. *)
Lemma checklistRateNumber_value (allTasks : list Task) :
  let checklistStats := checklistStatsOf allTasks in
  checklistRateNumber checklistStats
  = Some (numberOf (checklistRateNumber checklistStats))
  /\ (0 <= numberOf (checklistRateNumber checklistStats) <= 100)%Q
  /\ checklistCompletionRateOf checklistStats
     = Math_round (numberOf (checklistRateNumber checklistStats)).
Proof.
  intros checklistStats.
  unfold checklistRateNumber, checklistCompletionRateOf,
    checklistCompletionRateNumber.
  pose proof (checklistStatsOf_bounds allTasks) as Hb. fold checklistStats in Hb.
  destruct (total checklistStats >? 0) eqn:Htot.
  - rewrite percentOf_value by lia.
    rewrite JS_div_value by (apply num_neq_0; lia).
    cbn [andThen numberOf integerOf].
    split; [reflexivity |]. split; [| reflexivity].
    split.
    + apply JS_mul_nonneg; [| discriminate].
      apply binary64_nonneg, ratio_nonneg; lia.
    + apply Qle_trans with (JS_mul (binary64 1) 100);
        [| vm_compute; discriminate].
      apply JS_mul_le; [| split; discriminate].
      split; [apply binary64_nonneg, ratio_nonneg; lia |].
      apply binary64_le; [apply ratio_nonneg; lia | apply ratio_le_1; lia].
  - cbn [numberOf integerOf]. split; [reflexivity |].
    split; [split; discriminate | reflexivity].
Qed.

(** ** The weights and their sum *)

Lemma scoreNumber_value (nTasks nCompleted onTimeRate currentStreak : Z)
    (checklistRate : Q) :
  scoreNumber nTasks nCompleted onTimeRate currentStreak checklistRate
  = Some (Z.min 100
            (Math_round
               (sumOfWeights (binary64 (num nTasks / 10))
                             (binary64 (num nCompleted
                                        / num (Z.max nTasks 1)))
                             (binary64 (num currentStreak / 7))
                             onTimeRate checklistRate))).
Proof.
  unfold scoreNumber.
  rewrite (JS_div_value (num nTasks) 10) by discriminate.
  cbn [andThen].
  rewrite (JS_div_value _ (num (Z.max nTasks 1))) by (apply num_neq_0; lia).
  cbn [andThen].
  rewrite (JS_div_value _ 7) by discriminate.
  cbn [andThen]. reflexivity.
Qed.

Lemma scoreNumber_scoreOf (nTasks nCompleted onTimeRate currentStreak : Z)
    (checklistRate : Q) :
  scoreNumber nTasks nCompleted onTimeRate currentStreak checklistRate
  = Some (scoreOf nTasks nCompleted onTimeRate currentStreak checklistRate).
Proof.
  unfold scoreOf. rewrite scoreNumber_value. cbn [integerOf]. reflexivity.
Qed.

Lemma literals_nonneg : (0 <= binary64 0.25)%Q /\ (0 <= binary64 0.15)%Q.
Proof. split; apply binary64_nonneg; discriminate. Qed.

Lemma sumOfWeights_nonneg (volume completionRate weeks : Q) (onTimeRate : Z)
    (checklistRate : Q) :
  (0 <= volume)%Q -> (0 <= completionRate)%Q -> (0 <= weeks)%Q ->
  0 <= onTimeRate -> (0 <= checklistRate)%Q ->
  (0 <= sumOfWeights volume completionRate weeks onTimeRate checklistRate)%Q.
Proof.
  intros Hv Hc Hw Hr Hk. unfold sumOfWeights.
  destruct literals_nonneg as [H25 H15].
  repeat apply JS_add_nonneg; apply JS_mul_nonneg;
    try assumption; try discriminate.
  - now apply Qmin_nonneg.
  - now apply num_nonneg.
  - now apply Qmin_nonneg.
Qed.

(** The sum grows with the completion ratio and the two rates, and
    the weights of the volume and of the streak are at most those of
    ten tasks and of a week. *)
Lemma sumOfWeights_le (volume completionRate weeks : Q) (onTimeRate : Z)
    (checklistRate completionRate' : Q) (onTimeRate' : Z)
    (checklistRate' : Q) :
  (0 <= volume)%Q -> (0 <= weeks)%Q ->
  (0 <= completionRate <= completionRate')%Q ->
  0 <= onTimeRate <= onTimeRate' ->
  (0 <= checklistRate <= checklistRate')%Q ->
  (sumOfWeights volume completionRate weeks onTimeRate checklistRate
   <= sumOfWeights 1 completionRate' 1 onTimeRate' checklistRate')%Q.
Proof.
  intros Hv Hw Hc Hr Hk. unfold sumOfWeights.
  destruct literals_nonneg as [H25 H15].
  assert (Hmin : forall x, (0 <= x)%Q -> (0 <= Qmin x 1 <= Qmin 1 1)%Q).
  { intros x Hx. split; [apply Qmin_nonneg; [exact Hx | discriminate] |].
    apply Q.min_glb; [apply Q.le_min_r | apply Q.le_min_r]. }
  assert (Hn : (0 <= num onTimeRate <= num onTimeRate')%Q)
    by (split; [apply num_nonneg | apply num_le]; lia).
  assert (H1 : (0 <= JS_mul (Qmin volume 1) 20 <= JS_mul (Qmin 1 1) 20)%Q).
  { split; [apply JS_mul_nonneg; [apply Hmin, Hv | discriminate] |].
    apply JS_mul_le; [apply Hmin, Hv | split; discriminate]. }
  assert (H2 : (0 <= JS_mul completionRate 25 <= JS_mul completionRate' 25)%Q).
  { split; [apply JS_mul_nonneg; [apply Hc | discriminate] |].
    apply JS_mul_le; [exact Hc | split; discriminate]. }
  assert (H3 : (0 <= JS_mul (num onTimeRate) (binary64 0.25)
                <= JS_mul (num onTimeRate') (binary64 0.25))%Q).
  { split; [apply JS_mul_nonneg; [apply Hn | exact H25] |].
    apply JS_mul_le; [exact Hn | split; [exact H25 | apply Qle_refl]]. }
  assert (H4 : (0 <= JS_mul (Qmin weeks 1) 15 <= JS_mul (Qmin 1 1) 15)%Q).
  { split; [apply JS_mul_nonneg; [apply Hmin, Hw | discriminate] |].
    apply JS_mul_le; [apply Hmin, Hw | split; discriminate]. }
  assert (H5 : (0 <= JS_mul checklistRate (binary64 0.15)
                <= JS_mul checklistRate' (binary64 0.15))%Q).
  { split; [apply JS_mul_nonneg; [apply Hk | exact H15] |].
    apply JS_mul_le; [exact Hk | split; [exact H15 | apply Qle_refl]]. }
  assert (H12 := conj (JS_add_nonneg _ _ (proj1 H1) (proj1 H2))
                      (JS_add_le _ _ _ _ H1 H2)).
  assert (H123 := conj (JS_add_nonneg _ _ (proj1 H12) (proj1 H3))
                       (JS_add_le _ _ _ _ H12 H3)).
  assert (H1234 := conj (JS_add_nonneg _ _ (proj1 H123) (proj1 H4))
                        (JS_add_le _ _ _ _ H123 H4)).
  exact (JS_add_le _ _ _ _ H1234 H5).
Qed.

(** What the score reads: the three quotients are numbers that are not
    negative, and the completion ratio is at most 1. *)
Lemma quotients_bounds (nTasks nCompleted currentStreak : Z) :
  0 <= nTasks -> 0 <= nCompleted <= nTasks -> 0 <= currentStreak ->
  (0 <= binary64 (num nTasks / 10))%Q
  /\ (0 <= binary64 (num nCompleted / num (Z.max nTasks 1)) <= 1)%Q
  /\ (0 <= binary64 (num currentStreak / 7))%Q.
Proof.
  intros Hn Hc Hs.
  assert (Hr : (0 <= num nCompleted / num (Z.max nTasks 1))%Q)
    by (apply ratio_nonneg; lia).
  split; [apply binary64_nonneg, (ratio_nonneg nTasks 10); lia |].
  split; [| apply binary64_nonneg, (ratio_nonneg currentStreak 7); lia].
  split; [now apply binary64_nonneg |].
  apply Qle_trans with (binary64 1); [| vm_compute; discriminate].
  apply binary64_le; [exact Hr | apply ratio_le_1; lia].
Qed.

Lemma scoreOf_bounds (nTasks nCompleted rate streak : Z) (checklistRate : Q) :
  0 <= nTasks -> 0 <= nCompleted -> 0 <= rate -> 0 <= streak ->
  (0 <= checklistRate)%Q ->
  0 <= scoreOf nTasks nCompleted rate streak checklistRate <= 100.
Proof.
  intros Hn Hc Hr Hs Hk. unfold scoreOf. rewrite scoreNumber_value.
  cbn [integerOf]. split; [| apply Z.le_min_l].
  apply Z.min_glb; [lia |].
  rewrite <- (Math_round_num 0). apply Math_round_le.
  apply sumOfWeights_nonneg; try assumption.
  - apply binary64_nonneg, (ratio_nonneg nTasks 10); lia.
  - apply binary64_nonneg, ratio_nonneg; lia.
  - apply binary64_nonneg, (ratio_nonneg streak 7); lia.
Qed.

(** The score is at most what the two rates leave of the 100 points. *)
Lemma scoreOf_le_rates (n c r s : Z) (k : Q) (r' : Z) (k' : Q) :
  0 <= n -> 0 <= c <= n -> 0 <= s -> 0 <= r <= r' -> (0 <= k <= k')%Q ->
  scoreOf n c r s k <= Math_round (sumOfWeights 1 1 1 r' k').
Proof.
  intros Hn Hc Hs Hr Hk. unfold scoreOf. rewrite scoreNumber_value.
  cbn [integerOf]. etransitivity; [apply Z.le_min_r |].
  apply Math_round_le.
  destruct (quotients_bounds n c s Hn Hc Hs) as (Hv & Hcr & Hw).
  now apply sumOfWeights_le.
Qed.

Lemma userStreak_nil (tz now : Z) : userStreak tz [] now = 0.
Proof. unfold userStreak. now rewrite userStreakLoop_eq. Qed.

Lemma productivityScore_bounds (tz now : Z) (period : option Z)
    (allTasks : list Task) :
  0 <= summary_productivityScore (productivityStatsOf tz now period allTasks)
  <= 100.
Proof.
  unfold productivityStatsOf. cbn [summary_productivityScore].
  apply scoreOf_bounds.
  - apply len_nonneg.
  - apply len_nonneg.
  - apply onTimeRateOf_nonneg.
  - apply userStreak_bounds.
  - apply num_nonneg, checklistCompletionRateOf_nonneg.
Qed.

(** The values of the model on counts where binary64 and the exact
    percentage part: 23 of 40 is 57.5 exactly and 57.49999999999999 as
    the code computes it; 14 tasks of which 11 are Completed, none with
    a due date or a checklist, and a streak of 6 give a sum of weights
    just below 52.5.  The evaluation on the bits of the numbers gives
    the same. *)
Remark binary64_where_it_shows :
  percentOf 23 40 = Some 57
  /\ Binary64.percent 23 40 = Some 57
  /\ Math_round (num 23 / num 40 * 100) = 58
  /\ scoreNumber 14 11 0 6 0 = Some 52
  /\ Binary64.scoreOf 14 11 0 6 0 = Some 52
  /\ Math_round (weightSum 14 11 0 6 0) = 53.
Proof. repeat split; vm_compute; reflexivity. Qed.

(** C8.  On every task list the code computes the on-time rate, the
    checklist rate and the score without dividing by 0: each of the
    three is a number, the score an integer between 0 and 100, and they
    are what the response carries.  With no task at all every count and
    rate of the response is 0, the on-time rate, the checklist rate,
    the streak and the score among them: the two guarded ratios are not
    evaluated (unguarded, each would be 0/0) and the completion ratio
    divides by [Math.max(0, 1)]. *)
Theorem score_is_bounded_and_zero_without_tasks :
  (forall tz now period allTasks,
      let s := productivityStatsOf tz now period allTasks in
      let completedTasks := filter isCompleted allTasks in
      exists onTimeRate checklistRate score,
        onTimeRateNumber completedTasks = Some onTimeRate
        /\ checklistCompletionRateNumber (checklistStatsOf allTasks)
           = Some checklistRate
        /\ scoreNumber (len allTasks) (len completedTasks) onTimeRate
                       (userStreak tz allTasks now) (num checklistRate)
           = Some score
        /\ 0 <= score <= 100
        /\ periodStats_onTimeRate s = onTimeRate
        /\ checklistStats_rate s = checklistRate
        /\ summary_productivityScore s = score)
  /\ (forall tz now tasks reqUser period targetUserId,
         0 <= summary_productivityScore
                (getProductivityStats tz now tasks reqUser period targetUserId)
         <= 100)
  /\ (forall tz now period,
         productivityStatsOf tz now period []
         = {| period := daysToAnalyzeOf period;
              summary_totalTasks := 0;
              summary_completedTasks := 0;
              summary_pendingTasks := 0;
              summary_inProgressTasks := 0;
              summary_overdueTasks := 0;
              summary_productivityScore := 0;
              periodStats_tasksCompleted := 0;
              periodStats_tasksCreated := 0;
              periodStats_onTimeRate := 0;
              periodStats_currentStreak := 0;
              checklistStats_total := 0;
              checklistStats_completed := 0;
              checklistStats_rate := 0 |})
  /\ onTimeRateNumber [] = Some 0
  /\ checklistCompletionRateNumber (checklistStatsOf []) = Some 0
  /\ scoreNumber 0 0 0 0 0 = Some 0
  /\ percentOf 0 0 = None
  /\ JS_div (num 0) (num (Z.max 0 1)) = Some 0%Q
  /\ (forall allTasks : list Task, 0 < Z.max (len allTasks) 1).
Proof.
  split.
  { intros tz now period allTasks s completedTasks.
    exists (onTimeRateOf completedTasks),
           (checklistCompletionRateOf (checklistStatsOf allTasks)),
           (summary_productivityScore s).
    split; [apply onTimeRateNumber_value |].
    split; [apply checklistCompletionRateNumber_value |].
    split; [apply scoreNumber_scoreOf |].
    split; [apply productivityScore_bounds |].
    repeat split. }
  split; [intros; apply productivityScore_bounds |].
  split.
  { intros tz now period. unfold productivityStatsOf.
    cbn [filter]. rewrite userStreak_nil. vm_compute. reflexivity. }
  repeat split; try (vm_compute; reflexivity).
  intros allTasks. lia.
Qed.

(** C7.  Ten tasks, six Completed of which five by their due date,
    twenty checklist items of which fifteen completed, a streak of 3:
    the on-time rate is 83, the checklist rate 75, the five weights are
    20, 15, 20.75, 45/7 and 11.25, their sum is 514/7 (about 73.43) and
    the score is 73, whatever the period.  The binary64 evaluation of
    the two rates and of the score gives 83, 75 and 73 as well. *)
Theorem score_of_the_worked_example (tz now : Z) (period : option Z)
    (allTasks : list Task) :
  len allTasks = 10 ->
  count isCompleted allTasks = 6 ->
  count isOnTime (filter isCompleted allTasks) = 5 ->
  total (checklistStatsOf allTasks) = 20 ->
  completedItems (checklistStatsOf allTasks) = 15 ->
  userStreak tz allTasks now = 3 ->
  let s := productivityStatsOf tz now period allTasks in
  summary_productivityScore s = 73
  /\ periodStats_onTimeRate s = 83
  /\ checklistStats_rate s = 75
  /\ (totalTaskWeight 10 == 20)%Q
  /\ (completionRateWeight 6 10 == 15)%Q
  /\ (onTimeWeight 83 == 20.75)%Q
  /\ (streakWeight 3 == 45 # 7)%Q
  /\ (checklistWeight (num 75) == 11.25)%Q
  /\ (weightSum 10 6 83 3 (num 75) == 514 # 7)%Q
  /\ Math_round (514 # 7) = 73
  /\ Binary64.percent 5 6 = Some 83
  /\ Binary64.percent 15 20 = Some 75
  /\ Binary64.scoreOf 10 6 83 3 75 = Some 73.
Proof.
  intros Hlen Hdone Hontime Htotal Hchecked Hstreak s.
  assert (Hrate : periodStats_onTimeRate s = 83).
  { subst s. unfold productivityStatsOf. cbn [periodStats_onTimeRate].
    unfold onTimeRateOf, onTimeRateNumber. fold (count isCompleted allTasks).
    rewrite Hontime, Hdone. vm_compute. reflexivity. }
  assert (Hcheck : checklistStats_rate s = 75).
  { subst s. unfold productivityStatsOf. cbn [checklistStats_rate].
    unfold checklistCompletionRateOf, checklistCompletionRateNumber.
    rewrite Htotal, Hchecked. vm_compute. reflexivity. }
  split; [| split; [exact Hrate | split; [exact Hcheck |]]].
  - subst s. unfold productivityStatsOf in *.
    cbn [summary_productivityScore periodStats_onTimeRate checklistStats_rate]
      in *.
    rewrite Hrate, Hcheck, Hstreak, Hlen.
    fold (count isCompleted allTasks). rewrite Hdone. vm_compute. reflexivity.
  - repeat split; vm_compute; reflexivity.
Qed.

Lemma score_of_the_worked_example_witness :
  summary_productivityScore (productivityStatsOf 0 noon (Some 30) tenTasks)
  = 73.
Proof.
  apply (score_of_the_worked_example 0 noon (Some 30) tenTasks);
    reflexivity.
Defined.

(* ===================================================================== *)
(** * The team report *)
(* ===================================================================== *)

Lemma insertSorted_Permutation {A : Type} (compare : A -> A -> Z) (x : A)
    (l : list A) :
  Permutation (x :: l) (insertSorted compare x l).
Proof.
  induction l as [| y l IH]; cbn [insertSorted]; [reflexivity |].
  destruct (compare x y <=? 0); [reflexivity |].
  rewrite perm_swap. now constructor.
Qed.

Lemma Array_sort_Permutation {A : Type} (compare : A -> A -> Z) (l : list A) :
  Permutation l (Array_sort compare l).
Proof.
  induction l as [| x l IH]; [reflexivity |].
  unfold Array_sort in *. cbn [fold_right].
  rewrite <- insertSorted_Permutation. now constructor.
Qed.

Lemma Array_sort_len {A : Type} (compare : A -> A -> Z) (l : list A) :
  len (Array_sort compare l) = len l.
Proof.
  unfold len. now rewrite <- (Permutation_length (Array_sort_Permutation compare l)).
Qed.

Lemma insertSorted_byScore (x : MemberStats) (l : list MemberStats) :
  StronglySorted scoreGe l ->
  StronglySorted scoreGe (insertSorted byScoreDescending x l).
Proof.
  induction 1 as [| y l Hsorted IH Hall]; cbn [insertSorted].
  - repeat constructor.
  - destruct (byScoreDescending x y <=? 0) eqn:Hcmp;
      unfold byScoreDescending in Hcmp.
    + constructor; [now constructor |].
      constructor; [unfold scoreGe; lia |].
      eapply Forall_impl; [| exact Hall].
      intros z Hz. unfold scoreGe in *. lia.
    + constructor; [exact IH |].
      eapply Permutation_Forall; [apply insertSorted_Permutation |].
      constructor; [unfold scoreGe; lia | exact Hall].
Qed.

Lemma Array_sort_byScore (l : list MemberStats) :
  StronglySorted scoreGe (Array_sort byScoreDescending l).
Proof.
  induction l as [| x l IH]; [constructor |].
  unfold Array_sort in *. cbn [fold_right]. now apply insertSorted_byScore.
Qed.

Lemma teamAverageOf_Permutation (l l' : list MemberStats) :
  Permutation l l' -> teamAverageOf l = teamAverageOf l'.
Proof.
  intros Hperm. unfold teamAverageOf, len.
  rewrite (Permutation_length Hperm).
  now rewrite (sumOf_Permutation productivityScore _ _ Hperm),
              (sumOf_Permutation completedInPeriod _ _ Hperm),
              (sumOf_Permutation onTimeRate _ _ Hperm),
              (sumOf_Permutation overdueTasks _ _ Hperm).
Qed.

(** C9.  The members of the report are the member snapshots, ordered by
    descending score; the two averages are the integers nearest to the
    means of the members' scores and on-time rates (a half going up),
    the two totals are the sums of the members' completions in the
    period and of their overdue counts; without members the averages
    and totals are 0.  For an admin of an organization domain the
    handler answers with this report of the snapshots of the members.
    Scores 90, 50, 70 come back as 90, 70, 50 with average 70. *)
Theorem team_report_ranks_and_averages :
  (forall d teamStats,
      let r := aggregate d teamStats in
      Permutation teamStats (members r)
      /\ StronglySorted scoreGe (members r)
      /\ teamSize r = len teamStats
      /\ totalCompleted (teamAverage r) = sumOf completedInPeriod teamStats
      /\ totalOverdue (teamAverage r) = sumOf overdueTasks teamStats)
  /\ (forall d teamStats,
         0 < len teamStats ->
         let r := aggregate d teamStats in
         let n := len teamStats in
         avgProductivityScore (teamAverage r)
         = Math_round (num (sumOf productivityScore teamStats) / num n)%Q
         /\ avgOnTimeRate (teamAverage r)
            = Math_round (num (sumOf onTimeRate teamStats) / num n)%Q
         /\ 2 * n * avgProductivityScore (teamAverage r)
            <= 2 * sumOf productivityScore teamStats + n
            < 2 * n * (avgProductivityScore (teamAverage r) + 1)
         /\ 2 * n * avgOnTimeRate (teamAverage r)
            <= 2 * sumOf onTimeRate teamStats + n
            < 2 * n * (avgOnTimeRate (teamAverage r) + 1))
  /\ (forall d,
         aggregate d []
         = {| teamPeriod := d; teamSize := 0;
              teamAverage := {| avgProductivityScore := 0;
                                totalCompleted := 0;
                                avgOnTimeRate := 0;
                                totalOverdue := 0 |};
              members := [] |})
  /\ (forall tz now tasks reqUser orgUsers period,
         isAdmin reqUser = true ->
         getTeamProductivityStats tz now tasks reqUser false orgUsers period
         = Ok (aggregate (daysToAnalyzeOf period)
                 (map (fun user =>
                         memberStatsOf tz now
                           (startDateOf tz now (daysToAnalyzeOf period))
                           user (findByAssignee tasks (uid user)))
                      orgUsers)))
  /\ (forall d a b c,
         productivityScore a = 90 ->
         productivityScore b = 50 ->
         productivityScore c = 70 ->
         members (aggregate d [a; b; c]) = [a; c; b]
         /\ map productivityScore (members (aggregate d [a; b; c]))
            = [90; 70; 50]
         /\ avgProductivityScore (teamAverage (aggregate d [a; b; c])) = 70).
Proof.
  split; [| split; [| split; [| split]]].
  - intros d teamStats r. subst r. unfold aggregate.
    cbn [members teamSize teamAverage].
    rewrite <- (teamAverageOf_Permutation _ _
                  (Array_sort_Permutation byScoreDescending teamStats)).
    split; [apply Array_sort_Permutation |].
    split; [apply Array_sort_byScore |].
    split; [apply Array_sort_len |].
    split; reflexivity.
  - intros d teamStats Hpos r n. subst r n. unfold aggregate.
    cbn [teamAverage].
    rewrite <- (teamAverageOf_Permutation _ _
                  (Array_sort_Permutation byScoreDescending teamStats)).
    unfold teamAverageOf. cbn [avgProductivityScore avgOnTimeRate].
    replace (len teamStats >? 0) with true by lia.
    split; [reflexivity |]. split; [reflexivity |].
    split; apply Math_round_ratio_nearest; assumption.
  - intros d. reflexivity.
  - intros tz now tasks reqUser orgUsers period Hadmin.
    unfold getTeamProductivityStats. rewrite Hadmin. reflexivity.
  - intros d a b c Ha Hb Hc.
    assert (Hsort : Array_sort byScoreDescending [a; b; c] = [a; c; b]).
    { unfold Array_sort. cbn [fold_right insertSorted].
      unfold byScoreDescending at 2. rewrite Hb, Hc.
      change (70 - 50 <=? 0) with false. cbn [insertSorted].
      unfold byScoreDescending. rewrite Ha, Hc. reflexivity. }
    unfold aggregate. cbn [members teamAverage]. rewrite Hsort.
    split; [reflexivity |].
    split; [cbn [map]; now rewrite Ha, Hb, Hc |].
    unfold teamAverageOf. cbn [avgProductivityScore].
    unfold sumOf. cbn [fold_left]. rewrite Ha, Hb, Hc. reflexivity.
Qed.

Lemma team_report_ranks_and_averages_witness :
  map productivityScore (members (aggregate 30 threeMembers)) = [90; 70; 50]
  /\ avgProductivityScore (teamAverage (aggregate 30 threeMembers)) = 70
  /\ avgOnTimeRate (teamAverage (aggregate 30 threeMembers))
     = Math_round (num (80 + 40 + 61) / num 3)%Q.
Proof.
  pose proof team_report_ranks_and_averages as [_ [Havg [_ [_ Hex]]]].
  destruct (Hex 30 (sampleMember "u1" 90 80) (sampleMember "u2" 50 40)
                (sampleMember "u3" 70 61) eq_refl eq_refl eq_refl)
    as [_ [Horder Hmean]].
  split; [exact Horder |]. split; [exact Hmean |].
  destruct (Havg 30 threeMembers) as [_ [Hrate _]]; [reflexivity |].
  exact Hrate.
Defined.

(* ===================================================================== *)
(** * The reminder scan *)
(* ===================================================================== *)

Lemma needsReminder_spec (now : Z) (t : Task) :
  needsReminder now t = true <->
  status t <> Completed
  /\ reminderSent t <> Some true
  /\ exists due, dueDate t = Some due
                 /\ now < due <= now + 24 * 60 * 60 * 1000.
Proof.
  unfold needsReminder, notReminded. split.
  - intros H. apply andb_true_iff in H. destruct H as [H Hflag].
    apply andb_true_iff in H. destruct H as [Hstatus Hdue].
    split; [destruct (status t); simpl in Hstatus; congruence |].
    split; [destruct (reminderSent t) as [[|] |]; congruence |].
    destruct (dueDate t) as [due |]; [| discriminate].
    exists due. split; [reflexivity | lia].
  - intros (Hstatus & Hflag & due & Hdue & Hwindow). rewrite Hdue.
    replace (now <? due) with true by lia.
    replace (due <=? now + 24 * 60 * 60 * 1000) with true by lia.
    destruct (status t); try congruence;
      destruct (reminderSent t) as [[|] |]; simpl; congruence.
Qed.

Lemma selectTasks_In (now : Z) (tasks : list Task) (t : Task) :
  In t (selectTasks now tasks) <-> In t tasks /\ needsReminder now t = true.
Proof. apply filter_In. Qed.

Lemma flagged_not_selected (now : Z) (t : Task) :
  reminderSent t = Some true -> needsReminder now t = false.
Proof.
  intros H. unfold needsReminder, notReminded. rewrite H.
  apply andb_false_r.
Qed.

(** ** Whom the effects of a scan concern *)

Lemma remindUser_effectTask (out : Outside) (t : Task) (u : User) (e : Effect) :
  In e (fst (remindUser out t u)) -> effectTask e = _id t.
Proof.
  unfold remindUser.
  destruct (String.eqb (email u) ""); [intros [] |].
  destruct (notificationCreate out (_id t) (uid u)); [| intros []].
  cbn [fst In]. intros [<- | [<- | []]]; reflexivity.
Qed.

Lemma remindTask_effects (out : Outside) (users : list User)
    (state : list Task * list Effect) (t : Task) (e : Effect) :
  In e (snd (remindTask out users state t)) ->
  In e (snd state) \/ effectTask e = _id t.
Proof.
  unfold remindTask.
  set (results := map (remindUser out t) (populate users (assignedTo t))).
  assert (Hnew : In e (List.concat (map fst results)) -> effectTask e = _id t).
  { intros Hin. apply in_concat in Hin. destruct Hin as (l & Hl & He).
    apply in_map_iff in Hl. destruct Hl as (r & <- & Hr).
    subst results. apply in_map_iff in Hr. destruct Hr as (u & <- & _).
    now apply remindUser_effectTask in He. }
  destruct (count _ results >? 0); cbn [snd]; intros Hin.
  - apply in_app_or in Hin. destruct Hin as [Hin | [<- | []]].
    + apply in_app_or in Hin. destruct Hin; [now left | right; auto].
    + now right.
  - apply in_app_or in Hin. destruct Hin; [now left | right; auto].
Qed.

Lemma dispatch_effects (out : Outside) (users : list User)
    (selected : list Task) :
  forall (state : list Task * list Effect) (e : Effect),
    In e (snd (fold_left (remindTask out users) selected state)) ->
    In e (snd state) \/ exists t, In t selected /\ effectTask e = _id t.
Proof.
  induction selected as [| t selected IH]; intros state e Hin;
    cbn [fold_left] in Hin; [now left |].
  apply IH in Hin. destruct Hin as [Hin | (t' & Ht' & He)].
  - apply remindTask_effects in Hin. destruct Hin as [Hin | He];
      [now left | right; exists t; split; [now left | exact He]].
  - right. exists t'. split; [now right | exact He].
Qed.

Lemma effectsFor_nil (id : Id) (l : list Effect) :
  (forall e, In e l -> effectTask e <> id) -> effectsFor id l = [].
Proof.
  intros Hall. unfold effectsFor.
  induction l as [| e l IH]; [reflexivity |]. cbn [filter].
  destruct (String.eqb (effectTask e) id) eqn:Heq.
  - apply String.eqb_eq in Heq. exfalso.
    exact (Hall e (or_introl eq_refl) Heq).
  - apply IH. intros e' He'. apply Hall. now right.
Qed.

(** A scan leaves alone every id whose stored tasks are all flagged. *)
Lemma flagged_no_effects (out : Outside) (now : Z) (users : list User)
    (tasks : list Task) (id : Id) :
  flagged id tasks ->
  effectsFor id (effects (checkDueDateReminders out now users tasks)) = [].
Proof.
  intros Hflag. apply effectsFor_nil. intros e He Heq.
  unfold checkDueDateReminders, dispatchReminders in He. cbn [effects] in He.
  apply dispatch_effects in He. destruct He as [[] | (t & Ht & Hid)].
  apply selectTasks_In in Ht. destruct Ht as [Hin Hneeds].
  rewrite (flagged_not_selected now t) in Hneeds; [discriminate |].
  apply Hflag; [exact Hin | congruence].
Qed.

(** ** The write of the flag *)

Lemma findByIdAndUpdate_ids (tasks : list Task) (id : Id) (sentAt : Z) :
  map _id (findByIdAndUpdate tasks id (markReminderSent sentAt))
  = map _id tasks.
Proof.
  induction tasks as [| t tasks IH]; [reflexivity |].
  cbn [findByIdAndUpdate]. destruct (String.eqb (_id t) id).
  - reflexivity.
  - cbn [map]. now rewrite IH.
Qed.

Lemma findByIdAndUpdate_In (tasks : list Task) (id : Id)
    (update : Task -> Task) (t' : Task) :
  In t' (findByIdAndUpdate tasks id update) ->
  In t' tasks \/ exists t, In t tasks /\ _id t = id /\ t' = update t.
Proof.
  induction tasks as [| t tasks IH]; [intros [] |].
  cbn [findByIdAndUpdate]. destruct (String.eqb (_id t) id) eqn:Heq.
  - intros [<- | Hin].
    + right. exists t. apply String.eqb_eq in Heq.
      repeat split; [now left | exact Heq].
    + left. now right.
  - intros [<- | Hin]; [left; now left |].
    destruct (IH Hin) as [H | (t0 & H0 & Hid & Hupd)].
    + left. now right.
    + right. exists t0. repeat split; [now right | exact Hid | exact Hupd].
Qed.

(** A write never clears a flag. *)
Lemma flagged_preserved (tasks : list Task) (id id' : Id) (sentAt : Z) :
  flagged id' tasks ->
  flagged id' (findByIdAndUpdate tasks id (markReminderSent sentAt)).
Proof.
  intros Hflag t' Hin Hid.
  apply findByIdAndUpdate_In in Hin.
  destruct Hin as [Hin | (t & _ & _ & ->)]; [now apply Hflag | reflexivity].
Qed.

(** With one document per id, the write flags its task. *)
Lemma flagged_after_write (tasks : list Task) (id : Id) (sentAt : Z) :
  NoDup (map _id tasks) ->
  flagged id (findByIdAndUpdate tasks id (markReminderSent sentAt)).
Proof.
  induction tasks as [| t tasks IH]; intros Hnodup t' Hin Hid;
    [destruct Hin |].
  cbn [findByIdAndUpdate] in Hin. cbn [map] in Hnodup.
  apply NoDup_cons_iff in Hnodup. destruct Hnodup as [Hfresh Hnodup].
  destruct (String.eqb (_id t) id) eqn:Heq.
  - destruct Hin as [<- | Hin]; [reflexivity |].
    apply String.eqb_eq in Heq. exfalso. apply Hfresh.
    rewrite Heq, <- Hid. now apply in_map.
  - destruct Hin as [<- | Hin].
    + apply String.eqb_neq in Heq. contradiction.
    + now apply (IH Hnodup t').
Qed.

Lemma remindTask_invariant (out : Outside) (users : list User)
    (state : list Task * list Effect) (t : Task) :
  NoDup (map _id (fst state)) ->
  map _id (fst (remindTask out users state t)) = map _id (fst state)
  /\ (forall id, flagged id (fst state) ->
                 flagged id (fst (remindTask out users state t)))
  /\ (forall id sentAt,
         In (FlagWrite id sentAt) (snd (remindTask out users state t)) ->
         In (FlagWrite id sentAt) (snd state)
         \/ flagged id (fst (remindTask out users state t))).
Proof.
  intros Hnodup. unfold remindTask.
  set (results := map (remindUser out t) (populate users (assignedTo t))).
  assert (Hnew : forall id sentAt,
             ~ In (FlagWrite id sentAt) (List.concat (map fst results))).
  { intros id sentAt Hin. apply in_concat in Hin.
    destruct Hin as (l & Hl & He).
    apply in_map_iff in Hl. destruct Hl as (r & <- & Hr).
    subst results. apply in_map_iff in Hr. destruct Hr as (u & <- & _).
    unfold remindUser in He.
    destruct (String.eqb (email u) ""); [destruct He |].
    destruct (notificationCreate out (_id t) (uid u)); [| destruct He].
    cbn [fst In] in He. destruct He as [He | [He | []]]; discriminate He. }
  destruct (count _ results >? 0); cbn [fst snd].
  - split; [apply findByIdAndUpdate_ids |].
    split; [intros id; apply flagged_preserved |].
    intros id sentAt Hin. apply in_app_or in Hin.
    destruct Hin as [Hin | [Heq | []]].
    + apply in_app_or in Hin. destruct Hin as [Hin | Hin];
        [now left | now apply Hnew in Hin].
    + injection Heq as <- _. right. now apply flagged_after_write.
  - split; [reflexivity |]. split; [auto |].
    intros id sentAt Hin. apply in_app_or in Hin.
    destruct Hin as [Hin | Hin]; [now left | now apply Hnew in Hin].
Qed.

Lemma dispatch_invariant (out : Outside) (users : list User)
    (selected : list Task) :
  forall state : list Task * list Effect,
    NoDup (map _id (fst state)) ->
    let final := fold_left (remindTask out users) selected state in
    map _id (fst final) = map _id (fst state)
    /\ (forall id, flagged id (fst state) -> flagged id (fst final))
    /\ (forall id sentAt,
           In (FlagWrite id sentAt) (snd final) ->
           In (FlagWrite id sentAt) (snd state) \/ flagged id (fst final)).
Proof.
  induction selected as [| t selected IH]; intros state Hnodup;
    cbn [fold_left].
  - repeat split; auto.
  - destruct (remindTask_invariant out users state t Hnodup)
      as (Hids & Hkeep & Hnew).
    assert (Hnodup' : NoDup (map _id (fst (remindTask out users state t))))
      by now rewrite Hids.
    destruct (IH _ Hnodup') as (Hids' & Hkeep' & Hnew').
    split; [now rewrite Hids', Hids |].
    split; [intros id Hid; now apply Hkeep', Hkeep |].
    intros id sentAt Hin. apply Hnew' in Hin.
    destruct Hin as [Hin | Hin]; [| now right].
    apply Hnew in Hin. destruct Hin as [Hin | Hin]; [now left |].
    right. now apply Hkeep'.
Qed.

(** A task that a scan marked is flagged in the collection it leaves. *)
Lemma marked_is_flagged (out : Outside) (now : Z) (users : list User)
    (tasks : list Task) (id : Id) (sentAt : Z) :
  NoDup (map _id tasks) ->
  In (FlagWrite id sentAt) (effects (checkDueDateReminders out now users tasks)) ->
  flagged id (tasksAfter (checkDueDateReminders out now users tasks)).
Proof.
  intros Hnodup Hin.
  unfold checkDueDateReminders, dispatchReminders in *.
  cbn [effects tasksAfter] in *.
  destruct (dispatch_invariant out users (selectTasks now tasks) (tasks, [])
              Hnodup) as (_ & _ & Hnew).
  apply Hnew in Hin. destruct Hin as [[] | Hin]. exact Hin.
Qed.

(** ** When the flag is written *)

Lemma count_cons {A : Type} (p : A -> bool) (x : A) (l : list A) :
  count p (x :: l) = (if p x then 1 else 0) + count p l.
Proof.
  unfold count. cbn [filter]. destruct (p x); [rewrite len_cons |]; lia.
Qed.

Lemma succeeded_remindUser (out : Outside) (t : Task) (u : User) :
  succeeded (snd (remindUser out t u))
  = negb (String.eqb (email u) "") && notificationCreate out (_id t) (uid u).
Proof.
  unfold remindUser. destruct (String.eqb (email u) ""); [reflexivity |].
  now destruct (notificationCreate out (_id t) (uid u)).
Qed.

Lemma successCount_positive (out : Outside) (users : list User) (t : Task) :
  (count (fun r => succeeded (snd r))
         (map (remindUser out t) (populate users (assignedTo t))) >? 0)
  = someCallbackSucceeded out users t.
Proof.
  unfold someCallbackSucceeded.
  induction (populate users (assignedTo t)) as [| u us IH]; [reflexivity |].
  cbn [map existsb]. rewrite count_cons, succeeded_remindUser, <- IH.
  pose proof (count_nonneg (fun r => succeeded (snd r))
                           (map (remindUser out t) us)).
  destruct (negb (String.eqb (email u) "")
            && notificationCreate out (_id t) (uid u)); cbn [orb]; lia.
Qed.

(** The write is issued from the count of callbacks alone; the stored
    flag is not read. *)
Lemma remindTask_tasks (out : Outside) (users : list User)
    (tasks : list Task) (eff : list Effect) (t : Task) :
  fst (remindTask out users (tasks, eff) t)
  = if someCallbackSucceeded out users t
    then findByIdAndUpdate tasks (_id t)
                           (markReminderSent (writeTime out (_id t)))
    else tasks.
Proof.
  unfold remindTask. rewrite successCount_positive.
  now destruct (someCallbackSucceeded out users t).
Qed.

Lemma someMailDelivered_callback (out : Outside) (users : list User) (t : Task) :
  implb (someMailDelivered out users t) (someCallbackSucceeded out users t)
  = true.
Proof.
  unfold someMailDelivered, someCallbackSucceeded.
  induction (populate users (assignedTo t)) as [| u us IH]; [reflexivity |].
  cbn [existsb].
  destruct (negb (String.eqb (email u) "")
            && notificationCreate out (_id t) (uid u)); cbn [andb orb];
    [apply implb_true_r | exact IH].
Qed.



(** With one document per id, a task whose own flag is set accounts
    for its id. *)
Lemma stored_flag_flagged (tasks : list Task) (t : Task) :
  NoDup (map _id tasks) ->
  In t tasks ->
  reminderSent t = Some true ->
  flagged (_id t) tasks.
Proof.
  intros Hnodup Hin Hflag t' Hin' Hid.
  assert (t' = t) as ->; [| exact Hflag].
  clear Hflag. induction tasks as [| x tasks IH]; [destruct Hin |].
  cbn [map] in Hnodup. apply NoDup_cons_iff in Hnodup.
  destruct Hnodup as [Hfresh Hnodup].
  destruct Hin as [-> | Hin], Hin' as [-> | Hin']; auto.
  - exfalso. apply Hfresh. rewrite <- Hid. now apply in_map.
  - exfalso. apply Hfresh. rewrite Hid. now apply in_map.
Qed.

(* ===================================================================== *)
(** * The reminder scan: what is claimed of it *)
(* ===================================================================== *)

(** C1.  A task whose stored [reminderSent] is true is not selected by
    a scan, and the scan has no effect that concerns it: no
    notification, no mail, no write.  Hence a second scan, whenever it
    runs and whatever the collaborators answer, does nothing for a task
    that the first scan marked, as long as the collection is the one the
    first scan left. *)
Theorem reminded_task_is_left_alone :
  (forall out now users tasks t,
      NoDup (map _id tasks) ->
      In t tasks ->
      reminderSent t = Some true ->
      ~ In t (selectTasks now tasks)
      /\ effectsFor (_id t)
           (effects (checkDueDateReminders out now users tasks)) = [])
  /\ (forall out1 now1 users1 out2 now2 users2 tasks id sentAt,
         NoDup (map _id tasks) ->
         let first := checkDueDateReminders out1 now1 users1 tasks in
         In (FlagWrite id sentAt) (effects first) ->
         effectsFor id
           (effects (checkDueDateReminders out2 now2 users2 (tasksAfter first)))
         = []).
Proof.
  split.
  - intros out now users tasks t Hnodup Hin Hflag. split.
    + intros Hsel. apply selectTasks_In in Hsel. destruct Hsel as [_ Hneeds].
      now rewrite (flagged_not_selected now t Hflag) in Hneeds.
    + now apply flagged_no_effects, stored_flag_flagged.
  - intros out1 now1 users1 out2 now2 users2 tasks id sentAt Hnodup first Hin.
    apply flagged_no_effects.
    now apply (marked_is_flagged out1 now1 users1 tasks id sentAt).
Qed.

Lemma reminded_task_is_left_alone_witness :
  let tasks := [dueIn "t1" tenHours ["u1"; "u2"]%string (Some false);
                dueIn "t2" tenHours ["u1"]%string (Some true)] in
  let first := checkDueDateReminders (allDelivered (noon + 1)) noon
                                     [alice; bob] tasks in
  let second := checkDueDateReminders (allDelivered (noon + 2)) (noon + 2)
                                      [alice; bob] (tasksAfter first) in
  List.length (effects first) = 5%nat
  /\ effectsFor "t2" (effects first) = []
  /\ map reminderSent (tasksAfter first) = [Some true; Some true]
  /\ effectsFor "t1" (effects second) = []
  /\ effects second = [].
Proof.
  intros tasks first second.
  destruct reminded_task_is_left_alone as [Hflagged Htwice].
  assert (Hnodup : NoDup (map _id tasks)).
  { repeat constructor; cbn [map _id dueIn In]; [| tauto].
    intros [H | []]. discriminate H. }
  split; [reflexivity |].
  split.
  - destruct (Hflagged (allDelivered (noon + 1)) noon [alice; bob] tasks
                       (dueIn "t2" tenHours ["u1"]%string (Some true)))
      as [_ Hnone]; [exact Hnodup | right; left; reflexivity | reflexivity |].
    exact Hnone.
  - split; [reflexivity |].
    split; [| reflexivity].
    apply (Htwice (allDelivered (noon + 1)) noon [alice; bob]
                  (allDelivered (noon + 2)) (noon + 2) [alice; bob]
                  tasks "t1"%string (noon + 1)).
    + exact Hnodup.
    + right; right; right; right; left. reflexivity.
Defined.

(** C3.  The scan selects exactly the stored tasks that are not
    Completed, whose [reminderSent] is not true and whose [dueDate] is
    after [now] and at most 24 hours after it, and processes as many.
    Such a task due in exactly 24 hours is selected; due a minute later,
    or at [now] or before, or without due date, it is not. *)
Theorem scan_selects_the_next_24_hours :
  (forall now tasks t,
      In t (selectTasks now tasks) <->
      In t tasks
      /\ status t <> Completed
      /\ reminderSent t <> Some true
      /\ exists due, dueDate t = Some due
                     /\ now < due <= now + 24 * 60 * 60 * 1000)
  /\ (forall out now users tasks,
         tasksProcessed (result (checkDueDateReminders out now users tasks))
         = len (selectTasks now tasks))
  /\ (forall now t,
         status t <> Completed ->
         reminderSent t <> Some true ->
         (dueDate t = Some (now + 24 * 60 * 60 * 1000) ->
          needsReminder now t = true)
         /\ (dueDate t = Some (now + 24 * 60 * 60 * 1000 + 60 * 1000) ->
             needsReminder now t = false)
         /\ (forall due, dueDate t = Some due -> due <= now ->
                         needsReminder now t = false)
         /\ (dueDate t = None -> needsReminder now t = false)).
Proof.
  split; [| split].
  - intros now tasks t. rewrite selectTasks_In, needsReminder_spec. tauto.
  - reflexivity.
  - intros now t Hstatus Hflag.
    assert (Hno : forall P : Prop,
               (needsReminder now t = true -> P -> False) ->
               P -> needsReminder now t = false).
    { intros P HP p. destruct (needsReminder now t) eqn:Hn; [| reflexivity].
      exfalso. now apply HP. }
    split; [| split; [| split]].
    + intros Hdue. apply needsReminder_spec.
      repeat split; try assumption. eexists. split; [exact Hdue | lia].
    + apply Hno. intros Hn Hdue. apply needsReminder_spec in Hn.
      destruct Hn as (_ & _ & due & Hdue' & Hwin).
      rewrite Hdue in Hdue'. injection Hdue' as <-. lia.
    + intros due Hdue Hle. revert Hdue. apply Hno. intros Hn Hdue.
      apply needsReminder_spec in Hn.
      destruct Hn as (_ & _ & due' & Hdue' & Hwin).
      rewrite Hdue in Hdue'. injection Hdue' as <-. lia.
    + apply Hno. intros Hn Hdue. apply needsReminder_spec in Hn.
      destruct Hn as (_ & _ & due & Hdue' & _). congruence.
Qed.

Lemma scan_selects_the_next_24_hours_witness :
  let day := 24 * 60 * 60 * 1000 in
  let tasks := [dueIn "t1" day ["u1"]%string None;
                dueIn "t2" (day + 60 * 1000) ["u1"]%string None;
                dueIn "t3" 0 ["u1"]%string (Some false);
                dueIn "t4" tenHours ["u1"]%string (Some true);
                dueIn "t5" 1 ["u1"]%string (Some false)] in
  map _id (selectTasks noon tasks) = ["t1"; "t5"]%string
  /\ needsReminder noon (dueIn "t1" day ["u1"]%string None) = true
  /\ needsReminder noon (dueIn "t2" (day + 60 * 1000) ["u1"]%string None) = false.
Proof.
  intros day tasks. split; [reflexivity |].
  destruct scan_selects_the_next_24_hours as [_ [_ Hedge]].
  split.
  - destruct (Hedge noon (dueIn "t1" day ["u1"]%string None))
      as [Hin _]; [discriminate | discriminate |].
    apply Hin. vm_compute. reflexivity.
  - destruct (Hedge noon (dueIn "t2" (day + 60 * 1000) ["u1"]%string None))
      as [_ [Hout _]]; [discriminate | discriminate |].
    apply Hout. vm_compute. reflexivity.
Defined.

(** C2.  A task assigned to Alice, the notification stored, the mail to
    her rejected by the transport: [sendDueDateReminder] returns
    [{ success: false }], the callback does not read it and reports
    success, and the scan sets [reminderSent] although no mail went out;
    the task is not selected again.  In general the flag is written
    exactly when some assignee with an address had the notification
    stored, which every delivered mail implies.  The other parts hold:
    with Alice's mail rejected and Bob's accepted both are attempted and
    the flag is set, and with the notification store down nothing is
    written and the task stays eligible. *)
Theorem flag_set_although_no_mail_went_out :
  (let tasks := [dueIn "t1" tenHours ["u1"]%string (Some false)] in
   let scan := checkDueDateReminders (mailDown (noon + 1)) noon
                                     [alice; bob] tasks in
   someMailDelivered (mailDown (noon + 1)) [alice; bob]
                     (dueIn "t1" tenHours ["u1"]%string (Some false)) = false
   /\ effects scan
      = [InApp {| recipient := "u1"; type := "reminder";
                  subject := "Task Due Soon";
                  message := quote ++ "Report" ++ quote
                             ++ " is due in less than 24 hours!";
                  task := "t1" |};
         MailAttempt "t1" "alice@example.org" false;
         FlagWrite "t1" (noon + 1)]
   /\ map reminderSent (tasksAfter scan) = [Some true]
   /\ map reminderSentAt (tasksAfter scan) = [Some (noon + 1)]
   /\ selectTasks (noon + 2) (tasksAfter scan) = [])
  /\ (forall out users tasks eff t,
         fst (remindTask out users (tasks, eff) t)
         = if someCallbackSucceeded out users t
           then findByIdAndUpdate tasks (_id t)
                                  (markReminderSent (writeTime out (_id t)))
           else tasks)
  /\ (forall out users t,
         implb (someMailDelivered out users t)
               (someCallbackSucceeded out users t) = true)
  /\ (let tasks := [dueIn "t1" tenHours ["u1"; "u2"]%string (Some false)] in
      let scan := checkDueDateReminders (aliceBounces (noon + 1)) noon
                                        [alice; bob] tasks in
      filter (fun e => negb (isInApp e)) (effects scan)
      = [MailAttempt "t1" "alice@example.org" false;
         MailAttempt "t1" "bob@example.org" true;
         FlagWrite "t1" (noon + 1)]
      /\ map reminderSent (tasksAfter scan) = [Some true])
  /\ (let tasks := [dueIn "t1" tenHours ["u1"; "u2"]%string (Some false)] in
      let scan := checkDueDateReminders (storeDown (noon + 1)) noon
                                        [alice; bob] tasks in
      effects scan = []
      /\ tasksAfter scan = tasks
      /\ selectTasks (noon + 2) (tasksAfter scan) = tasks).
Proof.
  split; [repeat split; vm_compute; reflexivity |].
  split; [exact remindTask_tasks |].
  split; [exact someMailDelivered_callback |].
  split; repeat split; vm_compute; reflexivity.
Qed.




(* ===================================================================== *)
(** * Status, checklist and progress *)
(* ===================================================================== *)

Lemma findById_id (tasks : list Task) (id : Id) (t : Task) :
  findById tasks id = Some t -> _id t = id.
Proof.
  unfold findById. intros H. apply find_some in H.
  now apply String.eqb_eq.
Qed.

Lemma findById_save (tasks : list Task) (t t' : Task) :
  findById tasks (_id t') = Some t ->
  findById (save tasks t') (_id t') = Some t'.
Proof.
  unfold save, findById.
  induction tasks as [| x tasks IH]; [discriminate |].
  cbn [find findByIdAndUpdate].
  destruct (String.eqb (_id x) (_id t')) eqn:Heq.
  - intros _. cbn [find]. now rewrite String.eqb_refl.
  - intros Hfind. cbn [find]. rewrite Heq. now apply IH.
Qed.

Lemma completeAll_completed (checklist : list ChecklistItem) :
  Forall (fun item => completed item = true) (completeAll checklist)
  /\ map text (completeAll checklist) = map text checklist
  /\ count completed (completeAll checklist) = len (completeAll checklist).
Proof.
  assert (Hall : Forall (fun item => completed item = true)
                        (completeAll checklist)).
  { unfold completeAll. apply Forall_forall. intros item Hin.
    apply in_map_iff in Hin. now destruct Hin as (x & <- & _). }
  split; [exact Hall |]. split.
  - unfold completeAll. rewrite map_map. reflexivity.
  - apply count_all. now apply Forall_forall.
Qed.

(** The task that [updateTaskStatus] saves when the status it sets is
    Completed. *)
Lemma updateTaskStatus_completed (tasks : list Task) (id : Id)
    (reqUser : User) (bodyStatus : option Status) (t : Task) :
  findById tasks id = Some t ->
  String.eqb (String.concat "," (assignedTo t)) (uid reqUser)
  || isAdmin reqUser = true ->
  match bodyStatus with Some s => s | None => status t end = Completed ->
  exists t',
    updateTaskStatus tasks id reqUser bodyStatus = (save tasks t', Ok t')
    /\ _id t' = id
    /\ status t' = Completed
    /\ progress t' = 100
    /\ todoChecklist t' = completeAll (todoChecklist t).
Proof.
  intros Hfind Hauth Hstatus. unfold updateTaskStatus. rewrite Hfind.
  replace (negb (String.eqb (String.concat "," (assignedTo t)) (uid reqUser))
           && negb (isAdmin reqUser)) with false
    by (rewrite <- negb_orb, Hauth; reflexivity).
  apply findById_id in Hfind.
  rewrite Hstatus. cbn [withStatus status].
  destruct (negb (Status_eqb (status t) Completed)); cbn [addActivityLog withStatus status Status_eqb];
    eexists; (split; [reflexivity |]); cbn; auto.
Qed.

(** 29 completed items of 200: the percentage is 14.5 exactly, which
    would round to 15; the product that the code computes is just below
    14.5, and the progress is 14. *)
Remark percent_at_a_half :
  progressNumber (checked 29 ++ unchecked 171) = Some 14
  /\ Binary64.percent 29 200 = Some 14
  /\ Math_round (num 29 / num 200 * 100)%Q = 15.
Proof. repeat split; vm_compute; reflexivity. Qed.

Lemma progressNumber_value (checklist : list ChecklistItem) :
  progressNumber checklist = Some (integerOf (progressNumber checklist)).
Proof.
  unfold progressNumber.
  destruct (len checklist >? 0) eqn:Hlen; [| reflexivity].
  rewrite percentOf_value by lia. reflexivity.
Qed.

Lemma progress_bounds (checklist : list ChecklistItem) :
  0 <= integerOf (progressNumber checklist) <= 100.
Proof.
  unfold progressNumber.
  destruct (len checklist >? 0) eqn:Hlen; [| cbn [integerOf]; lia].
  apply percentOf_bounds; [lia |].
  split; [apply count_nonneg | apply count_le_len].
Qed.

Lemma progress_near (checklist : list ChecklistItem) :
  len checklist < 2 ^ 32 ->
  200 * count completed checklist - len checklist
  <= 2 * len checklist * integerOf (progressNumber checklist)
  <= 200 * count completed checklist + len checklist.
Proof.
  intros Hsize. unfold progressNumber.
  pose proof (count_nonneg completed checklist) as Hc0.
  pose proof (count_le_len completed checklist) as Hcn.
  destruct (len checklist >? 0) eqn:Hlen; [| cbn [integerOf]; lia].
  apply percentOf_near; lia.
Qed.

Lemma progress_all (checklist : list ChecklistItem) :
  0 < len checklist ->
  count completed checklist = len checklist ->
  integerOf (progressNumber checklist) = 100.
Proof.
  intros Hlen Hcount. unfold progressNumber.
  replace (len checklist >? 0) with true by lia.
  now rewrite Hcount, percentOf_all.
Qed.

Lemma progress_none (checklist : list ChecklistItem) :
  count completed checklist = 0 ->
  integerOf (progressNumber checklist) = 0.
Proof.
  intros Hcount. unfold progressNumber.
  destruct (len checklist >? 0) eqn:Hlen; [| reflexivity].
  rewrite Hcount, percentOf_none by lia. reflexivity.
Qed.

(** The task that [updateTaskChecklist] saves. *)
Lemma updateTaskChecklist_saved (tasks : list Task) (id : Id)
    (reqUser : User) (checklist : list ChecklistItem) (t : Task) :
  findById tasks id = Some t ->
  existsb (String.eqb (uid reqUser)) (assignedTo t) || isAdmin reqUser = true ->
  exists t',
    updateTaskChecklist tasks id reqUser checklist = (save tasks t', Ok t')
    /\ _id t' = id
    /\ todoChecklist t' = checklist
    /\ progress t' = integerOf (progressNumber checklist)
    /\ status t'
       = (if progress t' =? 100 then Completed
          else if progress t' >? 0 then InProgress
          else Pending).
Proof.
  intros Hfind Hauth. unfold updateTaskChecklist. rewrite Hfind.
  replace (negb (existsb (String.eqb (uid reqUser)) (assignedTo t))
           && negb (isAdmin reqUser)) with false
    by (rewrite <- negb_orb, Hauth; reflexivity).
  apply findById_id in Hfind.
  eexists. split; [reflexivity |]. cbn [withStatus withChecklist _id
    todoChecklist progress status]. auto.
Qed.

(** C10.  Setting a task's status to Completed through
    [updateTaskStatus] saves it with every checklist item completed
    (the texts as they were) and [progress] 100, so that all its items
    count as completed in the checklist totals.  Replacing the checklist
    through [updateTaskChecklist] saves the task with [progress] the
    rounded percentage of completed items, which the code computes
    without dividing by 0: an integer between 0 and 100, within one
    half of the exact percentage for a list of fewer than 2^32 items
    (the length of an array), 0 for an empty checklist, 100 when every
    item is completed, 0 when none is; and with the status that the
    progress gives: Completed at 100, In Progress above 0, Pending
    at 0.  (Where the exact percentage ends in .5 the code rounds the
    binary64 product, which can be below it: 23 of 40 give 57.) *)
Theorem status_checklist_and_progress_agree :
  (forall tasks id reqUser bodyStatus t,
      findById tasks id = Some t ->
      String.eqb (String.concat "," (assignedTo t)) (uid reqUser)
      || isAdmin reqUser = true ->
      match bodyStatus with Some s => s | None => status t end = Completed ->
      exists t',
        updateTaskStatus tasks id reqUser bodyStatus = (save tasks t', Ok t')
        /\ findById (fst (updateTaskStatus tasks id reqUser bodyStatus)) id
           = Some t'
        /\ status t' = Completed
        /\ progress t' = 100
        /\ Forall (fun item => completed item = true) (todoChecklist t')
        /\ map text (todoChecklist t') = map text (todoChecklist t)
        /\ count completed (todoChecklist t') = len (todoChecklist t')
        /\ completedItems (checklistStatsOf [t'])
           = total (checklistStatsOf [t']))
  /\ (forall tasks id reqUser checklist t,
         findById tasks id = Some t ->
         existsb (String.eqb (uid reqUser)) (assignedTo t)
         || isAdmin reqUser = true ->
         exists t',
           updateTaskChecklist tasks id reqUser checklist
           = (save tasks t', Ok t')
           /\ findById (fst (updateTaskChecklist tasks id reqUser checklist)) id
              = Some t'
           /\ todoChecklist t' = checklist
           /\ progressNumber checklist = Some (progress t')
           /\ (len checklist < 2 ^ 32 ->
               200 * count completed checklist - len checklist
               <= 2 * len checklist * progress t'
               <= 200 * count completed checklist + len checklist)
           /\ 0 <= progress t' <= 100
           /\ status t'
              = (if progress t' =? 100 then Completed
                 else if progress t' >? 0 then InProgress
                 else Pending)
           /\ (checklist = [] -> progress t' = 0 /\ status t' = Pending)
           /\ (checklist <> [] ->
               Forall (fun item => completed item = true) checklist ->
               progress t' = 100 /\ status t' = Completed)
           /\ (Forall (fun item => completed item = false) checklist ->
               progress t' = 0 /\ status t' = Pending)).
Proof.
  split.
  - intros tasks id reqUser bodyStatus t Hfind Hauth Hstatus.
    destruct (updateTaskStatus_completed tasks id reqUser bodyStatus t
                Hfind Hauth Hstatus)
      as (t' & Hupd & Hid & Hst & Hprog & Hlist).
    destruct (completeAll_completed (todoChecklist t))
      as (Hall & Htext & Hcount).
    exists t'. rewrite Hupd. cbn [fst]. rewrite Hlist.
    split; [reflexivity |].
    split; [subst id; now apply (findById_save tasks t t') |].
    repeat (split; [assumption |]).
    destruct (checklistStatsOf_totals [t']) as [-> ->].
    rewrite !sumOf_cons, Hlist, Hcount. reflexivity.
  - intros tasks id reqUser checklist t Hfind Hauth.
    destruct (updateTaskChecklist_saved tasks id reqUser checklist t
                Hfind Hauth)
      as (t' & Hupd & Hid & Hlist & Hprog & Hst).
    exists t'. rewrite Hupd. cbn [fst].
    split; [reflexivity |].
    split; [subst id; now apply (findById_save tasks t t') |].
    split; [exact Hlist |].
    split; [rewrite Hprog; apply progressNumber_value |].
    split; [intros Hsize; rewrite Hprog; now apply progress_near |].
    split; [rewrite Hprog; apply progress_bounds |].
    split; [exact Hst |].
    split; [| split].
    + intros ->. rewrite Hst, Hprog. split; reflexivity.
    + intros Hne Hall.
      assert (Hlen : 0 < len checklist).
      { destruct checklist; [congruence | rewrite len_cons].
        pose proof (len_nonneg checklist). lia. }
      assert (Hcount : count completed checklist = len checklist)
        by (apply count_all; now apply Forall_forall).
      assert (H100 : progress t' = 100)
        by (rewrite Hprog; now apply progress_all).
      rewrite Hst, H100. split; reflexivity.
    + intros Hnone.
      assert (Hcount : count completed checklist = 0).
      { unfold count. replace (filter completed checklist) with (@nil ChecklistItem);
          [reflexivity |].
        symmetry. clear -Hnone.
        induction Hnone as [| x l Hx _ IH]; [reflexivity |].
        cbn [filter]. now rewrite Hx. }
      assert (H0 : progress t' = 0)
        by (rewrite Hprog; now apply progress_none).
      rewrite Hst, H0. split; reflexivity.
Qed.

Lemma status_checklist_and_progress_agree_witness :
  (exists t',
      snd (updateTaskStatus [withThreeSteps] "t7" alice (Some Completed))
      = Ok t'
      /\ progress t' = 100
      /\ Forall (fun item => completed item = true) (todoChecklist t')
      /\ map text (todoChecklist t') = ["draft"; "review"; "send"]%string)
  /\ (exists t',
         snd (updateTaskChecklist [withThreeSteps] "t7" alice
                [ {| text := "draft"; completed := true |};
                  {| text := "review"; completed := true |};
                  {| text := "send"; completed := false |} ])
         = Ok t'
         /\ progress t' = 67
         /\ status t' = InProgress).
Proof.
  destruct status_checklist_and_progress_agree as [Hstatus Hlist].
  split.
  - destruct (Hstatus [withThreeSteps] "t7"%string alice (Some Completed)
                      withThreeSteps eq_refl eq_refl eq_refl)
      as (t' & Hupd & _ & _ & Hprog & Hall & Htext & _).
    exists t'. rewrite Hupd. cbn [snd].
    split; [reflexivity |]. split; [exact Hprog |].
    split; [exact Hall | exact Htext].
  - destruct (Hlist [withThreeSteps] "t7"%string alice
                    [ {| text := "draft"; completed := true |};
                      {| text := "review"; completed := true |};
                      {| text := "send"; completed := false |} ]
                    withThreeSteps eq_refl eq_refl)
      as (t' & Hupd & _ & _ & _ & Hnear & _ & Hst & _).
    exists t'. rewrite Hupd. cbn [snd].
    split; [reflexivity |].
    assert (H67 : progress t' = 67).
    { assert (Hsize : len [ {| text := "draft"; completed := true |};
                             {| text := "review"; completed := true |};
                             {| text := "send"; completed := false |} ]
                      < 2 ^ 32) by reflexivity.
      apply Hnear in Hsize.
      change (count completed _) with 2 in Hsize.
      change (len _) with 3 in Hsize. lia. }
    split; [exact H67 |]. rewrite Hst, H67. reflexivity.
Defined.

(* ===================================================================== *)
(** * More on the score *)
(* ===================================================================== *)

Lemma Qmult_le_r_nonneg (a b c : Q) :
  (0 <= c)%Q -> (a <= b)%Q -> (a * c <= b * c)%Q.
Proof.
  intros Hc Hab.
  destruct (Qle_lt_or_eq _ _ Hc) as [Hlt | Heq].
  - now apply Qmult_le_r.
  - rewrite <- Heq, !Qmult_0_r. apply Qle_refl.
Qed.

(** A quotient of at least 1 rounds to a number of at least 1. *)
Lemma binary64_ge_1 (x : Q) : (1 <= x)%Q -> (1 <= binary64 x)%Q.
Proof.
  intros Hx. apply Qle_trans with (binary64 1); [vm_compute; discriminate |].
  apply binary64_le; [discriminate | exact Hx].
Qed.

(** With ten tasks or more and a streak of a week or more the first
    and the fourth weight are full, and with every task Completed the
    second is. *)
Lemma sumOfWeights_capped (volume completionRate weeks : Q) (onTimeRate : Z)
    (checklistRate : Q) :
  (1 <= volume)%Q -> (completionRate == 1)%Q -> (1 <= weeks)%Q ->
  (sumOfWeights volume completionRate weeks onTimeRate checklistRate
   == sumOfWeights 1 1 1 onTimeRate checklistRate)%Q.
Proof.
  intros Hv Hc Hw. unfold sumOfWeights.
  rewrite (Q.min_r volume 1 Hv), (Q.min_r weeks 1 Hw), Hc.
  rewrite (Q.min_r 1 1 (Qle_refl 1)). reflexivity.
Qed.

Lemma scoreOf_perfect (n s : Z) :
  10 <= n -> 7 <= s -> scoreOf n n 100 s (num 100) = 100.
Proof.
  intros Hn Hs. unfold scoreOf. rewrite scoreNumber_value. cbn [integerOf].
  rewrite sumOfWeights_capped.
  - vm_compute. reflexivity.
  - apply binary64_ge_1, (ratio_ge_1 n 10); lia.
  - replace (Z.max n 1) with n by lia.
    assert (H : (num n / num n == 1)%Q)
      by (apply Qmult_inv_r, num_neq_0; lia).
    rewrite H. vm_compute. reflexivity.
  - apply binary64_ge_1, (ratio_ge_1 s 7); lia.
Qed.

Lemma filter_all {A : Type} (p : A -> bool) (l : list A) :
  (forall x, In x l -> p x = true) -> filter p l = l.
Proof.
  intros Hall. induction l as [| x l IH]; [reflexivity |].
  cbn [filter]. rewrite (Hall x (or_introl eq_refl)).
  f_equal. apply IH. intros y Hy. apply Hall. now right.
Qed.

Lemma filter_none {A : Type} (p : A -> bool) (l : list A) :
  (forall x, In x l -> p x = false) -> filter p l = [].
Proof.
  intros Hall. induction l as [| x l IH]; [reflexivity |].
  cbn [filter]. rewrite (Hall x (or_introl eq_refl)).
  apply IH. intros y Hy. apply Hall. now right.
Qed.

Lemma sumOf_ext_in {A : Type} (f g : A -> Z) (l : list A) :
  (forall x, In x l -> f x = g x) -> sumOf f l = sumOf g l.
Proof.
  intros Hfg. induction l as [| x l IH]; [reflexivity |].
  rewrite !sumOf_cons, (Hfg x (or_introl eq_refl)).
  f_equal. apply IH. intros y Hy. apply Hfg. now right.
Qed.

(** The on-time rate from the two counts it is made of. *)
Lemma onTimeRateOf_counts (completed : list Task) :
  onTimeRateOf completed
  = if len completed >? 0
    then integerOf (percentOf (count isOnTime completed) (len completed))
    else 0.
Proof.
  unfold onTimeRateOf, onTimeRateNumber.
  now destruct (len completed >? 0).
Qed.

Lemma checklistCompletionRateOf_counts (checklistStats : ChecklistStats) :
  checklistCompletionRateOf checklistStats
  = if total checklistStats >? 0
    then integerOf (percentOf (completedItems checklistStats)
                              (total checklistStats))
    else 0.
Proof.
  unfold checklistCompletionRateOf, checklistCompletionRateNumber.
  now destruct (total checklistStats >? 0).
Qed.

(** X1.  The score of [getProductivityStats] is 100 for at least ten
    tasks that are all Completed by their due date, with a streak of at
    least 7 and every checklist item done, some task having an item.
    Without any checklist item it is at most 85, and when no Completed
    task is on time at most 75. *)
Theorem score_full_marks_and_ceilings :
  (forall tz now period allTasks,
      10 <= len allTasks ->
      (forall t, In t allTasks -> isCompleted t = true /\ isOnTime t = true) ->
      7 <= userStreak tz allTasks now ->
      (forall t item, In t allTasks -> In item (todoChecklist t) ->
                      completed item = true) ->
      0 < total (checklistStatsOf allTasks) ->
      summary_productivityScore (productivityStatsOf tz now period allTasks)
      = 100)
  /\ (forall tz now period allTasks,
         total (checklistStatsOf allTasks) = 0 ->
         summary_productivityScore (productivityStatsOf tz now period allTasks)
         <= 85)
  /\ (forall tz now period allTasks,
         (forall t, In t allTasks -> isCompleted t = true ->
                    isOnTime t = false) ->
         summary_productivityScore (productivityStatsOf tz now period allTasks)
         <= 75).
Proof.
  split; [| split].
  - intros tz now period allTasks Hten Hall Hstreak Hitems Hsome.
    unfold productivityStatsOf. cbn [summary_productivityScore].
    rewrite (filter_all isCompleted allTasks) by (intros t Ht; apply Hall, Ht).
    assert (Hrate : onTimeRateOf allTasks = 100).
    { rewrite onTimeRateOf_counts.
      rewrite (count_all isOnTime allTasks) by (intros t Ht; apply Hall, Ht).
      replace (len allTasks >? 0) with true by lia.
      now rewrite percentOf_all by lia. }
    assert (Hcheck : checklistCompletionRateOf (checklistStatsOf allTasks) = 100).
    { rewrite checklistCompletionRateOf_counts.
      replace (total (checklistStatsOf allTasks) >? 0) with true by lia.
      assert (Heq : completedItems (checklistStatsOf allTasks)
                    = total (checklistStatsOf allTasks)).
      { destruct (checklistStatsOf_totals allTasks) as [-> ->].
        apply sumOf_ext_in. intros t Ht. apply count_all.
        intros item Hitem. now apply (Hitems t). }
      now rewrite Heq, percentOf_all by lia. }
    rewrite Hrate, Hcheck. now apply scoreOf_perfect.
  - intros tz now period allTasks Hnone.
    unfold productivityStatsOf. cbn [summary_productivityScore].
    rewrite checklistCompletionRateOf_counts, Hnone. cbn [Z.gtb Z.compare].
    apply Z.le_trans with (Math_round (sumOfWeights 1 1 1 100 (num 0)));
      [| vm_compute; discriminate].
    apply scoreOf_le_rates.
    + apply len_nonneg.
    + split; [apply len_nonneg | apply count_le_len].
    + apply userStreak_bounds.
    + apply onTimeRateOf_le_100.
    + split; apply Qle_refl.
  - intros tz now period allTasks Hlate.
    unfold productivityStatsOf. cbn [summary_productivityScore].
    assert (Hrate : onTimeRateOf (filter isCompleted allTasks) = 0).
    { rewrite onTimeRateOf_counts. unfold count.
      rewrite (filter_none isOnTime).
      - destruct (len (filter isCompleted allTasks) >? 0) eqn:Hlen;
          [| reflexivity].
        change (len []) with 0. now rewrite percentOf_none by lia.
      - intros t Ht. apply filter_In in Ht. destruct Ht as [Hin Hdone].
        now apply Hlate. }
    rewrite Hrate.
    apply Z.le_trans with (Math_round (sumOfWeights 1 1 1 0 (num 100)));
      [| vm_compute; discriminate].
    apply scoreOf_le_rates.
    + apply len_nonneg.
    + split; [apply len_nonneg | apply count_le_len].
    + apply userStreak_bounds.
    + lia.
    + pose proof (checklistCompletionRateOf_le_100 allTasks).
      split; [apply num_nonneg | apply num_le]; lia.
Qed.

Lemma score_full_marks_and_ceilings_witness :
  summary_productivityScore (productivityStatsOf 0 noon (Some 30) tenPerfectTasks)
  = 100
  /\ summary_productivityScore
       (productivityStatsOf 0 noon (Some 30) (dailyCompletions noon 10))
     <= 75.
Proof.
  destruct score_full_marks_and_ceilings as [Hfull [_ Hlate]].
  split.
  - apply (Hfull 0 noon (Some 30) tenPerfectTasks).
    + vm_compute. discriminate.
    + intros t Ht.
      repeat (destruct Ht as [<- | Ht]; [split; reflexivity |]).
      destruct Ht.
    + vm_compute. discriminate.
    + intros t item Ht Hitem.
      repeat (destruct Ht as [<- | Ht];
              [repeat (destruct Hitem as [<- | Hitem]; [reflexivity |]);
               destruct Hitem |]).
      destruct Ht.
    + vm_compute. reflexivity.
  - apply (Hlate 0 noon (Some 30) (dailyCompletions noon 10)).
    intros t Ht _.
    repeat (destruct Ht as [<- | Ht]; [reflexivity |]).
    destruct Ht.
Defined.

(** Floors of ratios compare as the ratios do. *)
Lemma Zdiv_le_cross (a b c d : Z) :
  0 < b -> 0 < d -> a * d <= c * b -> a / b <= c / d.
Proof.
  intros Hb Hd Hcross.
  apply Z.div_le_lower_bound; [assumption |].
  pose proof (Z.mul_div_le a b Hb) as Hq.
  assert (H : b * (d * (a / b)) <= b * c) by nia.
  apply Z.mul_le_mono_pos_l in H; assumption.
Qed.

Lemma count_app {A : Type} (p : A -> bool) (l l' : list A) :
  count p (l ++ l') = count p l + count p l'.
Proof.
  unfold count, len. rewrite filter_app, length_app. lia.
Qed.

Lemma len_app {A : Type} (l l' : list A) : len (l ++ l') = len l + len l'.
Proof. unfold len. rewrite length_app. lia. Qed.

Lemma onTimeRate_insert (l1 l2 : list Task) (t : Task) :
  isCompleted t = true ->
  len (filter isCompleted (l1 ++ t :: l2))
  = len (filter isCompleted (l1 ++ l2)) + 1
  /\ count isOnTime (filter isCompleted (l1 ++ t :: l2))
     = count isOnTime (filter isCompleted (l1 ++ l2))
       + (if isOnTime t then 1 else 0).
Proof.
  intros Hdone. rewrite !filter_app. cbn [filter]. rewrite Hdone.
  rewrite !len_app, !count_app, len_cons, count_cons. lia.
Qed.

(** X2.  One more task that was Completed by its due date never lowers
    the on-time rate of [getProductivityStats], one more that was
    Completed late or without due date never raises it, and a task that
    is not Completed leaves it as it is, wherever the task stands among
    the others: the quotient, the product and [Math.round] keep the
    order of the exact ratios. *)
Theorem on_time_rate_follows_punctuality :
  forall tz now period l1 l2 t,
    let before := periodStats_onTimeRate
                    (productivityStatsOf tz now period (l1 ++ l2)) in
    let after := periodStats_onTimeRate
                   (productivityStatsOf tz now period (l1 ++ t :: l2)) in
    (isCompleted t = true -> isOnTime t = true -> before <= after)
    /\ (isCompleted t = true -> isOnTime t = false -> after <= before)
    /\ (isCompleted t = false -> after = before).
Proof.
  intros tz now period l1 l2 t before after. subst before after.
  unfold productivityStatsOf. cbn [periodStats_onTimeRate].
  pose proof (count_nonneg isOnTime (filter isCompleted (l1 ++ l2))) as Ha0.
  pose proof (count_le_len isOnTime (filter isCompleted (l1 ++ l2))) as Han.
  pose proof (len_nonneg (filter isCompleted (l1 ++ l2))) as Hn0.
  split; [| split].
  - intros Hdone Hontime.
    destruct (Z.eq_dec (len (filter isCompleted (l1 ++ l2))) 0) as [Hz | Hnz].
    + rewrite (onTimeRateOf_counts (filter isCompleted (l1 ++ l2))), Hz.
      apply onTimeRateOf_nonneg.
    + rewrite !onTimeRateOf_counts.
      destruct (onTimeRate_insert l1 l2 t Hdone) as [-> ->]. rewrite Hontime.
      replace (len (filter isCompleted (l1 ++ l2)) + 1 >? 0) with true by lia.
      replace (len (filter isCompleted (l1 ++ l2)) >? 0) with true by lia.
      apply percentOf_le; nia.
  - intros Hdone Hlate. rewrite !onTimeRateOf_counts.
    destruct (onTimeRate_insert l1 l2 t Hdone) as [-> ->]. rewrite Hlate.
    replace (len (filter isCompleted (l1 ++ l2)) + 1 >? 0) with true by lia.
    destruct (len (filter isCompleted (l1 ++ l2)) >? 0) eqn:Hlen.
    + apply percentOf_le; nia.
    + assert (count isOnTime (filter isCompleted (l1 ++ l2)) = 0) as -> by lia.
      assert (len (filter isCompleted (l1 ++ l2)) = 0) as -> by lia.
      cbn [Z.add]. now rewrite percentOf_none by lia.
  - intros Hopen. rewrite !filter_app. cbn [filter]. now rewrite Hopen.
Qed.

Lemma on_time_rate_follows_punctuality_witness :
  periodStats_onTimeRate (productivityStatsOf 0 noon (Some 30) (tl tenTasks))
  <= periodStats_onTimeRate (productivityStatsOf 0 noon (Some 30) tenTasks)
  /\ periodStats_onTimeRate
       (productivityStatsOf 0 noon (Some 30) (tl tenTasks)) = 80
  /\ periodStats_onTimeRate (productivityStatsOf 0 noon (Some 30) tenTasks)
     = 83.
Proof.
  pose proof (on_time_rate_follows_punctuality 0 noon (Some 30) []
                (tl tenTasks) (hd (completedDaysAgo noon 0) tenTasks))
    as [Hup _].
  split; [exact (Hup eq_refl eq_refl) |].
  split; vm_compute; reflexivity.
Defined.

(* ===================================================================== *)
(** * The weekly trend *)
(* ===================================================================== *)

Lemma fold_left_unshift {A B : Type} (f : B -> A) (l : list B) (acc : list A) :
  fold_left (fun out i => f i :: out) l acc = rev (map f l) ++ acc.
Proof.
  revert acc. induction l as [| x l IH]; intros acc; [reflexivity |].
  cbn [fold_left map rev]. rewrite IH, <- app_assoc. reflexivity.
Qed.

Lemma rev_map_countdown {A : Type} (g : Z -> A) (n : nat) :
  rev (map g (map Z.of_nat (seq 0 n)))
  = map (fun k => g (Z.of_nat n - k)) (map Z.of_nat (seq 1 n)).
Proof.
  induction n as [| n IH]; [reflexivity |].
  rewrite seq_S, !map_app, rev_app_distr. cbn [map rev app Nat.add].
  rewrite IH. cbn [seq map].
  f_equal; [f_equal; lia |].
  rewrite <- (seq_shift n 1), !map_map. apply map_ext. intros k. f_equal. lia.
Qed.

Lemma startOfDay_addDays (tz d n : Z) :
  startOfDay tz (addDays d n) = addDays (startOfDay tz d) n.
Proof.
  unfold startOfDay, addDays.
  replace (d + n * msPerDay + tz) with (d + tz + n * msPerDay) by lia.
  rewrite Z.mod_add by (pose proof msPerDay_pos; lia). lia.
Qed.

Lemma weekStartOf_eq (tz now i : Z) :
  weekStartOf tz now i = startOfDay tz now - (7 * i + 7) * msPerDay.
Proof. unfold weekStartOf. rewrite startOfDay_addDays. unfold addDays. lia. Qed.

Lemma weekEndOf_eq (tz now i : Z) :
  weekEndOf tz now i = startOfDay tz now - 7 * i * msPerDay + msPerDay - 1.
Proof.
  unfold weekEndOf, setHours. rewrite startOfDay_addDays.
  unfold addDays, msPerDay. lia.
Qed.

(** X3.  The weekly trend of [getProductivityStats] has one entry for
    each started week of the period, [Math.ceil(days / 7)] of them and
    none for a period that is not positive; they are numbered from 1,
    and the entry of number [k] holds the counts of the week that ends
    [7 * (n - k)] days ago: the oldest week comes first. *)
Theorem weekly_trend_oldest_first :
  forall tz now daysToAnalyze allTasks,
    let n := Z.to_nat (Math_ceil_ratio daysToAnalyze 7) in
    let weeklyData := weeklyDataOf tz now daysToAnalyze allTasks in
    List.length weeklyData = n
    /\ map week weeklyData = map Z.of_nat (seq 1 n)
    /\ weeklyData
       = map (fun k => weekStatsOf tz now (Math_ceil_ratio daysToAnalyze 7)
                                   allTasks (Z.of_nat n - k))
             (map Z.of_nat (seq 1 n))
    /\ (daysToAnalyze <= 0 -> weeklyData = [])
    /\ (0 < daysToAnalyze ->
        7 * (Z.of_nat n - 1) < daysToAnalyze <= 7 * Z.of_nat n).
Proof.
  intros tz now d allTasks n weeklyData.
  assert (Hclosed : weeklyData
                    = map (fun k => weekStatsOf tz now (Math_ceil_ratio d 7)
                                                allTasks (Z.of_nat n - k))
                          (map Z.of_nat (seq 1 n))).
  { subst weeklyData. unfold weeklyDataOf.
    rewrite fold_left_unshift, app_nil_r. apply rev_map_countdown. }
  assert (Hceil : 0 < d -> 7 * (Math_ceil_ratio d 7 - 1) < d
                           <= 7 * Math_ceil_ratio d 7).
  { intros Hd. unfold Math_ceil_ratio.
    pose proof (Z.mul_div_le (- d) 7 ltac:(lia)).
    pose proof (Z.mul_succ_div_gt (- d) 7 ltac:(lia)). lia. }
  assert (Hneg : d <= 0 -> n = 0%nat).
  { intros Hd. subst n. unfold Math_ceil_ratio.
    assert (0 <= - d / 7) by (apply Z.div_pos; lia). lia. }
  split; [rewrite Hclosed, !length_map, length_seq; reflexivity |].
  split.
  - rewrite Hclosed, !map_map. apply map_ext_in. intros k Hk.
    cbn [week weekStatsOf]. apply in_seq in Hk.
    assert (0 < Math_ceil_ratio d 7) by (subst n; lia).
    subst n. rewrite Z2Nat.id by lia. lia.
  - split; [exact Hclosed |]. split.
    + intros Hd. rewrite Hclosed, (Hneg Hd). reflexivity.
    + intros Hd. specialize (Hceil Hd). subst n.
      rewrite Z2Nat.id by lia. exact Hceil.
Qed.

Lemma weekly_trend_oldest_first_witness :
  map week (weeklyDataOf 0 noon 30 tenTasks) = [1; 2; 3; 4; 5]
  /\ 7 * (5 - 1) < 30 <= 7 * 5.
Proof.
  destruct (weekly_trend_oldest_first 0 noon 30 tenTasks)
    as (_ & Hweeks & _ & _ & Hceil).
  split; [exact Hweeks | exact (Hceil eq_refl)].
Defined.

(** X4.  Every week of the trend runs from the first millisecond of a
    local day to the last millisecond of the day seven days later, eight
    days in all, and the last day of a week is the first day of the
    next: a task Completed (or created) on such a day is counted in both
    weeks. *)
Theorem weekly_trend_weeks_share_a_day :
  (forall tz now i,
      weekEndOf tz now i = weekStartOf tz now i + 8 * msPerDay - 1
      /\ weekEndOf tz now (i + 1) = weekStartOf tz now i + msPerDay - 1)
  /\ (forall tz now weeksToShow i t,
         isCompleted t = true ->
         weekStartOf tz now i <= updatedAt t
         <= weekStartOf tz now i + msPerDay - 1 ->
         weekCompleted (weekStatsOf tz now weeksToShow [t] i) = 1
         /\ weekCompleted (weekStatsOf tz now weeksToShow [t] (i + 1)) = 1)
  /\ (forall tz now weeksToShow i t,
         weekStartOf tz now i <= createdAt t
         <= weekStartOf tz now i + msPerDay - 1 ->
         weekCreated (weekStatsOf tz now weeksToShow [t] i) = 1
         /\ weekCreated (weekStatsOf tz now weeksToShow [t] (i + 1)) = 1).
Proof.
  assert (Hspan : forall tz now i,
             weekEndOf tz now i = weekStartOf tz now i + 8 * msPerDay - 1
             /\ weekEndOf tz now (i + 1) = weekStartOf tz now i + msPerDay - 1).
  { intros tz now i. rewrite !weekEndOf_eq, weekStartOf_eq. lia. }
  pose proof msPerDay_pos as Hday.
  split; [exact Hspan |]. split.
  - intros tz now w i t Hdone Hin.
    destruct (Hspan tz now i) as [Hend Hshared].
    pose proof (weekStartOf_eq tz now i) as Hs.
    pose proof (weekStartOf_eq tz now (i + 1)) as Hs'.
    unfold weekStatsOf. cbn [weekCompleted]. rewrite !count_cons, Hdone.
    cbn [andb].
    replace (weekStartOf tz now i <=? updatedAt t) with true by lia.
    replace (updatedAt t <=? weekEndOf tz now i) with true by lia.
    replace (weekStartOf tz now (i + 1) <=? updatedAt t) with true by lia.
    replace (updatedAt t <=? weekEndOf tz now (i + 1)) with true by lia.
    split; reflexivity.
  - intros tz now w i t Hin.
    destruct (Hspan tz now i) as [Hend Hshared].
    pose proof (weekStartOf_eq tz now i) as Hs.
    pose proof (weekStartOf_eq tz now (i + 1)) as Hs'.
    unfold weekStatsOf. cbn [weekCreated]. rewrite !count_cons.
    replace (weekStartOf tz now i <=? createdAt t) with true by lia.
    replace (createdAt t <=? weekEndOf tz now i) with true by lia.
    replace (weekStartOf tz now (i + 1) <=? createdAt t) with true by lia.
    replace (createdAt t <=? weekEndOf tz now (i + 1)) with true by lia.
    split; reflexivity.
Qed.

Lemma weekly_trend_weeks_share_a_day_witness :
  weekCompleted (weekStatsOf 0 noon 2 [completedDaysAgo noon 7] 0) = 1
  /\ weekCompleted (weekStatsOf 0 noon 2 [completedDaysAgo noon 7] 1) = 1
  /\ map weekCompleted (weeklyDataOf 0 noon 14 [completedDaysAgo noon 7])
     = [1; 1].
Proof.
  destruct weekly_trend_weeks_share_a_day as [_ [Hboth _]].
  destruct (Hboth 0 noon 2 0 (completedDaysAgo noon 7) eq_refl) as [H0 H1].
  - vm_compute. split; discriminate.
  - split; [exact H0 |]. split; [exact H1 | vm_compute; reflexivity].
Defined.

(* ===================================================================== *)
(** * Breakdowns and the average completion time *)
(* ===================================================================== *)

Lemma count_by_status {A : Type} (st : A -> Status) (l : list A) :
  count (fun t => Status_eqb (st t) Pending) l
  + count (fun t => Status_eqb (st t) InProgress) l
  + count (fun t => Status_eqb (st t) Completed) l
  = len l.
Proof.
  induction l as [| t l IH]; [reflexivity |].
  rewrite !count_cons, len_cons. destruct (st t); cbn [Status_eqb]; lia.
Qed.

Lemma count_by_priority {A : Type} (pr : A -> Priority) (l : list A) :
  count (fun t => Priority_eqb (pr t) Low) l
  + count (fun t => Priority_eqb (pr t) Medium) l
  + count (fun t => Priority_eqb (pr t) High) l
  = len l.
Proof.
  induction l as [| t l IH]; [reflexivity |].
  rewrite !count_cons, len_cons. destruct (pr t); cbn [Priority_eqb]; lia.
Qed.

Lemma count_filter_le {A : Type} (p q : A -> bool) (l : list A) :
  (forall x, p x = true -> q x = true) -> count p l <= count q l.
Proof.
  intros Hpq. induction l as [| x l IH]; [reflexivity |].
  rewrite !count_cons. destruct (p x) eqn:Hp.
  - rewrite (Hpq x Hp). lia.
  - destruct (q x); lia.
Qed.

Lemma count_disjoint_le {A : Type} (p q : A -> bool) (l : list A) :
  (forall x, p x = true -> q x = false) -> count p l + count q l <= len l.
Proof.
  intros Hpq. induction l as [| x l IH]; [reflexivity |].
  rewrite !count_cons, len_cons. destruct (p x) eqn:Hp.
  - rewrite (Hpq x Hp). lia.
  - destruct (q x); lia.
Qed.

(** X5.  The breakdowns that [getProductivityStats] returns add up: the
    Pending, In Progress and Completed tasks are all the tasks, the
    completions of the period by priority are all the completions of
    the period, these are among the Completed tasks, and the overdue
    tasks are among those not Completed. *)
Theorem productivity_breakdowns_add_up :
  forall tz now period allTasks,
    let s := productivityStatsOf tz now period allTasks in
    let byPriority := completedByPriorityOf tz now period allTasks in
    summary_pendingTasks s + summary_inProgressTasks s
    + summary_completedTasks s = summary_totalTasks s
    /\ countHigh byPriority + countMedium byPriority + countLow byPriority
       = periodStats_tasksCompleted s
    /\ 0 <= periodStats_tasksCompleted s <= summary_completedTasks s
    /\ 0 <= summary_overdueTasks s
       <= summary_pendingTasks s + summary_inProgressTasks s
    /\ 0 <= periodStats_tasksCreated s <= summary_totalTasks s.
Proof.
  intros tz now period allTasks s byPriority. subst s byPriority.
  unfold productivityStatsOf, completedByPriorityOf.
  cbn [summary_pendingTasks summary_inProgressTasks summary_completedTasks
       summary_totalTasks periodStats_tasksCompleted summary_overdueTasks
       periodStats_tasksCreated countHigh countMedium countLow].
  pose proof (count_by_status status allTasks) as Hstatus.
  fold (count isCompleted allTasks).
  change (count (fun t => Status_eqb (status t) Completed) allTasks)
    with (count isCompleted allTasks) in Hstatus.
  split; [exact Hstatus |]. split.
  - pose proof (count_by_priority priority
                  (filter (fun task => isCompleted task
                                       && (startDateOf tz now
                                             (daysToAnalyzeOf period)
                                           <=? updatedAt task))
                          allTasks)). lia.
  - split; [| split].
    + split; [apply len_nonneg |].
      apply (count_filter_le
               (fun task => isCompleted task
                            && (startDateOf tz now (daysToAnalyzeOf period)
                                <=? updatedAt task)) isCompleted).
      intros t Ht. now apply andb_true_iff in Ht.
    + split; [apply count_nonneg |].
      pose proof (count_disjoint_le (isOverdue now) isCompleted allTasks) as H.
      assert (Hdis : forall t, isOverdue now t = true -> isCompleted t = false).
      { intros t Ht. unfold isOverdue in Ht. apply andb_true_iff in Ht.
        destruct Ht as [Ht _]. now apply negb_true_iff. }
      specialize (H Hdis). lia.
    + split; [apply len_nonneg | apply count_le_len].
Qed.

Lemma num_mult (a b : Z) : (num a * num b == num (a * b))%Q.
Proof. unfold num. now rewrite inject_Z_mult. Qed.

(** The mean of the completion times lies between their bounds. *)
Lemma completionTime_between (l : list Task) (lo hi : Z) :
  (forall t, In t l ->
             lo * msPerDay <= updatedAt t - createdAt t <= hi * msPerDay) ->
  lo * msPerDay * len l
  <= sumOf (fun t => updatedAt t - createdAt t) l
  <= hi * msPerDay * len l.
Proof.
  intros Hall. induction l as [| t l IH]; [cbn; lia |].
  rewrite sumOf_cons, len_cons.
  pose proof (Hall t (or_introl eq_refl)).
  assert (IH' := IH (fun x Hx => Hall x (or_intror Hx))). lia.
Qed.

(** X6.  The average completion time of [getProductivityStats] is 0
    when no task is Completed; when every Completed task was last
    updated between [lo] and [hi] whole days after its creation, it is
    between [lo] and [hi]. *)
Theorem average_completion_time_between :
  (forall allTasks,
      (forall t, In t allTasks -> isCompleted t = false) ->
      avgCompletionTimeOf allTasks = 0)
  /\ (forall allTasks lo hi t0,
         In t0 allTasks -> isCompleted t0 = true ->
         (forall t, In t allTasks -> isCompleted t = true ->
                    lo * msPerDay <= updatedAt t - createdAt t
                    <= hi * msPerDay) ->
         lo <= avgCompletionTimeOf allTasks <= hi).
Proof.
  split.
  - intros allTasks Hnone. unfold avgCompletionTimeOf.
    now rewrite (filter_none isCompleted allTasks Hnone).
  - intros allTasks lo hi t0 Hin0 Hdone0 Hall. unfold avgCompletionTimeOf.
    set (l := filter isCompleted allTasks).
    assert (Hlen : 0 < len l).
    { assert (In t0 l) as Hin by (apply filter_In; now split).
      destruct l; [destruct Hin | rewrite len_cons].
      pose proof (len_nonneg l). lia. }
    replace (len l >? 0) with true by lia.
    assert (Hsum := completionTime_between l lo hi).
    assert (Hl : forall t, In t l ->
                 lo * msPerDay <= updatedAt t - createdAt t <= hi * msPerDay).
    { intros t Ht. apply filter_In in Ht. now apply Hall. }
    specialize (Hsum Hl).
    change (1000 * 60 * 60 * 24) with msPerDay.
    pose proof msPerDay_pos as Hday.
    rewrite <- (Math_round_num lo), <- (Math_round_num hi).
    split; apply Math_round_le.
    + apply Qle_shift_div_l; [now apply num_pos |].
      apply Qle_shift_div_l; [now apply num_pos |].
      rewrite !num_mult. apply num_le. lia.
    + apply Qle_shift_div_r; [now apply num_pos |].
      apply Qle_shift_div_r; [now apply num_pos |].
      rewrite !num_mult. apply num_le. lia.
Qed.

Lemma average_completion_time_between_witness :
  1 <= avgCompletionTimeOf tenTasks <= 1.
Proof.
  destruct average_completion_time_between as [_ Hbetween].
  apply (Hbetween tenTasks 1 1 (hd (completedDaysAgo noon 0) tenTasks)).
  - left. reflexivity.
  - reflexivity.
  - intros t Ht Hdone.
    repeat (destruct Ht as [<- | Ht];
            [try discriminate Hdone; vm_compute; split; discriminate |]).
    destruct Ht.
Defined.

(* ===================================================================== *)
(** * The dashboards *)
(* ===================================================================== *)

Lemma Status_eqb_eq (a b : Status) : Status_eqb a b = true <-> a = b.
Proof. destruct a, b; cbn; split; congruence. Qed.

Lemma Priority_eqb_eq (a b : Priority) : Priority_eqb a b = true <-> a = b.
Proof. destruct a, b; cbn; split; congruence. Qed.

Section Groups.

Context {K : Type} (eqb : K -> K -> bool).
Hypothesis eqb_eq : forall a b, eqb a b = true <-> a = b.
Variable key : Task -> K.

Lemma eqb_same (a : K) : eqb a a = true.
Proof. now apply eqb_eq. Qed.

Lemma countIn_bump (k k' : K) (groups : list (K * Z)) :
  countIn eqb k
    (map (fun item => if eqb (fst item) k' then (fst item, snd item + 1)
                      else item) groups)
  = countIn eqb k groups
    + (if existsb (fun item => eqb (fst item) k) groups
       then if eqb k' k then 1 else 0
       else 0).
Proof.
  unfold countIn. induction groups as [| [k0 c] groups IH]; [reflexivity |].
  cbn [map find existsb fst snd].
  destruct (eqb k0 k') eqn:H0'; cbn [fst snd];
    destruct (eqb k0 k) eqn:H0; cbn [orb fst snd].
  - apply eqb_eq in H0'. apply eqb_eq in H0. subst.
    rewrite eqb_same. reflexivity.
  - exact IH.
  - apply eqb_eq in H0. subst k0.
    destruct (eqb k' k) eqn:Hk; [| lia].
    apply eqb_eq in Hk. subst. rewrite eqb_same in H0'. discriminate.
  - exact IH.
Qed.

Lemma countIn_append (k k' : K) (groups : list (K * Z)) (c : Z) :
  countIn eqb k (groups ++ [(k', c)])
  = if existsb (fun item => eqb (fst item) k) groups
    then countIn eqb k groups
    else if eqb k' k then c else 0.
Proof.
  unfold countIn. induction groups as [| [k0 c0] groups IH].
  - cbn. now destruct (eqb k' k).
  - cbn [app find existsb fst snd].
    destruct (eqb k0 k); [reflexivity | exact IH].
Qed.

Lemma countIn_absent (k : K) (groups : list (K * Z)) :
  existsb (fun item => eqb (fst item) k) groups = false ->
  countIn eqb k groups = 0.
Proof.
  unfold countIn. induction groups as [| [k0 c0] groups IH]; [reflexivity |].
  cbn [find existsb fst]. destruct (eqb k0 k); [discriminate | exact IH].
Qed.

Lemma countIn_groupCount_from (k : K) (docs : list Task)
    (groups : list (K * Z)) :
  countIn eqb k
    (fold_left
       (fun groups t =>
          if existsb (fun item => eqb (fst item) (key t)) groups
          then map (fun item => if eqb (fst item) (key t)
                                then (fst item, snd item + 1)
                                else item)
                   groups
          else groups ++ [(key t, 1)])
       docs groups)
  = countIn eqb k groups + count (fun t => eqb (key t) k) docs.
Proof.
  revert groups. induction docs as [| t docs IH]; intros groups.
  - cbn [fold_left]. unfold count. cbn. lia.
  - cbn [fold_left]. rewrite IH, count_cons.
    destruct (existsb (fun item => eqb (fst item) (key t)) groups) eqn:Hex.
    + rewrite countIn_bump.
      destruct (eqb (key t) k) eqn:Hk.
      * apply eqb_eq in Hk. subst k. rewrite Hex. lia.
      * destruct (existsb (fun item => eqb (fst item) k) groups); lia.
    + rewrite countIn_append.
      destruct (eqb (key t) k) eqn:Hk.
      * apply eqb_eq in Hk. subst k. rewrite Hex.
        rewrite (countIn_absent _ _ Hex). lia.
      * destruct (existsb (fun item => eqb (fst item) k) groups) eqn:Hex';
          [lia |].
        rewrite (countIn_absent _ _ Hex'). lia.
Qed.

(** What is read from the groups is the number of documents of the key. *)
Lemma countIn_groupCount (k : K) (docs : list Task) :
  countIn eqb k (groupCount eqb key docs)
  = count (fun t => eqb (key t) k) docs.
Proof. unfold groupCount. now rewrite countIn_groupCount_from. Qed.

End Groups.

(** A sort by [(a, b) => f(b) - f(a)] gives a descending list. *)
Lemma insertSorted_descending {A : Type} (f : A -> Z) (x : A) (l : list A) :
  StronglySorted (fun a b => f b <= f a) l ->
  StronglySorted (fun a b => f b <= f a)
                 (insertSorted (fun a b => f b - f a) x l).
Proof.
  induction 1 as [| y l Hsorted IH Hall]; cbn [insertSorted].
  - repeat constructor.
  - destruct (f y - f x <=? 0) eqn:Hcmp.
    + constructor; [now constructor |].
      constructor; [lia |].
      eapply Forall_impl; [| exact Hall]. cbn. intros z Hz. lia.
    + constructor; [exact IH |].
      eapply Permutation_Forall; [apply insertSorted_Permutation |].
      constructor; [lia | exact Hall].
Qed.

Lemma Array_sort_descending {A : Type} (f : A -> Z) (l : list A) :
  StronglySorted (fun a b => f b <= f a)
                 (Array_sort (fun a b => f b - f a) l).
Proof.
  induction l as [| x l IH]; [constructor |].
  unfold Array_sort in *. cbn [fold_right]. now apply insertSorted_descending.
Qed.

Lemma StronglySorted_app_inv {A : Type} (R : A -> A -> Prop) (l l' : list A) :
  StronglySorted R (l ++ l') ->
  StronglySorted R l /\ forall x y, In x l -> In y l' -> R x y.
Proof.
  induction l as [| a l IH]; cbn [app]; intros H.
  - split; [constructor | intros x y []].
  - inversion H as [| ? ? Hs Hall]; subst.
    destruct (IH Hs) as [Hl Hcross]. split.
    + constructor; [exact Hl |].
      rewrite Forall_forall in *. intros x Hx. apply Hall.
      apply in_or_app. now left.
    + intros x y [<- | Hx] Hy.
      * rewrite Forall_forall in Hall. apply Hall, in_or_app. now right.
      * now apply Hcross.
Qed.

(** The ten newest, newest first. *)
Lemma ten_most_recent (docs : list Task) :
  let shown := firstn 10 (Array_sort byCreatedAtDescending docs) in
  len shown = Z.min 10 (len docs)
  /\ StronglySorted createdNoEarlier shown
  /\ (forall t, In t shown -> In t docs)
  /\ (forall t, In t docs ->
                In t shown \/ forall r, In r shown -> createdAt t <= createdAt r).
Proof.
  intros shown.
  pose proof (Array_sort_Permutation byCreatedAtDescending docs) as Hperm.
  pose proof (Array_sort_descending createdAt docs) as Hsorted.
  change (fun a b : Task => createdAt b - createdAt a)
    with byCreatedAtDescending in Hsorted.
  rewrite <- (firstn_skipn 10 (Array_sort byCreatedAtDescending docs))
    in Hsorted.
  apply StronglySorted_app_inv in Hsorted. destruct Hsorted as [Hs Hcross].
  split.
  - subst shown. unfold len. rewrite length_firstn.
    rewrite <- (Permutation_length Hperm). lia.
  - split; [exact Hs |]. split.
    + intros t Ht. apply (Permutation_in _ (Permutation_sym Hperm)).
      rewrite <- (firstn_skipn 10 (Array_sort byCreatedAtDescending docs)).
      apply in_or_app. now left.
    + intros t Ht. apply (Permutation_in _ Hperm) in Ht.
      rewrite <- (firstn_skipn 10 (Array_sort byCreatedAtDescending docs))
        in Ht.
      apply in_app_or in Ht. destruct Ht as [Ht | Ht]; [now left | right].
      intros r Hr. now apply (Hcross r t).
Qed.

(** X7.  In the user dashboard the numbers read from the two
    aggregations are the numbers of the user's tasks of each status and
    of each priority: the distribution by status adds up to [All], which
    is the total, its Pending and Completed entries are the two
    statistics of the same name, the priority levels add up to the
    total, and the overdue tasks are among those not Completed. *)
Theorem user_dashboard_counts_add_up :
  forall now tasks reqUser,
    let d := getUserDashboardData now tasks reqUser in
    dist_Pending (taskDistribution d) + dist_InProgress (taskDistribution d)
    + dist_Completed (taskDistribution d) = dist_All (taskDistribution d)
    /\ dist_All (taskDistribution d) = stat_totalTasks (statistics d)
    /\ dist_Pending (taskDistribution d) = stat_pendingTasks (statistics d)
    /\ dist_Completed (taskDistribution d)
       = stat_completedTasks (statistics d)
    /\ level_Low (taskPriorityLevels d) + level_Medium (taskPriorityLevels d)
       + level_High (taskPriorityLevels d) = stat_totalTasks (statistics d)
    /\ 0 <= stat_overdueTasks (statistics d)
       <= stat_totalTasks (statistics d) - stat_completedTasks (statistics d).
Proof.
  intros now tasks reqUser d. subst d. unfold getUserDashboardData.
  cbn [taskDistribution taskPriorityLevels statistics dist_Pending
       dist_InProgress dist_Completed dist_All level_Low level_Medium
       level_High stat_totalTasks stat_pendingTasks stat_completedTasks
       stat_overdueTasks].
  set (mine := findByAssignee tasks (uid reqUser)).
  rewrite !(countIn_groupCount Status_eqb Status_eqb_eq status).
  rewrite !(countIn_groupCount Priority_eqb Priority_eqb_eq priority).
  pose proof (count_by_status status mine) as Hs.
  pose proof (count_by_priority priority mine) as Hp.
  repeat (split; [first [exact Hs | exact Hp | reflexivity] |]).
  split; [apply count_nonneg |].
  pose proof (count_disjoint_le
                (fun t => negb (Status_eqb (status t) Completed)
                          && match dueDate t with
                             | Some due => due <? now
                             | None => false
                             end)
                (fun t => Status_eqb (status t) Completed) mine) as H.
  assert (Hdis : forall t : Task,
             negb (Status_eqb (status t) Completed)
             && match dueDate t with
                | Some due => due <? now
                | None => false
                end = true ->
             Status_eqb (status t) Completed = false).
  { intros t Ht. apply andb_true_iff in Ht. destruct Ht as [Ht _].
    now apply negb_true_iff. }
  specialize (H Hdis). lia.
Qed.

(** X8.  Both dashboards list the ten most recently created tasks,
    newest first: at most ten, all of them when there are no more than
    ten, in descending order of [createdAt], and no task that is left
    out was created after one that is listed.  The user dashboard takes
    them from the tasks assigned to the user, the admin dashboard from
    all tasks. *)
Theorem dashboards_list_the_ten_newest :
  (forall now tasks reqUser,
      exists shown,
        recentTasks (getUserDashboardData now tasks reqUser)
        = map recentOf shown
        /\ len shown = Z.min 10 (len (findByAssignee tasks (uid reqUser)))
        /\ StronglySorted createdNoEarlier shown
        /\ (forall t, In t shown -> In t (findByAssignee tasks (uid reqUser)))
        /\ (forall t, In t (findByAssignee tasks (uid reqUser)) ->
                      In t shown
                      \/ forall r, In r shown -> createdAt t <= createdAt r))
  /\ (forall now tasks users reqUser ofDomain d,
         getDashboardData now tasks users reqUser false ofDomain = Ok d ->
         exists shown,
           recentTasks d = map recentOf shown
           /\ len shown = Z.min 10 (len tasks)
           /\ StronglySorted createdNoEarlier shown
           /\ (forall t, In t shown -> In t tasks)
           /\ (forall t, In t tasks ->
                         In t shown
                         \/ forall r, In r shown -> createdAt t <= createdAt r)).
Proof.
  split.
  - intros now tasks reqUser.
    exists (firstn 10 (Array_sort byCreatedAtDescending
                                  (findByAssignee tasks (uid reqUser)))).
    split; [reflexivity | apply ten_most_recent].
  - intros now tasks users reqUser ofDomain d Hd.
    unfold getDashboardData in Hd.
    destruct (negb (isAdmin reqUser) || false); [discriminate |].
    injection Hd as <-. cbn [recentTasks].
    assert (Hall : map fst
                     (filter (fun t : Task * list User => Array_truthy (snd t))
                        (map (fun t => (t, populateMatching ofDomain users
                                             (assignedTo t))) tasks))
                   = tasks).
    { rewrite filter_all by reflexivity. rewrite map_map.
      cbn [fst]. apply map_id. }
    rewrite Hall.
    exists (firstn 10 (Array_sort byCreatedAtDescending tasks)).
    split; [reflexivity | apply ten_most_recent].
Qed.

Lemma dashboards_list_the_ten_newest_witness :
  exists d shown,
    getDashboardData noon (dailyCompletions noon 12) [] carol false
                     (fun _ => false) = Ok d
    /\ recentTasks d = map recentOf shown
    /\ len shown = 10
    /\ map recent_createdAt (recentTasks d)
       = map (fun i => noon - Z.of_nat i * msPerDay - msPerDay) (seq 0 10).
Proof.
  destruct dashboards_list_the_ten_newest as [_ Hadmin].
  destruct (Hadmin noon (dailyCompletions noon 12) [] carol (fun _ => false)
                   _ eq_refl) as (shown & Hrec & Hlen & _).
  eexists. exists shown.
  split; [reflexivity |]. split; [exact Hrec |].
  split; [exact Hlen | vm_compute; reflexivity].
Defined.

(** X9.  At the same instant the user dashboard and the productivity
    statistics of the same user show the same numbers of tasks: total,
    Pending, In Progress, Completed and overdue. *)
Theorem user_dashboard_agrees_with_productivity_stats :
  forall tz now tasks reqUser period,
    let d := getUserDashboardData now tasks reqUser in
    let s := getProductivityStats tz now tasks reqUser period None in
    stat_totalTasks (statistics d) = summary_totalTasks s
    /\ stat_pendingTasks (statistics d) = summary_pendingTasks s
    /\ dist_InProgress (taskDistribution d) = summary_inProgressTasks s
    /\ stat_completedTasks (statistics d) = summary_completedTasks s
    /\ stat_overdueTasks (statistics d) = summary_overdueTasks s.
Proof.
  intros tz now tasks reqUser period d s. subst d s.
  unfold getUserDashboardData, getProductivityStats, productivityStatsOf.
  cbn [statistics taskDistribution stat_totalTasks stat_pendingTasks
       stat_completedTasks stat_overdueTasks dist_InProgress
       summary_totalTasks summary_pendingTasks summary_inProgressTasks
       summary_completedTasks summary_overdueTasks].
  rewrite (countIn_groupCount Status_eqb Status_eqb_eq status).
  repeat split; reflexivity.
Qed.

(** X10.  The admin dashboard keeps every task of the collection: the
    test [t.assignedTo] is on an array, which is truthy also when the
    populate has matched no user of the admin's domain.  So its numbers
    do not depend on the users or on the domain, the total is the size of
    the collection, and the distributions by status and by priority add
    up to it.  Only an admin of a domain that is not public gets it. *)
Theorem admin_dashboard_counts_every_task :
  (forall now tasks users reqUser ofDomain,
      getDashboardData now tasks users reqUser false ofDomain
      = getDashboardData now tasks [] reqUser false (fun _ => true))
  /\ (forall now tasks users reqUser ofDomain,
         isAdmin reqUser = true ->
         exists d,
           getDashboardData now tasks users reqUser false ofDomain = Ok d
           /\ stat_totalTasks (statistics d) = len tasks
           /\ dist_Pending (taskDistribution d)
              + dist_InProgress (taskDistribution d)
              + dist_Completed (taskDistribution d) = len tasks
           /\ level_Low (taskPriorityLevels d)
              + level_Medium (taskPriorityLevels d)
              + level_High (taskPriorityLevels d) = len tasks)
  /\ (forall now tasks users reqUser publicDomain ofDomain,
         isAdmin reqUser = false \/ publicDomain = true ->
         getDashboardData now tasks users reqUser publicDomain ofDomain
         = Forbidden "Unauthorized to access dashboard data").
Proof.
  assert (Hall : forall (users : list User) ofDomain (tasks : list Task),
             map fst
               (filter (fun t : Task * list User => Array_truthy (snd t))
                  (map (fun t => (t, populateMatching ofDomain users
                                       (assignedTo t))) tasks))
             = tasks).
  { intros users ofDomain tasks. rewrite filter_all by reflexivity.
    rewrite map_map. cbn [fst]. apply map_id. }
  split; [| split].
  - intros now tasks users reqUser ofDomain. unfold getDashboardData.
    destruct (negb (isAdmin reqUser) || false); [reflexivity |].
    now rewrite !Hall.
  - intros now tasks users reqUser ofDomain Hadmin.
    unfold getDashboardData. rewrite Hadmin. cbn [negb orb].
    rewrite !Hall. eexists. split; [reflexivity |].
    cbn [statistics taskDistribution taskPriorityLevels stat_totalTasks
         dist_Pending dist_InProgress dist_Completed level_Low level_Medium
         level_High].
    split; [reflexivity |].
    split; [apply (count_by_status status) | apply (count_by_priority priority)].
  - intros now tasks users reqUser publicDomain ofDomain [Hno | Hpublic];
      unfold getDashboardData.
    + now rewrite Hno.
    + rewrite Hpublic, orb_true_r. reflexivity.
Qed.

Lemma admin_dashboard_counts_every_task_witness :
  exists d,
    getDashboardData noon tenTasks [alice; bob] carol false
                     (fun _ => false) = Ok d
    /\ stat_totalTasks (statistics d) = 10.
Proof.
  destruct admin_dashboard_counts_every_task as [_ [Hadmin _]].
  destruct (Hadmin noon tenTasks [alice; bob] carol (fun _ => false) eq_refl)
    as (d & Hd & Htotal & _).
  exists d. split; [exact Hd | exact Htotal].
Defined.

(* ===================================================================== *)
(** * The team report and the personal statistics *)
(* ===================================================================== *)

(** The loop of the team report stops where that of the personal
    statistics does, or at 365. *)
Lemma teamStreakLoop_userStreakLoop (tz : Z) (l : list Task) (cs cd : Z) :
  cs <= 365 ->
  teamStreakLoop tz l cs cd = Z.min (userStreakLoop tz l cs cd) 365.
Proof.
  funelim (userStreakLoop tz l cs cd); intros Hcs;
    rewrite teamStreakLoop_eq.
  - by_branch. destruct (currentStreak0 <? 365); lia.
  - by_branch. destruct (currentStreak0 <? 365) eqn:Hlt; lia.
  - by_branch. destruct (currentStreak0 <? 365) eqn:Hlt; [| lia].
    match goal with IH : _ -> teamStreakLoop _ _ _ _ = _ |- _ =>
      rewrite IH by lia end.
    reflexivity.
Qed.

Lemma teamStreak_userStreak (tz : Z) (l : list Task) (now : Z) :
  teamStreak tz l now = Z.min (userStreak tz l now) 365.
Proof. apply teamStreakLoop_userStreakLoop. lia. Qed.

(** A streak of 365 and one of 366 weigh the same: both are more than
    a week. *)
Lemma weeks_capped (s : Z) :
  0 <= s <= 366 ->
  (Qmin (binary64 (num (Z.min s 365) / 7)) 1
   == Qmin (binary64 (num s / 7)) 1)%Q.
Proof.
  intros Hs. destruct (Z.eq_dec s 366) as [-> | Hne];
    [vm_compute; reflexivity |].
  replace (Z.min s 365) with s by lia. reflexivity.
Qed.

Lemma Qfloor_le_plus1 (x y : Q) : (x <= y + 1)%Q -> Qfloor x <= Qfloor y + 1.
Proof.
  intros H.
  pose proof (Qfloor_le x) as Hx. pose proof (Qlt_floor y) as Hy.
  assert (Hlt : (inject_Z (Qfloor x) < inject_Z (Qfloor y + 2))%Q).
  { replace (Qfloor y + 2) with ((Qfloor y + 1) + 1) by lia.
    rewrite (inject_Z_plus (Qfloor y + 1) 1). change (inject_Z 1) with 1%Q.
    lra. }
  rewrite <- Zlt_Qlt in Hlt. lia.
Qed.

Lemma Math_round_le_plus1 (x y : Q) :
  (x <= y + 1)%Q -> Math_round x <= Math_round y + 1.
Proof. intros H. unfold Math_round. apply Qfloor_le_plus1. lra. Qed.

(** The first four weights add up to a number between 0 and 85. *)
Lemma four_weights_bounds (volume completionRate weeks : Q)
    (onTimeRate : Z) :
  (0 <= volume)%Q -> (0 <= weeks)%Q -> (0 <= completionRate <= 1)%Q ->
  0 <= onTimeRate <= 100 ->
  (0 <= JS_add (JS_add (JS_add (JS_mul (Qmin volume 1) 20)
                               (JS_mul completionRate 25))
                       (JS_mul (num onTimeRate) (binary64 0.25)))
               (JS_mul (Qmin weeks 1) 15)
   <= 85)%Q.
Proof.
  intros Hv Hw Hc Hr.
  destruct literals_nonneg as [H25 H15].
  assert (Hmin : forall x, (0 <= x)%Q -> (0 <= Qmin x 1 <= 1)%Q).
  { intros x Hx. split; [apply Qmin_nonneg; [exact Hx | discriminate] |].
    apply Q.le_min_r. }
  assert (Hn : (0 <= num onTimeRate <= 100)%Q).
  { split; [apply num_nonneg; lia |].
    change 100%Q with (num 100). apply num_le; lia. }
  assert (H1 : (0 <= JS_mul (Qmin volume 1) 20 <= JS_mul 1 20)%Q).
  { split; [apply JS_mul_nonneg; [apply Hmin, Hv | discriminate] |].
    apply JS_mul_le; [apply Hmin, Hv | split; discriminate]. }
  assert (H2 : (0 <= JS_mul completionRate 25 <= JS_mul 1 25)%Q).
  { split; [apply JS_mul_nonneg; [apply Hc | discriminate] |].
    apply JS_mul_le; [exact Hc | split; discriminate]. }
  assert (H3 : (0 <= JS_mul (num onTimeRate) (binary64 0.25)
                <= JS_mul 100 (binary64 0.25))%Q).
  { split; [apply JS_mul_nonneg; [apply Hn | exact H25] |].
    apply JS_mul_le; [exact Hn | split; [exact H25 | apply Qle_refl]]. }
  assert (H4 : (0 <= JS_mul (Qmin weeks 1) 15 <= JS_mul 1 15)%Q).
  { split; [apply JS_mul_nonneg; [apply Hmin, Hw | discriminate] |].
    apply JS_mul_le; [apply Hmin, Hw | split; discriminate]. }
  assert (H12 := conj (JS_add_nonneg _ _ (proj1 H1) (proj1 H2))
                      (JS_add_le _ _ _ _ H1 H2)).
  assert (H123 := conj (JS_add_nonneg _ _ (proj1 H12) (proj1 H3))
                       (JS_add_le _ _ _ _ H12 H3)).
  split; [apply JS_add_nonneg; [apply H123 | apply H4] |].
  eapply Qle_trans; [exact (JS_add_le _ _ _ _ H123 H4) |].
  vm_compute. discriminate.
Qed.

(** The score reads the last weight through two roundings; half a
    point of checklist rate moves the rounded sum by at most one. *)
Lemma last_sum_near (A k1 k2 : Q) :
  (0 <= A <= 85)%Q -> (0 <= k1 <= 100)%Q -> (0 <= k2 <= 100)%Q ->
  (k2 <= k1 + (1 # 2))%Q ->
  Math_round (JS_add A (JS_mul k2 (binary64 0.15)))
  <= Math_round (JS_add A (JS_mul k1 (binary64 0.15))) + 1.
Proof.
  intros HA Hk1 Hk2 Hk.
  assert (Hf : (binary64 0.15 == 5404319552844595 # 36028797018963968)%Q)
    by (vm_compute; reflexivity).
  apply Math_round_le_plus1.
  unfold JS_add, JS_mul. rewrite Hf. clear Hf.
  assert (Hp1 : (0 <= k1 * (5404319552844595 # 36028797018963968))%Q) by lra.
  assert (Hp2 : (0 <= k2 * (5404319552844595 # 36028797018963968))%Q) by lra.
  pose proof (binary64_relative_error _ Hp1) as Hw1.
  pose proof (binary64_relative_error _ Hp2) as Hw2.
  pose proof (binary64_nonneg _ Hp1) as Hw10.
  pose proof (binary64_nonneg _ Hp2) as Hw20.
  set (w1 := binary64 (k1 * _)) in *. set (w2 := binary64 (k2 * _)) in *.
  clearbody w1 w2.
  assert (Hq1 : (0 <= A + w1)%Q) by lra.
  assert (Hq2 : (0 <= A + w2)%Q) by lra.
  pose proof (binary64_relative_error _ Hq1) as HS1.
  pose proof (binary64_relative_error _ Hq2) as HS2.
  set (S1 := binary64 (A + w1)) in *. set (S2 := binary64 (A + w2)) in *.
  clearbody S1 S2.
  unfold epsilon in *. lra.
Qed.

(** Two checklist rates that are at most one half apart move the score
    by at most one point: the fifth weight moves by 0.075 and the
    roundings of the product and of the last sum by much less. *)
Lemma scoreOf_near (n c r s1 s2 : Z) (k1 k2 : Q) :
  0 <= n -> 0 <= c <= n -> 0 <= r <= 100 -> 0 <= s1 -> 0 <= s2 ->
  (Qmin (binary64 (num s2 / 7)) 1 == Qmin (binary64 (num s1 / 7)) 1)%Q ->
  (0 <= k1 <= 100)%Q -> (0 <= k2 <= 100)%Q ->
  (k1 - (1 # 2) <= k2 <= k1 + (1 # 2))%Q ->
  scoreOf n c r s1 k1 - 1 <= scoreOf n c r s2 k2 <= scoreOf n c r s1 k1 + 1.
Proof.
  intros Hn Hc Hr Hs1 Hs2 Hweeks Hk1 Hk2 Hk.
  destruct (quotients_bounds n c s1 Hn Hc Hs1) as (Hv & Hcr & Hw).
  pose proof (four_weights_bounds _ _ _ r Hv Hw Hcr Hr) as HA.
  unfold scoreOf. rewrite !scoreNumber_value. cbn [integerOf].
  unfold sumOfWeights.
  match type of HA with
  | (0 <= ?a <= 85)%Q => set (A := a) in *
  end.
  match goal with
  | |- context [Math_round (JS_add ?a2 (JS_mul k2 ?f))] =>
      rewrite (Math_round_comp (JS_add a2 (JS_mul k2 f))
                               (JS_add A (JS_mul k2 f)))
        by (apply JS_add_Proper; [| reflexivity];
            apply JS_add_Proper; [reflexivity |];
            apply JS_mul_Proper; [exact Hweeks | reflexivity])
  end.
  clearbody A.
  assert (H12 := last_sum_near A k1 k2 HA Hk1 Hk2 (proj2 Hk)).
  assert (Hk' : (k1 <= k2 + (1 # 2))%Q) by (clear - Hk; lra).
  assert (H21 := last_sum_near A k2 k1 HA Hk2 Hk1 Hk').
  clear - H12 H21. lia.
Qed.

Lemma sumOf_between {A : Type} (f : A -> Z) (l : list A) (lo hi : Z) :
  (forall x, In x l -> lo <= f x <= hi) ->
  lo * len l <= sumOf f l <= hi * len l.
Proof.
  intros Hall. induction l as [| x l IH]; [cbn; lia |].
  rewrite sumOf_cons, len_cons.
  pose proof (Hall x (or_introl eq_refl)).
  assert (IH' := IH (fun y Hy => Hall y (or_intror Hy))). lia.
Qed.

Lemma sumOf_nonneg_in {A : Type} (f : A -> Z) (l : list A) :
  (forall x, In x l -> 0 <= f x) -> 0 <= sumOf f l.
Proof.
  intros Hl. induction l as [| x l IH]; [reflexivity |].
  rewrite sumOf_cons. pose proof (Hl x (or_introl eq_refl)).
  assert (IH' := IH (fun y Hy => Hl y (or_intror Hy))). lia.
Qed.

(** A rounded mean lies between the bounds of what is averaged. *)
Lemma rounded_mean_between {A : Type} (f : A -> Z) (l : list A) (lo hi : Z) :
  (forall x, In x l -> lo <= f x <= hi) ->
  0 < len l ->
  lo <= Math_round (num (sumOf f l) / num (len l))%Q <= hi.
Proof.
  intros Hall Hlen. pose proof (sumOf_between f l lo hi Hall) as Hsum.
  rewrite <- (Math_round_num lo), <- (Math_round_num hi).
  split; apply Math_round_le.
  - apply Qle_shift_div_l; [now apply num_pos |].
    rewrite num_mult. apply num_le. lia.
  - apply Qle_shift_div_r; [now apply num_pos |].
    rewrite num_mult. apply num_le. lia.
Qed.

(** A snapshot of the team report is within its bounds. *)
Lemma memberStatsOf_bounds (tz now startDate : Z) (member : User)
    (allTasks : list Task) :
  let m := memberStatsOf tz now startDate member allTasks in
  0 <= productivityScore m <= 100
  /\ 0 <= onTimeRate m <= 100
  /\ 0 <= currentStreak m <= 365
  /\ pendingTasks m + inProgressTasks m + completedTasks m = totalTasks m
  /\ 0 <= completedInPeriod m <= completedTasks m
  /\ 0 <= overdueTasks m <= pendingTasks m + inProgressTasks m.
Proof.
  intros m. subst m. unfold memberStatsOf.
  cbn [productivityScore onTimeRate currentStreak pendingTasks
       inProgressTasks completedTasks totalTasks completedInPeriod
       overdueTasks].
  pose proof (count_by_status status allTasks) as Hstatus.
  change (count (fun t => Status_eqb (status t) Completed) allTasks)
    with (len (filter isCompleted allTasks)) in Hstatus.
  split.
  { apply scoreOf_bounds.
    - apply len_nonneg.
    - apply len_nonneg.
    - apply onTimeRateOf_nonneg.
    - apply teamStreak_bounds.
    - apply (checklistRateNumber_value allTasks). }
  split; [apply onTimeRateOf_le_100 |].
  split; [apply teamStreak_bounds |].
  split; [exact Hstatus |].
  split.
  - split; [apply len_nonneg |].
    apply (count_filter_le
             (fun task => isCompleted task && (startDate <=? updatedAt task))
             isCompleted).
    intros t Ht. now apply andb_true_iff in Ht.
  - split; [apply count_nonneg |].
    pose proof (count_disjoint_le (isOverdue now) isCompleted allTasks) as H.
    assert (Hdis : forall t, isOverdue now t = true -> isCompleted t = false).
    { intros t Ht. unfold isOverdue in Ht. apply andb_true_iff in Ht.
      destruct Ht as [Ht _]. now apply negb_true_iff. }
    specialize (H Hdis). unfold count in H at 2. lia.
Qed.

(** The score of a snapshot is computed without a division by 0. *)
Lemma memberStatsOf_numbers (tz now startDate : Z) (member : User)
    (allTasks : list Task) :
  let m := memberStatsOf tz now startDate member allTasks in
  let completed := filter isCompleted allTasks in
  exists checklistRate,
    onTimeRateNumber completed = Some (onTimeRate m)
    /\ checklistRateNumber (checklistStatsOf allTasks) = Some checklistRate
    /\ scoreNumber (len allTasks) (len completed) (onTimeRate m)
                   (currentStreak m) checklistRate
       = Some (productivityScore m).
Proof.
  intros m completed.
  exists (numberOf (checklistRateNumber (checklistStatsOf allTasks))).
  split; [apply onTimeRateNumber_value |].
  split; [apply (checklistRateNumber_value allTasks) |].
  apply scoreNumber_scoreOf.
Qed.

(** The values of a snapshot where binary64 shows: one task, not
    Completed, with 11 of its 30 checklist items done.  The rate of
    the team report is 36.66666666666667, its weight just below 5.5,
    the sum just below 7.5 and the score 7; the personal statistics
    weigh the rounded rate 37 and score 8, as exact arithmetic would
    for both. *)
Remark snapshot_where_binary64_shows :
  let checklistStats := {| total := 30; completedItems := 11 |} in
  (let* checklistRate := checklistRateNumber checklistStats in
   scoreNumber 1 0 0 0 checklistRate) = Some 7
  /\ scoreNumber 1 0 0 0 (num (checklistCompletionRateOf checklistStats))
     = Some 8
  /\ Math_round (weightSum 1 0 0 0 (num 11 / num 30 * 100)) = 8.
Proof. repeat split; vm_compute; reflexivity. Qed.

(** X11.  In the team report every member's score and on-time rate is
    between 0 and 100 and the streak between 0 and 365, the member's
    Pending, In Progress and Completed tasks are all the member's tasks,
    the completions of the period are among the Completed and the
    overdue among the others; the team has one snapshot for each member
    that was found, and the two averages are between 0 and 100. *)
Theorem team_report_within_bounds :
  forall tz now tasks reqUser orgUsers period r,
    getTeamProductivityStats tz now tasks reqUser false orgUsers period = Ok r ->
    teamSize r = len orgUsers
    /\ (forall m, In m (members r) ->
                  0 <= productivityScore m <= 100
                  /\ 0 <= onTimeRate m <= 100
                  /\ 0 <= currentStreak m <= 365
                  /\ pendingTasks m + inProgressTasks m + completedTasks m
                     = totalTasks m
                  /\ 0 <= completedInPeriod m <= completedTasks m
                  /\ 0 <= overdueTasks m
                     <= pendingTasks m + inProgressTasks m)
    /\ 0 <= avgProductivityScore (teamAverage r) <= 100
    /\ 0 <= avgOnTimeRate (teamAverage r) <= 100
    /\ 0 <= totalCompleted (teamAverage r)
    /\ 0 <= totalOverdue (teamAverage r).
Proof.
  intros tz now tasks reqUser orgUsers period r Hr.
  unfold getTeamProductivityStats in Hr.
  destruct (negb (isAdmin reqUser)); [discriminate |].
  injection Hr as <-. unfold aggregate.
  cbn [teamSize members teamAverage].
  set (teamStats := map _ orgUsers).
  set (sorted := Array_sort byScoreDescending teamStats).
  assert (Hmember : forall m, In m sorted ->
            0 <= productivityScore m <= 100
            /\ 0 <= onTimeRate m <= 100
            /\ 0 <= currentStreak m <= 365
            /\ pendingTasks m + inProgressTasks m + completedTasks m
               = totalTasks m
            /\ 0 <= completedInPeriod m <= completedTasks m
            /\ 0 <= overdueTasks m <= pendingTasks m + inProgressTasks m).
  { intros m Hm.
    apply (Permutation_in _ (Permutation_sym
             (Array_sort_Permutation byScoreDescending teamStats))) in Hm.
    subst teamStats. apply in_map_iff in Hm. destruct Hm as (u & <- & _).
    apply memberStatsOf_bounds. }
  split.
  { subst sorted teamStats. rewrite Array_sort_len. unfold len.
    now rewrite length_map. }
  split; [exact Hmember |].
  unfold teamAverageOf.
  cbn [avgProductivityScore avgOnTimeRate totalCompleted totalOverdue].
  split.
  { destruct (len sorted >? 0) eqn:Hlen; [| lia].
    apply rounded_mean_between; [| lia]. intros m Hm. apply (Hmember m Hm). }
  split.
  { destruct (len sorted >? 0) eqn:Hlen; [| lia].
    apply rounded_mean_between; [| lia]. intros m Hm. apply (Hmember m Hm). }
  split.
  - apply sumOf_nonneg_in. intros m Hm. apply (Hmember m Hm).
  - apply sumOf_nonneg_in. intros m Hm. apply (Hmember m Hm).
Qed.

Lemma team_report_within_bounds_witness :
  exists r,
    getTeamProductivityStats 0 noon (longChecklist :: tenTasks) carol false
                             [alice; bob] (Some 30) = Ok r
    /\ teamSize r = 2
    /\ 0 <= avgProductivityScore (teamAverage r) <= 100.
Proof.
  eexists. split; [reflexivity |].
  destruct (team_report_within_bounds 0 noon (longChecklist :: tenTasks)
              carol [alice; bob] (Some 30) _ eq_refl)
    as (Hsize & _ & Havg & _).
  split; [exact Hsize | exact Havg].
Defined.

(** X12.  The snapshot of a member in the team report and the member's
    own productivity statistics, taken at the same instant for the same
    period, agree on every count and on the on-time rate; the streak of
    the snapshot is the member's own, cut at 365; and the two scores are
    at most one point apart (the team report weighs the checklist rate
    before rounding it). *)
Theorem team_snapshot_agrees_with_personal_stats :
  forall tz now tasks member period,
    let s := getProductivityStats tz now tasks member period None in
    let m := memberStatsOf tz now
               (startDateOf tz now (daysToAnalyzeOf period)) member
               (findByAssignee tasks (uid member)) in
    (forall reqUser orgUsers,
        isAdmin reqUser = true -> In member orgUsers ->
        exists r,
          getTeamProductivityStats tz now tasks reqUser false orgUsers period
          = Ok r
          /\ In m (members r))
    /\ totalTasks m = summary_totalTasks s
    /\ completedTasks m = summary_completedTasks s
    /\ pendingTasks m = summary_pendingTasks s
    /\ inProgressTasks m = summary_inProgressTasks s
    /\ overdueTasks m = summary_overdueTasks s
    /\ completedInPeriod m = periodStats_tasksCompleted s
    /\ onTimeRate m = periodStats_onTimeRate s
    /\ currentStreak m = Z.min (periodStats_currentStreak s) 365
    /\ summary_productivityScore s - 1 <= productivityScore m
       <= summary_productivityScore s + 1.
Proof.
  intros tz now tasks member period s m. split.
  - intros reqUser orgUsers Hadmin Hin.
    unfold getTeamProductivityStats. rewrite Hadmin. cbn [negb].
    eexists. split; [reflexivity |]. unfold aggregate. cbn [members].
    apply (Permutation_in _ (Array_sort_Permutation _ _)).
    apply in_map_iff. exists member. split; [reflexivity | exact Hin].
  - subst s m.
    unfold getProductivityStats, productivityStatsOf, memberStatsOf.
    cbn [totalTasks completedTasks pendingTasks inProgressTasks overdueTasks
         completedInPeriod onTimeRate currentStreak productivityScore
         summary_totalTasks summary_completedTasks summary_pendingTasks
         summary_inProgressTasks summary_overdueTasks
         periodStats_tasksCompleted periodStats_onTimeRate
         periodStats_currentStreak summary_productivityScore].
    set (allTasks := findByAssignee tasks (uid member)).
    repeat (split; [reflexivity |]).
    split; [apply teamStreak_userStreak |].
    rewrite teamStreak_userStreak.
    pose proof (userStreak_bounds tz allTasks now) as Hstreak.
    destruct (checklistRateNumber_value allTasks) as (_ & Hrate & Hround).
    cbn zeta in Hrate, Hround.
    pose proof (checklistCompletionRateOf_le_100 allTasks) as Hpercent.
    apply scoreOf_near.
    + apply len_nonneg.
    + split; [apply len_nonneg | apply count_le_len].
    + apply onTimeRateOf_le_100.
    + lia.
    + lia.
    + apply weeks_capped. lia.
    + split; [apply num_nonneg; lia |].
      change 100%Q with (num 100). apply num_le; lia.
    + exact Hrate.
    + rewrite Hround.
      pose proof (Math_round_near
                    (numberOf (checklistRateNumber
                                 (checklistStatsOf allTasks)))).
      split; lra.
Qed.

Lemma team_snapshot_agrees_with_personal_stats_witness :
  (exists r,
      getTeamProductivityStats 0 noon [longChecklist] carol false [alice]
                               (Some 30) = Ok r
      /\ map productivityScore (members r) = [3])
  /\ summary_productivityScore
       (getProductivityStats 0 noon [longChecklist] alice (Some 30) None) = 4.
Proof.
  destruct (team_snapshot_agrees_with_personal_stats 0 noon [longChecklist]
              alice (Some 30)) as (Hin & _).
  destruct (Hin carol [alice] eq_refl (or_introl eq_refl)) as (r & Hr & _).
  split; [| vm_compute; reflexivity].
  exists r. split; [exact Hr |].
  vm_compute in Hr. injection Hr as <-. vm_compute. reflexivity.
Defined.

(* ===================================================================== *)
(** * The exported team report *)
(* ===================================================================== *)

(** X13.  The completion rate that the export adds to the row and to
    the analysis of each member of its report is computed without
    dividing by 0 and is a percentage of the member's tasks: an integer
    between 0 and 100, within one half of the exact percentage, 0 for a
    member without tasks or without a Completed task, 100 when every
    task is Completed, and with fewer than 200 tasks only then.  For a
    public domain the export throws. *)
Theorem export_completion_rate_is_a_percentage :
  forall tz now tasks orgUsers period,
    getTeamProductivityData tz now tasks true orgUsers period = None
    /\ forall r m,
         getTeamProductivityData tz now tasks false orgUsers period = Some r ->
         In m (members r) ->
         completionRateNumber m = Some (completionRateOf m)
         /\ 0 <= completionRateOf m <= 100
         /\ (totalTasks m = 0 -> completionRateOf m = 0)
         /\ (completedTasks m = 0 -> completionRateOf m = 0)
         /\ (0 < totalTasks m -> completedTasks m = totalTasks m ->
             completionRateOf m = 100)
         /\ (totalTasks m < 200 -> completionRateOf m = 100 ->
             0 < totalTasks m /\ completedTasks m = totalTasks m)
         /\ (totalTasks m < 2 ^ 32 ->
             200 * completedTasks m - totalTasks m
             <= 2 * totalTasks m * completionRateOf m
             <= 200 * completedTasks m + totalTasks m).
Proof.
  intros tz now tasks orgUsers period. split; [reflexivity |].
  intros r m Hr Hm. unfold getTeamProductivityData in Hr.
  injection Hr as <-. unfold aggregate in Hm. cbn [members] in Hm.
  apply (Permutation_in m (Permutation_sym
                             (Array_sort_Permutation _ _))) in Hm.
  apply in_map_iff in Hm. destruct Hm as (u & <- & _).
  destruct (memberStatsOf_bounds tz now
              (startDateOf tz now (daysToAnalyzeOf period)) u
              (findByAssignee tasks (uid u)))
    as (_ & _ & _ & Hsum & Hperiod & Hover).
  cbn zeta in Hsum, Hperiod, Hover.
  set (m := memberStatsOf _ _ _ _ _) in *.
  assert (Hp : 0 <= pendingTasks m) by apply count_nonneg.
  assert (Hi : 0 <= inProgressTasks m) by apply count_nonneg.
  assert (Hc : 0 <= completedTasks m) by apply len_nonneg.
  clearbody m.
  unfold completionRateOf, completionRateNumber.
  destruct (Z.gtb_spec (totalTasks m) 0) as [Hpos | Hzero].
  - split; [rewrite percentOf_value by lia; reflexivity |].
    split; [apply percentOf_bounds; lia |].
    split; [lia |].
    split; [intros ->; now rewrite percentOf_none |].
    split; [intros _ ->; now rewrite percentOf_all |].
    split.
    + intros Hsmall H100. split; [exact Hpos |].
      destruct (Z.eq_dec (completedTasks m) (totalTasks m)) as [E | Hne];
        [exact E |].
      pose proof (percentOf_below_100 (completedTasks m) (totalTasks m)).
      lia.
    + intros Hsize. apply percentOf_near; lia.
  - cbn [integerOf]. split; [reflexivity |].
    split; [lia |]. split; [reflexivity |]. split; [reflexivity |].
    split; [lia |]. split; lia.
Qed.

Lemma export_completion_rate_is_a_percentage_witness :
  exists r m,
    getTeamProductivityData 0 noon tenTasks false [alice; bob] (Some 30)
    = Some r
    /\ hd_error (members r) = Some m
    /\ totalTasks m = 10 /\ completedTasks m = 6
    /\ completionRateNumber m = Some 60
    /\ 0 <= completionRateOf m <= 100.
Proof.
  destruct (export_completion_rate_is_a_percentage 0 noon tenTasks
              [alice; bob] (Some 30)) as [_ Hrate].
  eexists. eexists. split; [reflexivity |].
  split; [vm_compute; reflexivity |].
  split; [vm_compute; reflexivity |]. split; [vm_compute; reflexivity |].
  match goal with
  | |- completionRateNumber ?m = _ /\ _ =>
      destruct (Hrate _ m eq_refl) as (Hnumber & Hbounds & _);
        [vm_compute; left; reflexivity |]
  end.
  split; [| exact Hbounds].
  rewrite Hnumber. vm_compute. reflexivity.
Defined.




Lemma last_of_sorted {A : Type} (R : A -> A -> Prop) (l : list A) (x : A) :
  (forall a, R a a) ->
  StronglySorted R l ->
  last (map Some l) None = Some x ->
  In x l /\ forall y, In y l -> R y x.
Proof.
  intros Hrefl Hsorted. revert x.
  induction Hsorted as [| a l Hs IH Hall]; intros x Hlast; [discriminate |].
  destruct l as [| b l].
  - injection Hlast as <-. split; [now left |].
    intros y [<- | []]. apply Hrefl.
  - change (last (map Some (b :: l)) None = Some x) in Hlast.
    destruct (IH x Hlast) as [Hin Hle]. split; [now right |].
    intros y [<- | Hy]; [| now apply Hle].
    rewrite Forall_forall in Hall. now apply Hall.
Qed.

(** X15.  In the exported report the row "Top Performer" names a member
    whose score no member exceeds and the row "Lowest Performer" one
    whose score no member is below; both rows have a member exactly
    when the team has one. *)
Theorem export_names_the_best_and_the_last :
  forall tz now tasks orgUsers period data,
    getTeamProductivityData tz now tasks false orgUsers period = Some data ->
    (forall top, topPerformerOf data = Some top ->
                 In top (members data)
                 /\ forall m, In m (members data) ->
                              productivityScore m <= productivityScore top)
    /\ (forall low, lowestPerformerOf data = Some low ->
                    In low (members data)
                    /\ forall m, In m (members data) ->
                                 productivityScore low <= productivityScore m)
    /\ (orgUsers = [] <->
        topPerformerOf data = None /\ lowestPerformerOf data = None)
    /\ (orgUsers <> [] ->
        exists top low, topPerformerOf data = Some top
                        /\ lowestPerformerOf data = Some low).
Proof.
  intros tz now tasks orgUsers period data Hdata.
  unfold getTeamProductivityData in Hdata. injection Hdata as <-.
  unfold topPerformerOf, lowestPerformerOf, aggregate. cbn [members].
  set (teamStats := map _ orgUsers).
  pose proof (Array_sort_byScore teamStats) as Hsorted.
  pose proof (Array_sort_len byScoreDescending teamStats) as Hlen.
  assert (Hsize : len teamStats = len orgUsers)
    by (subst teamStats; unfold len; now rewrite length_map).
  set (sorted := Array_sort byScoreDescending teamStats) in *.
  split; [| split; [| split]].
  - intros top Htop. destruct sorted as [| a l]; [discriminate |].
    injection Htop as <-. split; [now left |].
    intros m [<- | Hm]; [lia |].
    inversion Hsorted as [| ? ? _ Hall]; subst.
    rewrite Forall_forall in Hall. apply (Hall m Hm).
  - intros low Hlow.
    apply (last_of_sorted scoreGe sorted low); [| assumption | assumption].
    intros a. unfold scoreGe. lia.
  - split.
    + intros ->. destruct sorted; [split; reflexivity |].
      rewrite len_cons in Hlen. pose proof (len_nonneg sorted).
      cbn in Hsize. cbn in Hlen. lia.
    + intros [Htop _]. destruct sorted; [| discriminate].
      destruct orgUsers; [reflexivity |].
      rewrite len_cons in Hsize. pose proof (len_nonneg orgUsers).
      cbn in Hlen. lia.
  - intros Hne. destruct sorted as [| a l].
    + destruct orgUsers; [congruence |].
      rewrite len_cons in Hsize. pose proof (len_nonneg orgUsers).
      cbn in Hlen. lia.
    + exists a. cbn [hd_error].
      destruct (last (map Some (a :: l)) None) as [low |] eqn:Hlast;
        [exists low; split; reflexivity |].
      exfalso. clear -Hlast. revert a Hlast.
      induction l as [| b l IH]; intros a Hlast; [discriminate |].
      apply (IH b). exact Hlast.
Qed.

Lemma export_names_the_best_and_the_last_witness :
  exists data top,
    getTeamProductivityData 0 noon (longChecklist :: tenTasks) false
                            [alice; bob] (Some 30) = Some data
    /\ topPerformerOf data = Some top
    /\ forall m, In m (members data) ->
                 productivityScore m <= productivityScore top.
Proof.
  destruct (export_names_the_best_and_the_last 0 noon
              (longChecklist :: tenTasks) [alice; bob] (Some 30) _ eq_refl)
    as (Htop & _ & _ & Hsome).
  destruct Hsome as (top & low & Ht & _); [discriminate |].
  eexists. exists top.
  split; [reflexivity |]. split; [exact Ht |]. apply (Htop top Ht).
Defined.

(* ===================================================================== *)
(** * The reminder scan as a whole *)
(* ===================================================================== *)

Lemma markReminderSent_twice (sentAt sentAt' : Z) (t : Task) :
  markReminderSent sentAt (markReminderSent sentAt' t)
  = markReminderSent sentAt t.
Proof. reflexivity. Qed.

Lemma withoutReminder_mark (sentAt : Z) (t : Task) :
  withoutReminder (markReminderSent sentAt t) = withoutReminder t.
Proof. reflexivity. Qed.

Lemma findByIdAndUpdate_frame (tasks : list Task) (id : Id) (sentAt : Z) :
  map withoutReminder (findByIdAndUpdate tasks id (markReminderSent sentAt))
  = map withoutReminder tasks.
Proof.
  induction tasks as [| t tasks IH]; [reflexivity |].
  cbn [findByIdAndUpdate]. destruct (String.eqb (_id t) id); cbn [map].
  - now rewrite withoutReminder_mark.
  - now rewrite IH.
Qed.

Lemma dispatch_frame (out : Outside) (users : list User)
    (selected : list Task) :
  forall state : list Task * list Effect,
    map withoutReminder (fst (fold_left (remindTask out users) selected state))
    = map withoutReminder (fst state).
Proof.
  induction selected as [| t selected IH]; intros [tasks eff];
    cbn [fold_left]; [reflexivity |].
  rewrite IH, remindTask_tasks.
  destruct (someCallbackSucceeded out users t); [| reflexivity].
  apply findByIdAndUpdate_frame.
Qed.





Lemma remindTask_snd (out : Outside) (users : list User)
    (state : list Task * list Effect) (t : Task) :
  snd (remindTask out users state t)
  = snd state ++ effectsOfTask out users t.
Proof.
  unfold remindTask, effectsOfTask.
  rewrite successCount_positive, map_map.
  destruct (someCallbackSucceeded out users t); cbn [snd].
  - now rewrite app_assoc.
  - now rewrite app_nil_r.
Qed.

Lemma dispatch_snd (out : Outside) (users : list User)
    (selected : list Task) :
  forall state : list Task * list Effect,
    snd (fold_left (remindTask out users) selected state)
    = snd state ++ flat_map (effectsOfTask out users) selected.
Proof.
  induction selected as [| t selected IH]; intros state;
    cbn [fold_left flat_map].
  - now rewrite app_nil_r.
  - now rewrite IH, remindTask_snd, app_assoc.
Qed.

Lemma scan_effects (out : Outside) (now : Z) (users : list User)
    (tasks : list Task) :
  effects (checkDueDateReminders out now users tasks)
  = flat_map (effectsOfTask out users) (selectTasks now tasks).
Proof.
  unfold checkDueDateReminders, dispatchReminders. cbn [effects].
  now rewrite dispatch_snd.
Qed.

Lemma notificationsOf_app (l l' : list Effect) :
  notificationsOf (l ++ l') = notificationsOf l ++ notificationsOf l'.
Proof. unfold notificationsOf. apply flat_map_app. Qed.

Lemma markedIds_app (l l' : list Effect) :
  markedIds (l ++ l') = markedIds l ++ markedIds l'.
Proof. unfold markedIds. apply flat_map_app. Qed.

(** The effects of the callbacks of one task: a notification and a mail
    attempt for each reminded user, and no write. *)
Lemma callbacks_effects (out : Outside) (t : Task) (us : list User) :
  let l := List.concat (map (fun u => fst (remindUser out t u)) us) in
  let reminded :=
    filter (fun u => negb (String.eqb (email u) "")
                     && notificationCreate out (_id t) (uid u)) us in
  map recipient (notificationsOf l) = map uid reminded
  /\ Forall (fun n => task n = _id t /\ type n = "reminder"%string)
            (notificationsOf l)
  /\ count isInApp l = len reminded
  /\ count isMailAttempt l = len reminded
  /\ count isDeliveredMail l
     = count (fun u => transportSendMail out (_id t) (email u)) reminded
  /\ count isFlagWrite l = 0
  /\ markedIds l = [].
Proof.
  induction us as [| u us IH]; cbn zeta.
  - repeat split; try reflexivity. constructor.
  - cbn zeta in IH.
    destruct IH as (Hrec & Hall & Hin & Hmail & Hdel & Hflag & Hmark).
    cbn [map List.concat filter]. unfold remindUser at 1 3 5 7 9 11 13.
    destruct (String.eqb (email u) ""); cbn [negb andb fst app];
      [repeat split; assumption |].
    destruct (notificationCreate out (_id t) (uid u)); cbn [fst app];
      [| repeat split; assumption].
    rewrite !count_cons, len_cons, Hin, Hmail, Hdel, Hflag.
    cbn [isInApp isMailAttempt isDeliveredMail isFlagWrite].
    unfold notificationsOf, markedIds in *. cbn [flat_map app map].
    rewrite Hrec, Hmark. unfold sendDueDateReminder.
    repeat split; try reflexivity; try lia.
    constructor; [split; reflexivity | exact Hall].
Qed.

Lemma count_flat_map {A B : Type} (p : B -> bool) (f : A -> list B)
    (l : list A) :
  count p (flat_map f l) = sumOf (fun x => count p (f x)) l.
Proof.
  induction l as [| x l IH]; [reflexivity |].
  cbn [flat_map]. now rewrite count_app, sumOf_cons, IH.
Qed.

Lemma someCallbackSucceeded_reminded (out : Outside) (users : list User)
    (t : Task) :
  someCallbackSucceeded out users t = true
  <-> exists u, In u (remindedUsers out users t).
Proof.
  unfold someCallbackSucceeded, remindedUsers.
  rewrite existsb_exists. split.
  - intros (u & Hin & Hu). exists u. apply filter_In. now split.
  - intros (u & Hu). apply filter_In in Hu. now exists u.
Qed.

Lemma effectsOfTask_facts (out : Outside) (users : list User) (t : Task) :
  let l := effectsOfTask out users t in
  let reminded := remindedUsers out users t in
  map recipient (notificationsOf l) = map uid reminded
  /\ Forall (fun n => task n = _id t /\ type n = "reminder"%string)
            (notificationsOf l)
  /\ count isInApp l = len reminded
  /\ count isMailAttempt l = len reminded
  /\ count isDeliveredMail l
     = count (fun u => transportSendMail out (_id t) (email u)) reminded
  /\ count isFlagWrite l
     = (if someCallbackSucceeded out users t then 1 else 0)
  /\ markedIds l
     = (if someCallbackSucceeded out users t then [_id t] else []).
Proof.
  cbn zeta. unfold effectsOfTask, remindedUsers.
  destruct (callbacks_effects out t (populate users (assignedTo t)))
    as (Hrec & Hall & Hin & Hmail & Hdel & Hflag & Hmark).
  cbn zeta in *.
  rewrite notificationsOf_app, markedIds_app, !count_app.
  rewrite Hin, Hmail, Hdel, Hflag, Hmark.
  destruct (someCallbackSucceeded out users t);
    cbn [notificationsOf markedIds flat_map app];
    rewrite app_nil_r; repeat split; try assumption;
    try (unfold count; cbn; lia); reflexivity.
Qed.





(** X17.  What a scan does outside is counted task by task over its
    selection: one notification and one mail attempt for every assignee
    that [populate] finds with an address and whose notification is
    stored, and one write of the flag for every selected task with such
    an assignee.  So mail attempts and notifications are equally many,
    a flag is written for exactly the tasks that have a notification,
    and every notification is a reminder to an assignee of a selected
    task. *)
Theorem scan_notifies_mails_and_marks_together :
  forall out now users tasks,
    let scan := checkDueDateReminders out now users tasks in
    count isInApp (effects scan)
    = sumOf (fun t => len (remindedUsers out users t))
            (selectTasks now tasks)
    /\ count isMailAttempt (effects scan) = count isInApp (effects scan)
    /\ count isDeliveredMail (effects scan)
       <= count isMailAttempt (effects scan)
    /\ count isFlagWrite (effects scan)
       = count (someCallbackSucceeded out users) (selectTasks now tasks)
    /\ count isFlagWrite (effects scan) <= tasksProcessed (result scan)
    /\ (forall id,
           In id (markedIds (effects scan))
           <-> exists n, In n (notificationsOf (effects scan))
                         /\ task n = id)
    /\ (forall n,
           In n (notificationsOf (effects scan)) ->
           exists t u,
             In t (selectTasks now tasks)
             /\ In u (remindedUsers out users t)
             /\ recipient n = uid u
             /\ task n = _id t
             /\ type n = "reminder"%string).
Proof.
  intros out now users tasks scan.
  assert (Heff : effects scan
                 = flat_map (effectsOfTask out users) (selectTasks now tasks))
    by apply scan_effects.
  assert (Hnote : forall n,
             In n (notificationsOf (effects scan)) ->
             exists t u,
               In t (selectTasks now tasks)
               /\ In u (remindedUsers out users t)
               /\ recipient n = uid u
               /\ task n = _id t
               /\ type n = "reminder"%string).
  { intros n Hn. rewrite Heff in Hn. unfold notificationsOf in Hn.
    apply in_flat_map in Hn. destruct Hn as (e & He & Hn).
    apply in_flat_map in He. destruct He as (t & Ht & He).
    assert (Hn' : In n (notificationsOf (effectsOfTask out users t)))
      by (unfold notificationsOf; apply in_flat_map; now exists e).
    destruct (effectsOfTask_facts out users t) as (Hrec & Hall & _).
    cbn zeta in Hrec, Hall.
    rewrite Forall_forall in Hall. destruct (Hall n Hn') as [Htask Htype].
    assert (Hr : In (recipient n) (map uid (remindedUsers out users t)))
      by (rewrite <- Hrec; now apply in_map).
    apply in_map_iff in Hr. destruct Hr as (u & Hu & Hin).
    exists t, u. repeat split; auto. }
  rewrite Heff in *. rewrite !count_flat_map.
  split; [| split; [| split; [| split; [| split; [| split]]]]].
  - apply sumOf_ext_in. intros t _.
    now destruct (effectsOfTask_facts out users t) as (_ & _ & -> & _).
  - apply sumOf_ext_in. intros t _.
    destruct (effectsOfTask_facts out users t) as (_ & _ & Hin & Hmail & _).
    cbn zeta in *. congruence.
  - apply sumOf_le. intros t.
    destruct (effectsOfTask_facts out users t)
      as (_ & _ & _ & Hmail & Hdel & _).
    cbn zeta in Hmail, Hdel. rewrite Hmail, Hdel. apply count_le_len.
  - clear Heff Hnote.
    induction (selectTasks now tasks) as [| t l IH]; [reflexivity |].
    rewrite sumOf_cons, count_cons, IH.
    now destruct (effectsOfTask_facts out users t)
      as (_ & _ & _ & _ & _ & -> & _).
  - unfold scan, checkDueDateReminders. cbn [result tasksProcessed].
    clear Heff Hnote.
    induction (selectTasks now tasks) as [| t l IH]; [reflexivity |].
    rewrite sumOf_cons, len_cons.
    destruct (effectsOfTask_facts out users t)
      as (_ & _ & _ & _ & _ & Hflag & _).
    cbn zeta in Hflag. rewrite Hflag.
    destruct (someCallbackSucceeded out users t); lia.
  - intros id. split.
    + intros Hid. unfold markedIds in Hid.
      apply in_flat_map in Hid. destruct Hid as (e & He & Hid).
      apply in_flat_map in He. destruct He as (t & Ht & He).
      assert (Hid' : In id (markedIds (effectsOfTask out users t)))
        by (unfold markedIds; apply in_flat_map; now exists e).
      destruct (effectsOfTask_facts out users t)
        as (Hrec & Hall & _ & _ & _ & _ & Hmark).
      cbn zeta in Hrec, Hall, Hmark. rewrite Hmark in Hid'.
      destruct (someCallbackSucceeded out users t) eqn:Hok;
        [| destruct Hid'].
      destruct Hid' as [<- | []].
      apply someCallbackSucceeded_reminded in Hok. destruct Hok as (u & Hu).
      assert (Hr : In (uid u)
                      (map recipient
                           (notificationsOf (effectsOfTask out users t))))
        by (rewrite Hrec; now apply in_map).
      apply in_map_iff in Hr. destruct Hr as (n & _ & Hn).
      exists n. rewrite Forall_forall in Hall.
      split; [| now apply Hall].
      unfold notificationsOf in *. apply in_flat_map in Hn.
      destruct Hn as (e' & He' & Hn). apply in_flat_map.
      exists e'. split; [| exact Hn].
      apply in_flat_map. now exists t.
    + intros (n & Hn & Htask).
      destruct (Hnote n Hn) as (t & u & Ht & Hu & _ & Htask' & _).
      assert (Hok : someCallbackSucceeded out users t = true)
        by (apply someCallbackSucceeded_reminded; now exists u).
      destruct (effectsOfTask_facts out users t)
        as (_ & _ & _ & _ & _ & _ & Hmark).
      cbn zeta in Hmark. rewrite Hok in Hmark.
      assert (Hid : In id (markedIds (effectsOfTask out users t)))
        by (rewrite Hmark; left; congruence).
      unfold markedIds in *. apply in_flat_map in Hid.
      destruct Hid as (e & He & Hid). apply in_flat_map.
      exists e. split; [| exact Hid]. apply in_flat_map. now exists t.
  - exact Hnote.
Qed.

Lemma scan_notifies_mails_and_marks_together_witness :
  let tasks := [dueIn "t1" tenHours ["u1"; "u2"; "u7"]%string (Some false);
                dueIn "t2" tenHours ["u7"]%string None] in
  let scan := checkDueDateReminders (aliceBounces (noon + 1)) noon
                                    [alice; bob] tasks in
  count isInApp (effects scan) = 2
  /\ count isMailAttempt (effects scan) = 2
  /\ count isDeliveredMail (effects scan) = 1
  /\ markedIds (effects scan) = ["t1"%string]
  /\ exists t u,
       In t (selectTasks noon tasks)
       /\ In u (remindedUsers (aliceBounces (noon + 1)) [alice; bob] t)
       /\ uid u = "u1"%string /\ _id t = "t1"%string.
Proof.
  intros tasks scan.
  destruct (scan_notifies_mails_and_marks_together
              (aliceBounces (noon + 1)) noon [alice; bob] tasks)
    as (Hin & Hmail & _ & _ & _ & _ & Hnote).
  fold scan in Hin, Hmail, Hnote.
  split; [rewrite Hin; vm_compute; reflexivity |].
  split; [rewrite Hmail, Hin; vm_compute; reflexivity |].
  split; [vm_compute; reflexivity |].
  split; [vm_compute; reflexivity |].
  destruct (Hnote {| recipient := "u1"; type := "reminder";
                     subject := "Task Due Soon";
                     message := quote ++ "Report" ++ quote
                                ++ " is due in less than 24 hours!";
                     task := "t1" |})
    as (t & u & Ht & Hu & Hrec & Htask & _);
    [vm_compute; left; reflexivity |].
  exists t, u. cbn [recipient task] in Hrec, Htask.
  repeat split; auto.
Defined.

(* ===================================================================== *)
(** * The reminder on request *)
(* ===================================================================== *)

Lemma populate_In (users : list User) (ids : list Id) (u : User) :
  In u (populate users ids) -> In (uid u) ids /\ In u users.
Proof.
  unfold populate. intros Hin. apply in_flat_map in Hin.
  destruct Hin as (id & Hid & Hu).
  destruct (find (fun u => String.eqb (uid u) id) users) as [u' |] eqn:Hfind;
    [| destruct Hu].
  destruct Hu as [<- | []]. apply find_some in Hfind.
  destruct Hfind as [Hin Heq]. apply String.eqb_eq in Heq.
  split; [now rewrite Heq | exact Hin].
Qed.

Lemma populate_len (users : list User) (ids : list Id) :
  len (populate users ids) <= len ids.
Proof.
  unfold populate. induction ids as [| id ids IH]; [reflexivity |].
  cbn [flat_map]. rewrite len_app, len_cons.
  destruct (find (fun u => String.eqb (uid u) id) users);
    unfold len in *; cbn [List.length]; lia.
Qed.

(** The loop of [sendTaskReminder] from any state. *)
Lemma remindAssignee_fold (out : Outside) (reqUser : User) (t : Task)
    (us : list User) :
  forall state : list ManualEffect * Z,
    let reminded :=
      filter (fun u => negb (String.eqb (email u) "")
                       && notificationCreate out (_id t) (uid u)) us in
    let final := fold_left (remindAssignee out reqUser t) us state in
    snd final = snd state + len reminded
    /\ map recipient (manualNotificationsOf (fst final))
       = map recipient (manualNotificationsOf (fst state))
         ++ map uid reminded
    /\ count isManualInApp (fst final)
       = count isManualInApp (fst state) + len reminded
    /\ count isManualMail (fst final)
       = count isManualMail (fst state) + len reminded
    /\ count isRejectedManualMail (fst final)
       = count isRejectedManualMail (fst state)
         + count (fun u => negb (transportSendMail out (_id t) (email u)))
                 reminded
    /\ (Forall (fun n => task n = _id t /\ type n = "reminder"%string)
               (manualNotificationsOf (fst state)) ->
        Forall (fun n => task n = _id t /\ type n = "reminder"%string)
               (manualNotificationsOf (fst final)))
    /\ (Forall (eq (uid reqUser)) (sendersOf (fst state)) ->
        Forall (eq (uid reqUser)) (sendersOf (fst final))).
Proof.
  induction us as [| u us IH]; intros state; cbn zeta.
  - cbn [fold_left filter map]. rewrite app_nil_r.
    change (len (@nil User)) with 0. change (count _ (@nil User)) with 0.
    repeat split; try lia; auto.
  - cbn [fold_left filter].
    specialize (IH (remindAssignee out reqUser t state u)). cbn zeta in IH.
    destruct IH as (Hn & Hrec & Hin & Hmail & Hrej & Hall & Hsend).
    rewrite Hn, Hrec, Hin, Hmail, Hrej. clear Hn Hrec Hin Hmail Hrej.
    unfold remindAssignee in *.
    destruct (String.eqb (email u) ""); cbn [negb andb];
      [repeat split; auto |].
    destruct (notificationCreate out (_id t) (uid u)); cbn [fst snd] in *;
      [| repeat split; auto].
    unfold manualNotificationsOf, sendersOf in *.
    rewrite !flat_map_app, !count_app, !count_cons, len_cons in *.
    cbn [flat_map app map isManualInApp isManualMail isRejectedManualMail
         recipient] in *.
    rewrite map_app. cbn [map recipient]. rewrite <- !app_assoc.
    unfold sendDueDateReminder. cbn [app].
    change (count _ (@nil ManualEffect)) with 0.
    repeat split; try lia.
    + intros H. apply Hall. apply Forall_app. split; [exact H |].
      constructor; [split; reflexivity | constructor].
    + intros H. apply Hsend. apply Forall_app. split; [exact H |].
      constructor; [reflexivity | constructor].
Qed.

(** X18.  For an admin and a stored task that is not Completed,
    [sendTaskReminder] answers with [sentCount] the number of assignees
    that [populate] finds with an address and whose notification is
    stored: each of them gets one notification, sent in the name of the
    admin, and one mail attempt, and a mail that the transport rejects
    is counted all the same.  Nobody else is notified, and the count is
    at most the number of assignees. *)
Theorem reminder_on_request_counts_notifications :
  forall out users tasks reqUser id t,
    isAdmin reqUser = true ->
    findById tasks id = Some t ->
    status t <> Completed ->
    exists effs sentCount,
      sendTaskReminder out users tasks reqUser id
      = (effs, Answered sentCount)
      /\ sentCount = len (remindedUsers out users t)
      /\ map recipient (manualNotificationsOf effs)
         = map uid (remindedUsers out users t)
      /\ count isManualInApp effs = sentCount
      /\ count isManualMail effs = sentCount
      /\ count isRejectedManualMail effs
         = count (fun u => negb (transportSendMail out id (email u)))
                 (remindedUsers out users t)
      /\ Forall (fun n => task n = id /\ type n = "reminder"%string
                          /\ In (recipient n) (assignedTo t))
                (manualNotificationsOf effs)
      /\ Forall (eq (uid reqUser)) (sendersOf effs)
      /\ 0 <= sentCount <= len (assignedTo t).
Proof.
  intros out users tasks reqUser id t Hadmin Hfind Hstatus.
  unfold sendTaskReminder. rewrite Hadmin, Hfind. cbn [negb].
  replace (Status_eqb (status t) Completed) with false
    by (destruct (status t); [reflexivity | reflexivity | congruence]).
  apply findById_id in Hfind. subst id.
  destruct (remindAssignee_fold out reqUser t (populate users (assignedTo t))
              ([], 0))
    as (Hn & Hrec & Hin & Hmail & Hrej & Hall & Hsend).
  cbn zeta in *. fold (remindedUsers out users t) in *.
  cbn [fst snd manualNotificationsOf sendersOf flat_map map app] in *.
  change (count _ (@nil ManualEffect)) with 0 in *.
  eexists. eexists. split; [reflexivity |].
  rewrite Hn, Hrec, Hin, Hmail, Hrej.
  repeat split; try lia; auto.
  - apply Forall_forall. intros n Hn'.
    specialize (Hall (Forall_nil _)). rewrite Forall_forall in Hall.
    destruct (Hall n Hn') as [Htask Htype].
    repeat split; [exact Htask | exact Htype |].
    assert (Hr : In (recipient n) (map uid (remindedUsers out users t))).
    { unfold manualNotificationsOf in Hrec. rewrite <- Hrec.
      now apply in_map. }
    apply in_map_iff in Hr. destruct Hr as (u & <- & Hu).
    unfold remindedUsers in Hu. apply filter_In in Hu.
    destruct Hu as [Hu _]. now apply populate_In in Hu.
  - apply len_nonneg.
  - pose proof (count_le_len
                  (fun u => negb (String.eqb (email u) "")
                            && notificationCreate out (_id t) (uid u))
                  (populate users (assignedTo t))) as Hle.
    pose proof (populate_len users (assignedTo t)).
    unfold remindedUsers. unfold count in Hle. lia.
Qed.

Lemma reminder_on_request_counts_notifications_witness :
  let t := dueIn "t1" tenHours ["u1"; "u2"; "u7"]%string (Some true) in
  exists effs,
    sendTaskReminder (mailDown noon) [alice; bob] [t] carol "t1"
    = (effs, Answered 2)
    /\ count isRejectedManualMail effs = 2
    /\ map recipient (manualNotificationsOf effs) = ["u1"; "u2"]%string.
Proof.
  intros t.
  destruct (reminder_on_request_counts_notifications
              (mailDown noon) [alice; bob] [t] carol "t1"%string t
              eq_refl eq_refl ltac:(discriminate))
    as (effs & sentCount & Hsend & Hcount & Hrec & _ & _ & Hrej & _).
  exists effs. rewrite Hsend, Hcount, Hrej, Hrec.
  repeat split; vm_compute; reflexivity.
Defined.

Lemma findById_frame (tasks tasks' : list Task) (id : Id) :
  map withoutReminder tasks = map withoutReminder tasks' ->
  option_map withoutReminder (findById tasks id)
  = option_map withoutReminder (findById tasks' id).
Proof.
  unfold findById. revert tasks'.
  induction tasks as [| t tasks IH]; intros [| t' tasks'] Hmap;
    try discriminate Hmap; [reflexivity |].
  pose proof (f_equal (hd (withoutReminder t)) Hmap) as Ht.
  pose proof (f_equal (@tl Task) Hmap) as Hrest.
  cbn [map hd tl] in Ht, Hrest. cbn [find].
  assert (Hid : _id t = _id t')
    by (change (_id (withoutReminder t) = _id (withoutReminder t'));
        now rewrite Ht).
  rewrite Hid. destruct (String.eqb (_id t') id).
  - cbn [option_map]. now rewrite Ht.
  - now apply IH.
Qed.

Lemma fold_left_ext_all {A B : Type} (f g : A -> B -> A) (l : list B) :
  (forall a b, f a b = g a b) ->
  forall a, fold_left f l a = fold_left g l a.
Proof.
  intros Hfg. induction l as [| b l IH]; intros a; [reflexivity |].
  cbn [fold_left]. now rewrite Hfg, IH.
Qed.

Lemma sendTaskReminder_frame (out : Outside) (users : list User)
    (tasks tasks' : list Task) (reqUser : User) (id : Id) :
  map withoutReminder tasks = map withoutReminder tasks' ->
  sendTaskReminder out users tasks reqUser id
  = sendTaskReminder out users tasks' reqUser id.
Proof.
  intros Hmap. unfold sendTaskReminder.
  destruct (negb (isAdmin reqUser)); [reflexivity |].
  pose proof (findById_frame tasks tasks' id Hmap) as Hfind.
  destruct (findById tasks id) as [t |], (findById tasks' id) as [t' |];
    try discriminate Hfind; [| reflexivity].
  cbn [option_map] in Hfind.
  pose proof (f_equal (fun o => match o with
                                | Some x => x
                                | None => withoutReminder t
                                end) Hfind) as Ht.
  cbn beta iota in Ht.
  assert (Hid : _id t = _id t')
    by (change (_id (withoutReminder t) = _id (withoutReminder t'));
        now rewrite Ht).
  assert (Htitle : title t = title t')
    by (change (title (withoutReminder t) = title (withoutReminder t'));
        now rewrite Ht).
  assert (Hstatus : status t = status t')
    by (change (status (withoutReminder t) = status (withoutReminder t'));
        now rewrite Ht).
  assert (Hassigned : assignedTo t = assignedTo t')
    by (change (assignedTo (withoutReminder t)
                = assignedTo (withoutReminder t'));
        now rewrite Ht).
  rewrite Hstatus, Hassigned.
  destruct (Status_eqb (status t') Completed); [reflexivity |].
  rewrite (fold_left_ext_all (remindAssignee out reqUser t)
                             (remindAssignee out reqUser t')); [reflexivity |].
  intros state u. unfold remindAssignee. now rewrite Hid, Htitle.
Qed.

(** X19.  [sendTaskReminder] does nothing when it refuses a user who
    is not an admin (403, whatever the id) or a Completed task (400);
    its answer 404 has the message of [sendNotFound], comes without
    effect and is given only when no task has the id; and it sends
    reminders only for an admin and a task that is not Completed.  It
    neither reads nor writes the reminder flag and does not look at the
    due date: the answer and the effects are the same whatever the
    flags of the stored tasks are, and in particular the same after a
    scan as before it. *)
Theorem reminder_on_request_ignores_the_flag :
  (forall out users tasks reqUser id,
      (isAdmin reqUser = false ->
       sendTaskReminder out users tasks reqUser id
       = ([], Refused 403 "Access denied. Admin only."))
      /\ (forall t,
             isAdmin reqUser = true -> findById tasks id = Some t ->
             status t = Completed ->
             sendTaskReminder out users tasks reqUser id
             = ([], Refused 400 "Cannot send reminder for completed task"))
      /\ (forall effs reason,
             sendTaskReminder out users tasks reqUser id
             = (effs, Refused 404 reason) ->
             effs = [] /\ reason = "Task not found"%string
             /\ isAdmin reqUser = true /\ findById tasks id = None)
      /\ (forall effs sentCount,
             sendTaskReminder out users tasks reqUser id
             = (effs, Answered sentCount) ->
             isAdmin reqUser = true
             /\ exists t, findById tasks id = Some t
                          /\ status t <> Completed))
  /\ (forall out users tasks tasks' reqUser id,
         map withoutReminder tasks = map withoutReminder tasks' ->
         sendTaskReminder out users tasks reqUser id
         = sendTaskReminder out users tasks' reqUser id)
  /\ (forall out users reqUser id out' now users' tasks,
         sendTaskReminder out users
           (tasksAfter (checkDueDateReminders out' now users' tasks))
           reqUser id
         = sendTaskReminder out users tasks reqUser id).
Proof.
  split; [| split].
  - intros out users tasks reqUser id.
    unfold sendTaskReminder, sendForbidden, sendNotFound, sendBadRequest.
    split; [intros ->; reflexivity |].
    split.
    { intros t -> -> Hst. now rewrite Hst. }
    split.
    + intros effs reason.
      destruct (isAdmin reqUser); cbn [negb]; [| discriminate].
      destruct (findById tasks id) as [t |].
      * destruct (Status_eqb (status t) Completed); discriminate.
      * intros [= <- <-]. repeat split.
    + intros effs sentCount.
      destruct (isAdmin reqUser); cbn [negb]; [| discriminate].
      destruct (findById tasks id) as [t |]; [| discriminate].
      destruct (Status_eqb (status t) Completed) eqn:Hst; [discriminate |].
      intros _. split; [reflexivity |]. exists t. split; [reflexivity |].
      intros E. rewrite E in Hst. discriminate Hst.
  - intros out users tasks tasks' reqUser id.
    apply sendTaskReminder_frame.
  - intros out users reqUser id out' now users' tasks.
    apply sendTaskReminder_frame.
    unfold checkDueDateReminders, dispatchReminders. cbn [tasksAfter].
    apply dispatch_frame.
Qed.

Lemma reminder_on_request_ignores_the_flag_witness :
  let tasks := [dueIn "t1" tenHours ["u1"]%string (Some false)] in
  let scan := checkDueDateReminders (allDelivered (noon + 1)) noon
                                    [alice] tasks in
  map reminderSent (tasksAfter scan) = [Some true]
  /\ snd (sendTaskReminder (allDelivered noon) [alice] (tasksAfter scan)
                           carol "t1") = Answered 1
  /\ sendTaskReminder (allDelivered noon) [alice] tasks alice "t1"
     = ([], Refused 403 "Access denied. Admin only.").
Proof.
  intros tasks scan.
  destruct reminder_on_request_ignores_the_flag as (Hrefused & _ & Hscan).
  split; [vm_compute; reflexivity |].
  split.
  - unfold scan. rewrite Hscan. vm_compute. reflexivity.
  - destruct (Hrefused (allDelivered noon) [alice] tasks alice "t1"%string)
      as [H403 _].
    apply H403. reflexivity.
Defined.

(* ===================================================================== *)
(** * More on the status and checklist routes *)
(* ===================================================================== *)

Lemma save_ids (tasks : list Task) (t' : Task) :
  map _id (save tasks t') = map _id tasks.
Proof.
  unfold save. induction tasks as [| x tasks IH]; [reflexivity |].
  cbn [findByIdAndUpdate].
  destruct (String.eqb (_id x) (_id t')) eqn:Heq; cbn [map].
  - apply String.eqb_eq in Heq. now rewrite Heq.
  - now rewrite IH.
Qed.

Lemma findById_save_other (tasks : list Task) (t' : Task) (id' : Id) :
  id' <> _id t' -> findById (save tasks t') id' = findById tasks id'.
Proof.
  intros Hne. unfold save, findById.
  induction tasks as [| x tasks IH]; [reflexivity |].
  cbn [findByIdAndUpdate find].
  destruct (String.eqb (_id x) (_id t')) eqn:Heq; cbn [find].
  - apply String.eqb_eq in Heq.
    replace (String.eqb (_id t') id') with false
      by (symmetry; apply String.eqb_neq; congruence).
    replace (String.eqb (_id x) id') with false
      by (symmetry; apply String.eqb_neq; congruence).
    reflexivity.
  - now rewrite IH.
Qed.

(** What saving an updated copy of the stored task leaves alone. *)
Lemma save_touchesOneTask (tasks : list Task) (id : Id) (t t' : Task) :
  findById tasks id = Some t ->
  _id t' = _id t ->
  title t' = title t ->
  priority t' = priority t ->
  dueDate t' = dueDate t ->
  assignedTo t' = assignedTo t ->
  createdAt t' = createdAt t ->
  reminderSent t' = reminderSent t ->
  reminderSentAt t' = reminderSentAt t ->
  touchesOneTask tasks id (save tasks t', Ok t').
Proof.
  intros Hfind Hid Htitle Hprio Hdue Hassigned Hcreated Hflag Hat.
  pose proof (findById_id tasks id t Hfind) as Hidt.
  assert (Hid' : _id t' = id) by congruence.
  unfold touchesOneTask. cbn [fst snd].
  split; [apply save_ids |].
  split; [intros id' Hne; apply findById_save_other; congruence |].
  split; [| split].
  - intros t'' [= <-]. exists t.
    split; [exact Hfind |].
    split; [rewrite <- Hid'; apply (findById_save tasks t t'); congruence |].
    repeat split; assumption.
  - intros msg [H | H]; discriminate H.
  - intros what H. discriminate H.
Qed.

Lemma refused_touchesOneTask (tasks : list Task) (id : Id) (t : Task)
    (msg : string) :
  findById tasks id = Some t ->
  touchesOneTask tasks id (tasks, Forbidden msg).
Proof.
  intros Hfind. unfold touchesOneTask. cbn [fst snd].
  split; [reflexivity |]. split; [reflexivity |].
  split; [intros t' H; discriminate H |].
  split; [reflexivity |]. intros what H. discriminate H.
Qed.

Lemma missing_touchesOneTask (tasks : list Task) (id : Id) :
  findById tasks id = None ->
  touchesOneTask tasks id (tasks, NotFound "Task").
Proof.
  intros Hfind. unfold touchesOneTask. cbn [fst snd].
  split; [reflexivity |]. split; [reflexivity |].
  split; [intros t' H; discriminate H |].
  split; [reflexivity |]. intros what [= <-]. now split.
Qed.

(** X20.  Whatever [updateTaskStatus] and [updateTaskChecklist] answer,
    the collection keeps its ids in their order and every task of
    another id is as before; a refusal (no such task, not authorized)
    changes nothing at all, and the answer that the task was not found
    is given only when no task has the id; the task that is saved
    keeps its title, priority, due date, assignees, creation time and
    reminder flag.  A task that was reminded and is reopened therefore
    stays flagged. *)
Theorem updates_touch_one_task :
  (forall tasks id reqUser bodyStatus,
      touchesOneTask tasks id (updateTaskStatus tasks id reqUser bodyStatus))
  /\ (forall tasks id reqUser checklist,
         touchesOneTask tasks id
                        (updateTaskChecklist tasks id reqUser checklist)).
Proof.
  split.
  - intros tasks id reqUser bodyStatus. unfold updateTaskStatus.
    destruct (findById tasks id) as [t |] eqn:Hfind;
      [| now apply missing_touchesOneTask].
    destruct (negb _ && negb (isAdmin reqUser));
      [now apply (refused_touchesOneTask tasks id t) |].
    apply (save_touchesOneTask tasks id t); [exact Hfind | ..];
      cbn [withStatus status];
      destruct (negb (Status_eqb (status t) _));
      cbn [addActivityLog withStatus status];
      match goal with
      | |- context [Status_eqb ?s Completed] =>
          destruct (Status_eqb s Completed)
      end; reflexivity.
  - intros tasks id reqUser checklist. unfold updateTaskChecklist.
    destruct (findById tasks id) as [t |] eqn:Hfind;
      [| now apply missing_touchesOneTask].
    destruct (negb _ && negb (isAdmin reqUser));
      [now apply (refused_touchesOneTask tasks id t) |].
    apply (save_touchesOneTask tasks id t); [exact Hfind | ..]; reflexivity.
Qed.

Lemma updates_touch_one_task_witness :
  let reminded := dueIn "t1" tenHours ["u1"]%string (Some true) in
  let tasks := [reminded; withThreeSteps] in
  let after := fst (updateTaskStatus tasks "t1" alice (Some InProgress)) in
  findById after "t7" = Some withThreeSteps
  /\ map reminderSent after = [Some true; Some false]
  /\ selectTasks noon after = [].
Proof.
  intros reminded tasks after.
  destruct updates_touch_one_task as [Hstatus _].
  destruct (Hstatus tasks "t1"%string alice (Some InProgress))
    as (_ & Hother & _).
  split; [| split; vm_compute; reflexivity].
  unfold after. rewrite Hother; [reflexivity | discriminate].
Defined.

Lemma String_length_append (s1 s2 : string) :
  String.length (s1 ++ s2)
  = (String.length s1 + String.length s2)%nat.
Proof.
  induction s1 as [| c s1 IH]; [reflexivity |].
  cbn [String.append String.length Nat.add]. now rewrite IH.
Qed.

(** [assignedTo.toString()] is the id of the user exactly when the user
    is the only assignee, ids having one length. *)
Lemma toString_sole_assignee (ids : list Id) (u : Id) :
  u <> EmptyString ->
  Forall (fun a => String.length a = String.length u) ids ->
  String.eqb (String.concat "," ids) u = true <-> ids = [u].
Proof.
  intros Hu Hlen. destruct ids as [| a [| b rest]].
  - cbn [String.concat]. split; [| discriminate].
    intros H. apply String.eqb_eq in H. congruence.
  - cbn [String.concat]. rewrite String.eqb_eq.
    split; [now intros -> | now intros [= ->]].
  - split; [| discriminate]. intros H. apply String.eqb_eq in H.
    exfalso. apply (f_equal String.length) in H.
    change (String.concat "," (a :: b :: rest))
      with (a ++ "," ++ String.concat "," (b :: rest))%string in H.
    rewrite !String_length_append in H.
    inversion Hlen as [| ? ? Ha _]; subst.
    cbn [String.length] in H. lia.
Qed.

(** The progress of a checklist of fewer than 200 items is 100 only
    when every item is checked, and 0 only when none is. *)
Lemma progress_thresholds (checklist : list ChecklistItem) :
  len checklist < 200 ->
  (integerOf (progressNumber checklist) = 100
   <-> checklist <> [] /\ count completed checklist = len checklist)
  /\ (integerOf (progressNumber checklist) = 0
      <-> count completed checklist = 0).
Proof.
  intros Hsmall.
  pose proof (count_nonneg completed checklist) as Hc0.
  pose proof (count_le_len completed checklist) as Hcn.
  pose proof (len_nonneg checklist) as Hn0.
  assert (Hempty : checklist = [] <-> len checklist = 0).
  { destruct checklist; [tauto |]. rewrite len_cons.
    pose proof (len_nonneg checklist). split; [discriminate | lia]. }
  split; split.
  - intros H100.
    destruct (Z.eq_dec (len checklist) 0) as [Hz | Hnz].
    + apply Hempty in Hz. subst checklist. discriminate H100.
    + split; [intros E; apply Hempty in E; lia |].
      destruct (Z.eq_dec (count completed checklist) (len checklist))
        as [E | Hne]; [exact E |].
      unfold progressNumber in H100.
      replace (len checklist >? 0) with true in H100 by lia.
      pose proof (percentOf_below_100 (count completed checklist)
                                      (len checklist)).
      lia.
  - intros [Hne Hall]. apply progress_all; [| exact Hall].
    destruct (Z.eq_dec (len checklist) 0) as [Hz | Hnz]; [| lia].
    apply Hempty in Hz. contradiction.
  - intros H0.
    destruct (Z.eq_dec (count completed checklist) 0) as [E | Hne];
      [exact E |].
    unfold progressNumber in H0.
    replace (len checklist >? 0) with true in H0 by lia.
    pose proof (percentOf_above_0 (count completed checklist)
                                  (len checklist)).
    lia.
  - apply progress_none.
Qed.

(** The status that [updateTaskChecklist] saves, from the progress. *)
Lemma updateTaskChecklist_status (tasks : list Task) (id : Id)
    (reqUser : User) (checklist : list ChecklistItem) (t : Task) :
  findById tasks id = Some t ->
  existsb (String.eqb (uid reqUser)) (assignedTo t) || isAdmin reqUser = true ->
  exists t',
    updateTaskChecklist tasks id reqUser checklist = (save tasks t', Ok t')
    /\ todoChecklist t' = checklist
    /\ activityLog t' = activityLog t
    /\ progress t' = integerOf (progressNumber checklist)
    /\ 0 <= progress t' <= 100
    /\ status t'
       = (if progress t' =? 100 then Completed
          else if progress t' >? 0 then InProgress
          else Pending).
Proof.
  intros Hfind Hauth. unfold updateTaskChecklist. rewrite Hfind.
  replace (negb (existsb (String.eqb (uid reqUser)) (assignedTo t))
           && negb (isAdmin reqUser)) with false
    by (rewrite <- negb_orb, Hauth; reflexivity).
  eexists. split; [reflexivity |].
  cbn [withStatus withChecklist todoChecklist progress status activityLog].
  split; [reflexivity |]. split; [reflexivity |]. split; [reflexivity |].
  split; [apply progress_bounds | reflexivity].
Qed.

(** X21.  Who may use the two routes differs.  For a user who is not
    an admin, [updateTaskStatus] compares [assignedTo.toString()] with
    the user's id and so accepts the user only as the sole assignee,
    while [updateTaskChecklist] accepts every assignee.  One of several
    assignees is refused when setting the status, yet completes the task
    by sending a checklist with every item checked. *)
Theorem co_assignee_may_tick_but_not_set_status :
  forall tasks id reqUser t,
    findById tasks id = Some t ->
    isAdmin reqUser = false ->
    uid reqUser <> EmptyString ->
    Forall (fun a => String.length a = String.length (uid reqUser))
           (assignedTo t) ->
    (forall bodyStatus,
        (exists t', snd (updateTaskStatus tasks id reqUser bodyStatus) = Ok t')
        <-> assignedTo t = [uid reqUser])
    /\ (forall bodyStatus,
           assignedTo t <> [uid reqUser] ->
           updateTaskStatus tasks id reqUser bodyStatus
           = (tasks, Forbidden "You are not authorized to update this task"))
    /\ (forall checklist,
           (exists t',
               snd (updateTaskChecklist tasks id reqUser checklist) = Ok t')
           <-> In (uid reqUser) (assignedTo t))
    /\ (In (uid reqUser) (assignedTo t) ->
        forall checklist,
          checklist <> [] ->
          Forall (fun item => completed item = true) checklist ->
          exists t',
            updateTaskChecklist tasks id reqUser checklist
            = (save tasks t', Ok t')
            /\ status t' = Completed /\ progress t' = 100).
Proof.
  intros tasks id reqUser t Hfind Hadmin Hu Hlen.
  pose proof (toString_sole_assignee (assignedTo t) (uid reqUser) Hu Hlen)
    as Hsole.
  assert (Hin : existsb (String.eqb (uid reqUser)) (assignedTo t) = true
                <-> In (uid reqUser) (assignedTo t)).
  { rewrite existsb_exists. split.
    - intros (a & Ha & Heq). apply String.eqb_eq in Heq. now subst a.
    - intros H. exists (uid reqUser). split; [exact H |].
      apply String.eqb_refl. }
  split; [| split; [| split]].
  - intros bodyStatus. unfold updateTaskStatus.
    rewrite Hfind, Hadmin. cbn [negb]. rewrite andb_true_r.
    destruct (String.eqb (String.concat "," (assignedTo t)) (uid reqUser));
      cbn [negb snd]; split.
    + intros _. now apply Hsole.
    + intros _. eexists. reflexivity.
    + intros (t' & H). discriminate H.
    + intros H. apply Hsole in H. discriminate H.
  - intros bodyStatus Hnot. unfold updateTaskStatus.
    rewrite Hfind, Hadmin. cbn [negb]. rewrite andb_true_r.
    destruct (String.eqb (String.concat "," (assignedTo t)) (uid reqUser));
      [| reflexivity].
    exfalso. apply Hnot. now apply Hsole.
  - intros checklist. unfold updateTaskChecklist.
    rewrite Hfind, Hadmin. cbn [negb]. rewrite andb_true_r.
    destruct (existsb (String.eqb (uid reqUser)) (assignedTo t));
      cbn [negb snd]; split.
    + intros _. now apply Hin.
    + intros _. eexists. reflexivity.
    + intros (t' & H). discriminate H.
    + intros H. apply Hin in H. discriminate H.
  - intros Hmember checklist Hne Hall.
    assert (Hauth : existsb (String.eqb (uid reqUser)) (assignedTo t)
                    || isAdmin reqUser = true)
      by (apply orb_true_iff; left; now apply Hin).
    destruct (updateTaskChecklist_status tasks id reqUser checklist t
                Hfind Hauth)
      as (t' & Hupd & _ & _ & Hvalue & _ & Hst).
    assert (Hcount : count completed checklist = len checklist)
      by (apply count_all; now apply Forall_forall).
    assert (Hlen0 : 0 < len checklist).
    { destruct checklist; [congruence | rewrite len_cons].
      pose proof (len_nonneg checklist). lia. }
    assert (Hprog : progress t' = 100)
      by (rewrite Hvalue; now apply progress_all).
    exists t'. split; [exact Hupd |].
    split; [| exact Hprog]. now rewrite Hst, Hprog.
Qed.

Lemma co_assignee_may_tick_but_not_set_status_witness :
  let shared := dueIn "t1" tenHours ["u1"; "u2"]%string None in
  updateTaskStatus [shared] "t1" alice (Some Completed)
  = ([shared], Forbidden "You are not authorized to update this task")
  /\ exists t',
      updateTaskChecklist [shared] "t1" alice (checked 2)
      = (save [shared] t', Ok t')
      /\ status t' = Completed.
Proof.
  intros shared.
  destruct (co_assignee_may_tick_but_not_set_status
              [shared] "t1"%string alice shared eq_refl eq_refl
              ltac:(discriminate)
              ltac:(repeat constructor))
    as (_ & Hrefused & _ & Hticks).
  split; [apply Hrefused; discriminate |].
  destruct (Hticks ltac:(left; reflexivity) (checked 2)
                   ltac:(discriminate) ltac:(repeat constructor))
    as (t' & Hupd & Hst & _).
  exists t'. split; [exact Hupd | exact Hst].
Defined.

Lemma count_is_len {A : Type} (p : A -> bool) (l : list A) :
  count p l = len l <-> Forall (fun x => p x = true) l.
Proof.
  split.
  - induction l as [| x l IH]; intros H; [constructor |].
    rewrite count_cons, len_cons in H.
    pose proof (count_le_len p l).
    destruct (p x) eqn:Hx; [| lia].
    constructor; [exact Hx | apply IH; lia].
  - intros H. apply count_all. now apply Forall_forall.
Qed.

Lemma count_is_0 {A : Type} (p : A -> bool) (l : list A) :
  count p l = 0 <-> Forall (fun x => p x = false) l.
Proof.
  induction l as [| x l IH]; [split; [constructor | reflexivity] |].
  rewrite count_cons. pose proof (count_nonneg p l) as Hc.
  split.
  - intros H. destruct (p x) eqn:Hx; [lia |].
    constructor; [exact Hx | apply IH; lia].
  - intros H. inversion H as [| ? ? Hx Hl]; subst.
    rewrite Hx. apply IH in Hl. lia.
Qed.

(** X22.  The status that [updateTaskChecklist] saves follows the
    checklist it receives.  With fewer than 200 items the task becomes
    Completed exactly when the list is not empty and every item is
    checked, Pending exactly when no item is checked, and In Progress
    otherwise.  With more than 200 items the rounding of the percentage
    shows: one unchecked item still gives progress 100 and Completed,
    and one checked item still gives progress 0 and Pending.  (The
    bounds come from the percentages of 198 of 199, 1 of 199, 200 of
    201 and 1 of 201 as the code computes them, which the quotient,
    the product and [Math.round] carry to the other counts by keeping
    the order.) *)
Theorem checklist_decides_the_status :
  forall tasks id reqUser checklist t,
    findById tasks id = Some t ->
    existsb (String.eqb (uid reqUser)) (assignedTo t) || isAdmin reqUser
    = true ->
    exists t',
      updateTaskChecklist tasks id reqUser checklist = (save tasks t', Ok t')
      /\ todoChecklist t' = checklist
      /\ activityLog t' = activityLog t
      /\ (len checklist < 200 ->
          (status t' = Completed <->
           checklist <> []
           /\ Forall (fun item => completed item = true) checklist)
          /\ (status t' = Pending <->
              Forall (fun item => completed item = false) checklist)
          /\ (status t' = InProgress <->
              0 < count completed checklist < len checklist))
      /\ (200 < len checklist ->
          count completed checklist = len checklist - 1 ->
          status t' = Completed /\ progress t' = 100)
      /\ (200 < len checklist ->
          count completed checklist = 1 ->
          status t' = Pending /\ progress t' = 0).
Proof.
  intros tasks id reqUser checklist t Hfind Hauth.
  destruct (updateTaskChecklist_status tasks id reqUser checklist t
              Hfind Hauth)
    as (t' & Hupd & Hlist & Hlog & Hvalue & Hrange & Hst).
  exists t'. split; [exact Hupd |]. split; [exact Hlist |].
  split; [exact Hlog |].
  pose proof (count_nonneg completed checklist) as Hc0.
  pose proof (count_le_len completed checklist) as Hcn.
  pose proof (len_nonneg checklist) as Hn0.
  assert (Hempty : checklist = [] <-> len checklist = 0).
  { destruct checklist; [tauto |]. rewrite len_cons.
    pose proof (len_nonneg checklist). split; [discriminate | lia]. }
  assert (Hcompleted : status t' = Completed <-> progress t' = 100).
  { rewrite Hst. destruct (Z.eqb_spec (progress t') 100) as [He | He];
      destruct (Z.gtb_spec (progress t') 0);
      split; intros; try discriminate; try reflexivity; lia. }
  assert (Hpending : status t' = Pending <-> progress t' = 0).
  { rewrite Hst. destruct (Z.eqb_spec (progress t') 100) as [He | He];
      destruct (Z.gtb_spec (progress t') 0);
      split; intros; try discriminate; try reflexivity; lia. }
  assert (Hbetween : status t' = InProgress
                     <-> progress t' <> 100 /\ progress t' <> 0).
  { rewrite Hst. destruct (Z.eqb_spec (progress t') 100) as [He | He];
      destruct (Z.gtb_spec (progress t') 0);
      split; intros; try discriminate; try reflexivity; lia. }
  split; [| split].
  - intros Hsmall.
    destruct (progress_thresholds checklist Hsmall) as [Hall Hnone].
    rewrite <- Hvalue in Hall, Hnone.
    rewrite Hcompleted, Hpending, Hbetween, Hall, Hnone,
      <- count_is_len, <- count_is_0.
    split; [tauto |]. split; [tauto |].
    split.
    + intros [Hnot100 Hnot0].
      assert (len checklist <> 0) by lia.
      assert (checklist <> []) by (intros E; apply Hempty in E; lia).
      assert (count completed checklist <> len checklist) by tauto.
      lia.
    + intros Hc. split; [intros [_ E]; lia | lia].
  - intros Hlarge Hcount. rewrite Hcompleted.
    assert (Hp : progress t' = 100); [| tauto].
    rewrite Hvalue. unfold progressNumber.
    replace (len checklist >? 0) with true by lia.
    rewrite Hcount. now apply percentOf_all_but_one.
  - intros Hlarge Hcount. rewrite Hpending.
    assert (Hp : progress t' = 0); [| tauto].
    rewrite Hvalue. unfold progressNumber.
    replace (len checklist >? 0) with true by lia.
    rewrite Hcount. now apply percentOf_one_of_many.
Qed.

Lemma checklist_decides_the_status_witness :
  (exists t',
      snd (updateTaskChecklist [withThreeSteps] "t7" alice
                               (checked 200 ++ unchecked 1)) = Ok t'
      /\ status t' = Completed
      /\ count completed (todoChecklist t') = 200
      /\ len (todoChecklist t') = 201)
  /\ (exists t',
         snd (updateTaskChecklist [withThreeSteps] "t7" alice
                                  (checked 198 ++ unchecked 1)) = Ok t'
         /\ status t' = InProgress).
Proof.
  split.
  - destruct (checklist_decides_the_status
                [withThreeSteps] "t7"%string alice
                (checked 200 ++ unchecked 1) withThreeSteps eq_refl eq_refl)
      as (t' & Hupd & Hlist & _ & _ & Hlarge & _).
    exists t'. rewrite Hupd, Hlist. cbn [snd].
    split; [reflexivity |].
    split; [apply Hlarge; vm_compute; reflexivity |].
    split; vm_compute; reflexivity.
  - destruct (checklist_decides_the_status
                [withThreeSteps] "t7"%string alice
                (checked 198 ++ unchecked 1) withThreeSteps eq_refl eq_refl)
      as (t' & Hupd & _ & _ & Hsmall & _).
    exists t'. rewrite Hupd. cbn [snd]. split; [reflexivity |].
    destruct (Hsmall ltac:(vm_compute; reflexivity)) as (_ & _ & Hbetween).
    apply Hbetween. vm_compute. split; reflexivity.
Defined.

(** The task that [updateTaskStatus] saves, field by field. *)
Lemma updateTaskStatus_saved (tasks : list Task) (id : Id)
    (reqUser : User) (bodyStatus : option Status) (t : Task) :
  findById tasks id = Some t ->
  String.eqb (String.concat "," (assignedTo t)) (uid reqUser)
  || isAdmin reqUser = true ->
  let newStatus := match bodyStatus with Some s => s | None => status t end in
  exists t',
    updateTaskStatus tasks id reqUser bodyStatus = (save tasks t', Ok t')
    /\ _id t' = id
    /\ assignedTo t' = assignedTo t
    /\ status t' = newStatus
    /\ activityLog t'
       = (if Status_eqb (status t) newStatus then activityLog t
          else activityLog t
               ++ [{| user := uid reqUser; action := "status_changed";
                      details := "Status was changed";
                      oldValue := Status_toString (status t);
                      newValue := Status_toString newStatus |}])
    /\ todoChecklist t'
       = (if Status_eqb newStatus Completed
          then completeAll (todoChecklist t) else todoChecklist t)
    /\ progress t'
       = (if Status_eqb newStatus Completed then 100 else progress t).
Proof.
  intros Hfind Hauth newStatus. unfold updateTaskStatus. rewrite Hfind.
  replace (negb (String.eqb (String.concat "," (assignedTo t)) (uid reqUser))
           && negb (isAdmin reqUser)) with false
    by (rewrite <- negb_orb, Hauth; reflexivity).
  apply findById_id in Hfind. fold newStatus.
  cbn [withStatus status].
  destruct (Status_eqb (status t) newStatus);
    cbn [negb addActivityLog withStatus status activityLog];
    destruct (Status_eqb newStatus Completed);
    eexists; (split; [reflexivity |]);
    cbn [withStatus withChecklist _id assignedTo status activityLog
         todoChecklist progress];
    repeat split; assumption.
Qed.

(** X23.  [updateTaskStatus] appends one entry to the activity log,
    with the old and the new status, when the status changes, and none
    when it stays; a missing status in the body keeps the status.  Only
    a status of Completed touches checklist and progress: a task that is
    reopened keeps its progress of 100 and all its items checked. *)
Theorem status_route_logs_each_change_once :
  forall tasks id reqUser bodyStatus t,
    findById tasks id = Some t ->
    String.eqb (String.concat "," (assignedTo t)) (uid reqUser)
    || isAdmin reqUser = true ->
    exists t',
      updateTaskStatus tasks id reqUser bodyStatus = (save tasks t', Ok t')
      /\ (bodyStatus = None -> status t' = status t)
      /\ (forall s, bodyStatus = Some s -> status t' = s)
      /\ (status t' = status t -> activityLog t' = activityLog t)
      /\ (status t' <> status t ->
          activityLog t'
          = activityLog t
            ++ [{| user := uid reqUser; action := "status_changed";
                   details := "Status was changed";
                   oldValue := Status_toString (status t);
                   newValue := Status_toString (status t') |}])
      /\ (status t' <> Completed ->
          todoChecklist t' = todoChecklist t /\ progress t' = progress t)
      /\ (status t = Completed -> progress t = 100 ->
          Forall (fun item => completed item = true) (todoChecklist t) ->
          progress t' = 100
          /\ Forall (fun item => completed item = true) (todoChecklist t')).
Proof.
  intros tasks id reqUser bodyStatus t Hfind Hauth.
  destruct (updateTaskStatus_saved tasks id reqUser bodyStatus t Hfind Hauth)
    as (t' & Hupd & _ & _ & Hst & Hlog & Hlist & Hprog).
  cbn zeta in *. exists t'. split; [exact Hupd |].
  rewrite <- Hst in Hlog, Hlist, Hprog.
  split; [intros ->; exact Hst |].
  split; [intros s ->; exact Hst |].
  split; [| split; [| split]].
  - intros Hsame. rewrite Hlog.
    now replace (Status_eqb (status t) (status t')) with true
      by (symmetry; apply Status_eqb_eq; congruence).
  - intros Hdiff. rewrite Hlog.
    destruct (Status_eqb (status t) (status t')) eqn:Heq; [| reflexivity].
    apply Status_eqb_eq in Heq. congruence.
  - intros Hopen. rewrite Hlist, Hprog.
    destruct (Status_eqb (status t') Completed) eqn:Heq; [| now split].
    apply Status_eqb_eq in Heq. contradiction.
  - intros _ H100 Hall. rewrite Hlist, Hprog.
    destruct (Status_eqb (status t') Completed); split; auto.
    apply completeAll_completed.
Qed.

Lemma status_route_logs_each_change_once_witness :
  let done := sampleTask "t1" Completed noon None (checked 3) in
  exists t',
    snd (updateTaskStatus [done] "t1" alice (Some Pending)) = Ok t'
    /\ status t' = Pending
    /\ count completed (todoChecklist t') = 3
    /\ map newValue (activityLog t') = ["Pending"]%string
    /\ snd (updateTaskStatus [t'] "t1" alice None) = Ok t'.
Proof.
  intros done.
  destruct (status_route_logs_each_change_once
              [done] "t1"%string alice (Some Pending) done eq_refl eq_refl)
    as (t' & Hupd & _ & Hset & _ & Hlog & Hkeep & _).
  pose proof (Hset Pending eq_refl) as Hst.
  exists t'. rewrite Hupd. cbn [snd]. split; [reflexivity |].
  split; [exact Hst |].
  destruct Hkeep as [Hlist _]; [rewrite Hst; discriminate |].
  rewrite Hlist, Hlog by (rewrite Hst; discriminate).
  split; [vm_compute; reflexivity |].
  split; [rewrite Hst; reflexivity |].
  injection Hupd as _ <-. vm_compute. reflexivity.
Defined.

(** X24.  The two routes disagree on a task without checklist items.
    When an admin or the sole assignee sets the status to Completed and
    the checklist that was saved is then sent back unchanged through
    [updateTaskChecklist], the task stays Completed with progress 100 if
    it has items, and falls back to Pending with progress 0 if it has
    none. *)
Theorem completed_without_items_falls_back :
  forall tasks id reqUser t,
    findById tasks id = Some t ->
    isAdmin reqUser = true \/ assignedTo t = [uid reqUser] ->
    exists t1 t2,
      updateTaskStatus tasks id reqUser (Some Completed)
      = (save tasks t1, Ok t1)
      /\ status t1 = Completed /\ progress t1 = 100
      /\ updateTaskChecklist (save tasks t1) id reqUser (todoChecklist t1)
         = (save (save tasks t1) t2, Ok t2)
      /\ todoChecklist t2 = todoChecklist t1
      /\ (todoChecklist t = [] ->
          status t2 = Pending /\ progress t2 = 0)
      /\ (todoChecklist t <> [] ->
          status t2 = Completed /\ progress t2 = 100).
Proof.
  intros tasks id reqUser t Hfind Hwho.
  assert (Hauth1 : String.eqb (String.concat "," (assignedTo t)) (uid reqUser)
                   || isAdmin reqUser = true).
  { destruct Hwho as [-> | ->]; [apply orb_true_r |].
    cbn [String.concat]. now rewrite String.eqb_refl. }
  destruct (updateTaskStatus_saved tasks id reqUser (Some Completed) t
              Hfind Hauth1)
    as (t1 & Hupd1 & Hid1 & Hassigned & Hst1 & _ & Hlist1 & Hprog1).
  cbn zeta in *. cbn [Status_eqb] in Hlist1, Hprog1.
  assert (Hfind1 : findById (save tasks t1) id = Some t1)
    by (subst id; now apply (findById_save tasks t t1)).
  assert (Hauth2 : existsb (String.eqb (uid reqUser)) (assignedTo t1)
                   || isAdmin reqUser = true).
  { destruct Hwho as [-> | Hsole]; [apply orb_true_r |].
    rewrite Hassigned, Hsole. cbn [existsb].
    now rewrite String.eqb_refl. }
  destruct (updateTaskChecklist_status (save tasks t1) id reqUser
              (todoChecklist t1) t1 Hfind1 Hauth2)
    as (t2 & Hupd2 & Hlist2 & _ & Hvalue & _ & Hst2).
  exists t1, t2.
  split; [exact Hupd1 |]. split; [exact Hst1 |]. split; [exact Hprog1 |].
  split; [exact Hupd2 |]. split; [exact Hlist2 |].
  destruct (completeAll_completed (todoChecklist t)) as (_ & _ & Hcount).
  rewrite <- Hlist1 in Hcount.
  split.
  - intros Hnil.
    assert (Hp : progress t2 = 0).
    { rewrite Hvalue, Hlist1, Hnil. reflexivity. }
    rewrite Hst2, Hp. now split.
  - intros Hne.
    assert (Hp : progress t2 = 100).
    { rewrite Hvalue. apply progress_all; [| exact Hcount].
      rewrite Hlist1. unfold completeAll.
      destruct (todoChecklist t) as [| item rest]; [congruence |].
      cbn [map]. rewrite len_cons.
      pose proof (len_nonneg (map (fun item =>
                    {| text := text item; completed := true |}) rest)).
      lia. }
    rewrite Hst2, Hp. now split.
Qed.

Lemma completed_without_items_falls_back_witness :
  let bare := dueIn "t1" tenHours ["u1"]%string None in
  exists t1 t2,
    updateTaskStatus [bare] "t1" alice (Some Completed)
    = (save [bare] t1, Ok t1)
    /\ status t1 = Completed
    /\ updateTaskChecklist (save [bare] t1) "t1" alice (todoChecklist t1)
       = (save (save [bare] t1) t2, Ok t2)
    /\ todoChecklist t1 = []
    /\ status t2 = Pending /\ progress t2 = 0.
Proof.
  intros bare.
  destruct (completed_without_items_falls_back
              [bare] "t1"%string alice bare eq_refl
              ltac:(right; reflexivity))
    as (t1 & t2 & Hupd1 & Hst1 & _ & Hupd2 & _ & Hnone & _).
  destruct (Hnone eq_refl) as [Hst2 Hp2].
  exists t1, t2.
  split; [exact Hupd1 |]. split; [exact Hst1 |]. split; [exact Hupd2 |].
  split; [| split; [exact Hst2 | exact Hp2]].
  injection Hupd1 as _ <-. reflexivity.
Defined.

(* ===================================================================== *)
(** * Labels *)
(* ===================================================================== *)

Lemma Array_includes_In (l : list string) (x : string) :
  Array_includes l x = true <-> In x l.
Proof.
  unfold Array_includes. rewrite existsb_exists. split.
  - intros (y & Hy & Heq). apply String.eqb_eq in Heq. now subst y.
  - intros H. exists x. split; [exact H | apply String.eqb_refl].
Qed.

Lemma Array_indexOf_None (l : list string) (x : string) :
  Array_indexOf l x = None <-> ~ In x l.
Proof.
  induction l as [| y l IH]; [cbn; tauto |].
  cbn [Array_indexOf In]. destruct (String.eqb y x) eqn:Heq.
  - apply String.eqb_eq in Heq. split; [discriminate | tauto].
  - apply String.eqb_neq in Heq.
    destruct (Array_indexOf l x); cbn [option_map].
    + split; [discriminate |]. intros H. exfalso. apply H. right.
      destruct (in_dec string_dec x l) as [Hin | Hout]; [exact Hin |].
      apply IH in Hout. discriminate Hout.
    + split; [| reflexivity]. intros _ [H | H]; [contradiction |].
      now apply (proj1 IH).
Qed.

(** The index that [indexOf] returns is that of the first occurrence. *)
Lemma Array_indexOf_Some (l : list string) (x : string) (i : nat) :
  Array_indexOf l x = Some i ->
  exists before after,
    l = before ++ x :: after
    /\ ~ In x before
    /\ List.length before = i
    /\ Array_splice1 l i = before ++ after.
Proof.
  revert i. induction l as [| y l IH]; intros i H; [discriminate |].
  cbn [Array_indexOf] in H. destruct (String.eqb y x) eqn:Heq.
  - injection H as <-. apply String.eqb_eq in Heq. subst y.
    exists [], l. repeat split; auto.
  - destruct (Array_indexOf l x) as [j |] eqn:Hj; [| discriminate].
    cbn [option_map] in H. injection H as <-.
    destruct (IH j eq_refl) as (before & after & -> & Hnot & Hlen & Hsplice).
    exists (y :: before), after. apply String.eqb_neq in Heq.
    repeat split.
    + intros [E | E]; [contradiction | now apply Hnot].
    + cbn [List.length]. now rewrite Hlen.
    + unfold Array_splice1 in *. cbn [firstn skipn app].
      cbn [skipn] in Hsplice. now rewrite Hsplice.
Qed.

(** The labels that a second, equal request would add: none. *)
Lemma addLabels_nothing_new (trim : string -> string)
    (old requested : list string) :
  filter (fun label =>
            negb (Array_includes
                    (old ++ map trim
                       (filter (fun label =>
                                  negb (Array_includes old (trim label)))
                               requested))
                    (trim label)))
         requested
  = [].
Proof.
  apply filter_none. intros label Hin.
  apply negb_false_iff, Array_includes_In, in_or_app.
  destruct (Array_includes old (trim label)) eqn:Hold.
  - left. now apply Array_includes_In.
  - right. apply in_map, filter_In. split; [exact Hin |].
    now rewrite Hold.
Qed.

(** X25.  [addLabels] never answers 400: a body that is no array is
    taken as an empty one.  It keeps the labels of the task and appends
    trimmed labels that the task did not have, so sending the same
    labels again adds nothing and logs nothing.  The test is against
    the labels before the request only: if the task's labels and the
    trimmed labels of the request are each without repetition, so is
    the result, but a label that the request holds twice is appended
    twice. *)
Theorem labels_are_added_once_per_task_not_per_request :
  forall (sanitizeInput trim : string -> string) task reqUser body,
    exists saved added,
      addLabels sanitizeInput trim (Some task) reqUser body
      = (Some saved, Answered (labels saved))
      /\ labels saved = labels task ++ added
      /\ (forall l, In l added -> ~ In l (labels task))
      /\ (added = [] -> doc saved = doc task)
      /\ (added <> [] ->
          activityLog (doc saved)
          = activityLog (doc task)
            ++ [{| user := uid reqUser; action := "label_added";
                   details :=
                     "Labels added: "
                     ++ String.concat ", "
                          (filter (fun label =>
                                     negb (Array_includes (labels task)
                                                          (trim label)))
                                  (match body with
                                   | IsArray items => map sanitizeInput items
                                   | NotArray => []
                                   end));
                   oldValue := ""; newValue := "" |}])
      /\ (body = NotArray -> saved = task)
      /\ addLabels sanitizeInput trim (Some saved) reqUser body
         = (Some saved, Answered (labels saved))
      /\ (forall items,
             body = IsArray items ->
             NoDup (labels task) ->
             NoDup (map trim (map sanitizeInput items)) ->
             NoDup (labels saved))
      /\ (forall x,
             body = IsArray [x; x] ->
             ~ In (trim (sanitizeInput x)) (labels task) ->
             added = [trim (sanitizeInput x); trim (sanitizeInput x)]).
Proof.
  intros sanitizeInput trim task reqUser body.
  set (requested := match body with
                    | IsArray items => map sanitizeInput items
                    | NotArray => []
                    end).
  set (newLabels := filter (fun label =>
                              negb (Array_includes (labels task) (trim label)))
                           requested).
  assert (Hadd : forall t,
             addLabels sanitizeInput trim (Some t) reqUser body
             = (let new := filter (fun label =>
                                     negb (Array_includes (labels t)
                                                          (trim label)))
                                  requested in
                let pushed := labels t ++ map trim new in
                (Some {| doc := if len new >? 0
                                then addActivityLog (doc t) (uid reqUser)
                                       "label_added"
                                       ("Labels added: "
                                        ++ String.concat ", " new) "" ""
                                else doc t;
                         labels := pushed |},
                 Answered pushed))).
  { intros t. unfold addLabels, requested. now destruct body. }
  assert (Hlen : (len newLabels >? 0)
                 = negb (match map trim newLabels with
                         | [] => true
                         | _ => false
                         end)).
  { clearbody newLabels. destruct newLabels as [| l ls]; [reflexivity |].
    rewrite len_cons. pose proof (len_nonneg ls). cbn [map negb]. lia. }
  exists {| doc := if len newLabels >? 0
                   then addActivityLog (doc task) (uid reqUser) "label_added"
                          ("Labels added: " ++ String.concat ", " newLabels)
                          "" ""
                   else doc task;
            labels := labels task ++ map trim newLabels |}.
  exists (map trim newLabels).
  split; [rewrite Hadd; reflexivity |].
  cbn [labels doc]. fold newLabels. rewrite Hlen.
  split; [reflexivity |].
  split; [| split; [| split; [| split; [| split; [| split]]]]].
  - intros l Hl. apply in_map_iff in Hl. destruct Hl as (label & <- & Hin).
    apply filter_In in Hin. destruct Hin as [_ Hnew].
    apply negb_true_iff in Hnew. intros Hold.
    apply Array_includes_In in Hold. congruence.
  - intros ->. reflexivity.
  - intros Hne. destruct (map trim newLabels); [congruence | reflexivity].
  - intros ->. subst newLabels requested. cbn [filter map negb].
    rewrite app_nil_r. now destruct task.
  - rewrite Hadd. cbn zeta. cbn [labels doc].
    unfold newLabels. rewrite addLabels_nothing_new.
    cbn [map]. rewrite app_nil_r. reflexivity.
  - intros items -> Hold Hnew. apply NoDup_app; [exact Hold | |].
    + subst newLabels requested. clear -Hnew.
      induction (map sanitizeInput items) as [| l ls IH]; [constructor |].
      cbn [map] in Hnew. apply NoDup_cons_iff in Hnew.
      destruct Hnew as [Hfresh Hnew]. cbn [filter].
      destruct (negb (Array_includes (labels task) (trim l)));
        [| now apply IH].
      cbn [map]. constructor; [| now apply IH].
      intros Hin. apply Hfresh. apply in_map_iff in Hin.
      destruct Hin as (y & Hy & Hin). apply filter_In in Hin.
      rewrite <- Hy. apply in_map. tauto.
    + intros l Hold' Hl. apply in_map_iff in Hl.
      destruct Hl as (label & <- & Hin).
      apply filter_In in Hin. destruct Hin as [_ Hnot].
      apply negb_true_iff in Hnot.
      apply Array_includes_In in Hold'. congruence.
  - intros x -> Hfresh. subst newLabels requested. cbn [map filter].
    replace (Array_includes (labels task) (trim (sanitizeInput x)))
      with false; [reflexivity |].
    symmetry. destruct (Array_includes _ _) eqn:H; [| reflexivity].
    apply Array_includes_In in H. contradiction.
Qed.

Lemma labels_are_added_once_per_task_not_per_request_witness :
  exists saved,
    fst (addLabels (fun s => s) (fun s => s) (Some labelled) carol
                   (IsArray ["bug"; "docs"; "docs"]%string))
    = Some saved
    /\ labels saved = ["bug"; "urgent"; "docs"; "docs"]%string
    /\ fst (addLabels (fun s => s) (fun s => s) (Some saved) carol
                      (IsArray ["bug"; "docs"; "docs"]%string))
       = Some saved.
Proof.
  destruct (labels_are_added_once_per_task_not_per_request
              (fun s => s) (fun s => s) labelled carol
              (IsArray ["bug"; "docs"; "docs"]%string))
    as (saved & added & Hadd & Hlabels & _ & _ & _ & _ & Hagain & _).
  exists saved. rewrite Hagain, Hadd. cbn [fst].
  split; [reflexivity |]. split; [| reflexivity].
  injection Hadd as <-. vm_compute. reflexivity.
Defined.

(** X26.  [removeLabel] answers 404 and saves nothing when the task
    does not carry the sanitized label.  Otherwise it takes out the
    first occurrence and nothing else, in place, and logs the removal:
    a label that the task carries once is gone, one that it carries
    twice is still there.  A label that was just added to a task that
    did not have it is removed again by the request for its trimmed
    form, which gives the labels back as they were. *)
Theorem first_occurrence_of_a_label_is_removed :
  forall (sanitizeInput trim : string -> string) task reqUser decoded,
    let label := sanitizeInput decoded in
    (~ In label (labels task) ->
     removeLabel sanitizeInput (Some task) reqUser decoded
     = (None, Refused 404 "Label not found"))
    /\ (In label (labels task) ->
        exists saved before after,
          removeLabel sanitizeInput (Some task) reqUser decoded
          = (Some saved, Answered (labels saved))
          /\ labels task = before ++ label :: after
          /\ ~ In label before
          /\ labels saved = before ++ after
          /\ activityLog (doc saved)
             = activityLog (doc task)
               ++ [{| user := uid reqUser; action := "label_removed";
                      details := "Label removed: " ++ label;
                      oldValue := ""; newValue := "" |}]
          /\ (NoDup (labels task) -> ~ In label (labels saved)))
    /\ (forall x added,
           trim (sanitizeInput x) = label ->
           ~ In label (labels task) ->
           fst (addLabels sanitizeInput trim (Some task) reqUser (IsArray [x]))
           = Some added ->
           exists saved,
             removeLabel sanitizeInput (Some added) reqUser decoded
             = (Some saved, Answered (labels task))
             /\ labels saved = labels task).
Proof.
  intros sanitizeInput trim task reqUser decoded label.
  assert (Hfound : forall t,
             In label (labels t) ->
             exists saved before after,
               removeLabel sanitizeInput (Some t) reqUser decoded
               = (Some saved, Answered (labels saved))
               /\ labels t = before ++ label :: after
               /\ ~ In label before
               /\ labels saved = before ++ after
               /\ activityLog (doc saved)
                  = activityLog (doc t)
                    ++ [{| user := uid reqUser; action := "label_removed";
                           details := "Label removed: " ++ label;
                           oldValue := ""; newValue := "" |}]).
  { intros t Hin. unfold removeLabel. fold label.
    destruct (Array_indexOf (labels t) label) as [i |] eqn:Hi.
    - destruct (Array_indexOf_Some _ _ _ Hi)
        as (before & after & Hsplit & Hnot & _ & Hsplice).
      eexists {| doc := _; labels := _ |}. exists before, after.
      split; [reflexivity |]. cbn [labels doc].
      repeat split; auto.
    - apply Array_indexOf_None in Hi. contradiction. }
  split; [| split].
  - intros Hout. unfold removeLabel. fold label.
    apply Array_indexOf_None in Hout. now rewrite Hout.
  - intros Hin.
    destruct (Hfound task Hin)
      as (saved & before & after & Hrem & Hsplit & Hnot & Hleft & Hlog).
    exists saved, before, after. repeat split; auto.
    intros Hnodup Hstill. rewrite Hsplit in Hnodup.
    apply NoDup_remove_2 in Hnodup. congruence.
  - intros x added Hx Hfresh Hadd.
    unfold addLabels in Hadd. cbn [map filter fst] in Hadd.
    rewrite Hx in Hadd.
    replace (Array_includes (labels task) label) with false in Hadd
      by (symmetry; destruct (Array_includes _ _) eqn:H; [| reflexivity];
          apply Array_includes_In in H; contradiction).
    cbn [negb map] in Hadd. rewrite Hx in Hadd. injection Hadd as <-.
    set (added := {| doc := _; labels := labels task ++ [label] |}).
    destruct (Hfound added)
      as (saved & before & after & Hrem & Hsplit & Hnot & Hleft & _).
    { cbn [labels added]. apply in_or_app. right. now left. }
    cbn [labels added] in Hsplit.
    assert (Hsame : before = labels task /\ after = []).
    { clear -Hsplit Hnot Hfresh. revert before Hsplit Hnot.
      induction (labels task) as [| y l IH]; intros before Hsplit Hnot.
      - destruct before as [| b before]; cbn in Hsplit.
        + injection Hsplit as <-. now split.
        + injection Hsplit as _ H. now destruct before.
      - destruct before as [| b before]; cbn [app] in Hsplit.
        + injection Hsplit as Hy _. exfalso. apply Hfresh. now left.
        + injection Hsplit as <- Hrest.
          destruct (IH (fun H => Hfresh (or_intror H)) before Hrest
                       (fun H => Hnot (or_intror H))) as [-> ->].
          now split. }
    destruct Hsame as [-> ->]. rewrite app_nil_r in Hleft.
    exists saved. rewrite Hrem, Hleft. now split.
Qed.

Lemma first_occurrence_of_a_label_is_removed_witness :
  let twice := {| doc := withThreeSteps;
                  labels := ["bug"; "docs"; "bug"]%string |} in
  exists saved,
    removeLabel (fun s => s) (Some twice) carol "bug"
    = (Some saved, Answered (labels saved))
    /\ labels saved = ["docs"; "bug"]%string
    /\ removeLabel (fun s => s) (Some twice) carol "wish"
       = (None, Refused 404 "Label not found").
Proof.
  intros twice.
  destruct (first_occurrence_of_a_label_is_removed
              (fun s => s) (fun s => s) twice carol "bug"%string)
    as (_ & Hfound & _).
  destruct (first_occurrence_of_a_label_is_removed
              (fun s => s) (fun s => s) twice carol "wish"%string)
    as (Hmissing & _).
  destruct Hfound as (saved & before & after & Hrem & _);
    [left; reflexivity |].
  exists saved. split; [exact Hrem |].
  split; [| apply Hmissing; cbn; intuition discriminate].
  injection Hrem as <-. vm_compute. reflexivity.
Defined.

(* ===================================================================== *)
(** * Copies and the general update *)
(* ===================================================================== *)

(** X27.  For an admin of a domain that is not public, [duplicateTask]
    stores one more document after the others and changes none: a copy
    with the title marked, the same priority, assignees and labels,
    status Pending, progress 0, the checklist texts with nothing
    checked, one log entry, no reminder sent and a due date seven days
    ahead.  The reminder scan therefore selects the copy exactly during
    the day before that date, whatever the original's flag was.  A
    refusal stores nothing. *)
Theorem copy_is_a_fresh_pending_task :
  forall now created newId collection reqUser id original,
    isAdmin reqUser = true ->
    findDocById collection id = Some original ->
    (exists copy,
        duplicateTask now created newId collection reqUser false id
        = (collection ++ [copy], Answered copy)
        /\ _id (doc copy) = newId
        /\ title (doc copy) = (title (doc original) ++ " (Copy)")%string
        /\ priority (doc copy) = priority (doc original)
        /\ assignedTo (doc copy) = assignedTo (doc original)
        /\ labels copy = labels original
        /\ status (doc copy) = Pending
        /\ progress (doc copy) = 0
        /\ map text (todoChecklist (doc copy))
           = map text (todoChecklist (doc original))
        /\ count completed (todoChecklist (doc copy)) = 0
        /\ map action (activityLog (doc copy)) = ["created"%string]
        /\ dueDate (doc copy) = Some (now + 7 * msPerDay)
        /\ (forall scanTime,
               needsReminder scanTime (doc copy) = true
               <-> now + 6 * msPerDay <= scanTime < now + 7 * msPerDay))
    /\ (forall publicDomain anyone anyId code reason,
           snd (duplicateTask now created newId collection anyone
                              publicDomain anyId)
           = Refused code reason ->
           fst (duplicateTask now created newId collection anyone
                              publicDomain anyId)
           = collection).
Proof.
  intros now created newId collection reqUser id original Hadmin Hfind.
  split.
  - unfold duplicateTask. rewrite Hadmin, Hfind. cbn [negb].
    eexists {| doc := _; labels := _ |}. split; [reflexivity |].
    cbn [doc labels addActivityLog withStatus _id title priority assignedTo
         status progress todoChecklist activityLog dueDate app map action].
    do 7 (split; [reflexivity |]).
    split; [rewrite map_map; reflexivity |].
    split.
    { apply count_is_0. apply Forall_forall. intros item Hin.
      apply in_map_iff in Hin. now destruct Hin as (x & <- & _). }
    split; [reflexivity |]. split; [reflexivity |].
    intros scanTime. rewrite needsReminder_spec.
    cbn [status reminderSent dueDate]. unfold addDays, msPerDay.
    split.
    + intros (_ & _ & due & Hdue & Hwin). injection Hdue as <-. lia.
    + intros Hwin. split; [discriminate |]. split; [discriminate |].
      eexists. split; [reflexivity | lia].
  - intros publicDomain anyone anyId code reason. unfold duplicateTask.
    destruct (negb (isAdmin anyone)); [reflexivity |].
    destruct (findDocById collection anyId); [| reflexivity].
    destruct publicDomain; [reflexivity | discriminate].
Qed.

Lemma copy_is_a_fresh_pending_task_witness :
  let done :=
    {| doc := markReminderSent noon
                (sampleTask "t1" Completed noon (Some noon) (checked 3));
       labels := ["bug"]%string |} in
  exists copy,
    duplicateTask noon noon "t2" [done] carol false "t1"
    = ([done; copy], Answered copy)
    /\ status (doc copy) = Pending
    /\ count completed (todoChecklist (doc copy)) = 0
    /\ needsReminder (noon + 6 * msPerDay) (doc copy) = true
    /\ needsReminder noon (doc copy) = false.
Proof.
  intros done.
  destruct (copy_is_a_fresh_pending_task noon noon "t2"%string [done] carol
              "t1"%string done eq_refl eq_refl)
    as ((copy & Hdup & _ & _ & _ & _ & _ & Hst & _ & _ & Hnone & _ & _ & Hscan)
        & _).
  exists copy. split; [exact Hdup |]. split; [exact Hst |].
  split; [exact Hnone |].
  split; [apply Hscan; unfold msPerDay; lia |].
  destruct (needsReminder noon (doc copy)) eqn:Hn; [| reflexivity].
  apply Hscan in Hn. unfold msPerDay in Hn. lia.
Defined.

(** The task that [updateTask] saves: everything that it assigns is in
    the details and the assignees, the rest is the log. *)
Lemma updateTask_saved (task : LabelledTask) (reqUser : User)
    (body : UpdateBody) :
  body_assignedTo body <> Some NotArray ->
  exists saved extra,
    updateTask (Some task) reqUser body = (Some saved, Answered saved)
    /\ _id (doc saved) = _id (doc task)
    /\ status (doc saved) = status (doc task)
    /\ progress (doc saved) = progress (doc task)
    /\ reminderSent (doc saved) = reminderSent (doc task)
    /\ reminderSentAt (doc saved) = reminderSentAt (doc task)
    /\ createdAt (doc saved) = createdAt (doc task)
    /\ dueDate (doc saved)
       = match body_dueDate body with
         | Some due => Some due
         | None => dueDate (doc task)
         end
    /\ todoChecklist (doc saved)
       = match body_todoChecklist body with
         | Some checklist => checklist
         | None => todoChecklist (doc task)
         end
    /\ activityLog (doc saved) = activityLog (doc task) ++ extra
    /\ (List.length extra <= 4)%nat
    /\ (forall s, body_status body = Some s -> s <> status (doc task) ->
                  In {| user := uid reqUser; action := "status_changed";
                        details := "Status was changed";
                        oldValue := Status_toString (status (doc task));
                        newValue := Status_toString s |} extra).
Proof.
  intros Harray. unfold updateTask. cbv zeta.
  match goal with
  | |- context [len ?c >? 0] => set (changes := c)
  end.
  assert (Hlen : (len changes >? 0) = true \/ (len changes >? 0) = false)
    by (destruct (len changes >? 0); auto).
  clearbody changes.
  destruct (body_assignedTo body) as [[ids |] |]; [| congruence |];
    destruct (body_priority body) as [p |];
    try destruct (negb (Priority_eqb p (priority (doc task))));
    cbn [addActivityLog withStatus status];
    destruct (body_status body) as [s |] eqn:Hs;
    try destruct (negb (Status_eqb s (status (doc task)))) eqn:Hdiff;
    destruct Hlen as [-> | ->];
    cbn [addActivityLog withStatus withDetails withAssignedTo status
         activityLog priority];
    (eexists {| doc := _; labels := _ |}; eexists;
     split; [reflexivity |];
     cbn [doc labels withDetails withAssignedTo addActivityLog withStatus
          _id status progress reminderSent reminderSentAt createdAt dueDate
          todoChecklist activityLog];
     do 8 (split; [reflexivity |]);
     split; [first [ reflexivity
                   | symmetry; apply app_nil_r
                   | etransitivity;
                     [rewrite <- !app_assoc; reflexivity | reflexivity] ] |];
     split; [cbn [List.length app]; lia |];
     intros s' [= <-] Hne;
     try (exfalso; apply negb_false_iff, Status_eqb_eq in Hdiff;
          congruence);
     cbn [In app]; auto 6).
Qed.

(** X28.  [updateTask] writes a status change into the activity log
    but never assigns the status, and it replaces the checklist without
    recomputing the progress: the task that is saved has the status and
    the progress it had.  Nor is the reminder flag touched, so a task
    that was reminded is not selected by any later scan, also when the
    update gives it a new due date.  An [assignedTo] that is no array is
    answered with 400 and nothing is saved. *)
Theorem general_update_keeps_status_progress_and_flag :
  forall task reqUser body,
    (body_assignedTo body = Some NotArray ->
     updateTask (Some task) reqUser body
     = (None, Refused 400 "assignedTo must be an array"))
    /\ (body_assignedTo body <> Some NotArray ->
        exists saved,
          updateTask (Some task) reqUser body = (Some saved, Answered saved)
          /\ status (doc saved) = status (doc task)
          /\ progress (doc saved) = progress (doc task)
          /\ reminderSent (doc saved) = reminderSent (doc task)
          /\ (forall s,
                 body_status body = Some s -> s <> status (doc task) ->
                 exists entry,
                   In entry (activityLog (doc saved))
                   /\ action entry = "status_changed"%string
                   /\ oldValue entry = Status_toString (status (doc task))
                   /\ newValue entry = Status_toString s)
          /\ (forall checklist,
                 body_todoChecklist body = Some checklist ->
                 todoChecklist (doc saved) = checklist)
          /\ (forall due,
                 body_dueDate body = Some due ->
                 dueDate (doc saved) = Some due)
          /\ (reminderSent (doc task) = Some true ->
              forall scanTime, needsReminder scanTime (doc saved) = false)).
Proof.
  intros task reqUser body. split.
  - intros Hnot. unfold updateTask. rewrite Hnot. reflexivity.
  - intros Harray.
    destruct (updateTask_saved task reqUser body Harray)
      as (saved & extra & Hupd & _ & Hst & Hprog & Hflag & _ & _ & Hdue
          & Hlist & Hlog & _ & Hentry).
    exists saved. split; [exact Hupd |].
    split; [exact Hst |]. split; [exact Hprog |]. split; [exact Hflag |].
    split; [| split; [| split]].
    + intros s Hs Hne. eexists. split.
      * rewrite Hlog. apply in_or_app. right. exact (Hentry s Hs Hne).
      * repeat split.
    + intros checklist Hc. now rewrite Hlist, Hc.
    + intros due Hd. now rewrite Hdue, Hd.
    + intros Hsent scanTime. apply flagged_not_selected. congruence.
Qed.

Lemma general_update_keeps_status_progress_and_flag_witness :
  let reminded :=
    {| doc := dueIn "t1" tenHours ["u1"]%string (Some true);
       labels := [] |} in
  let body :=
    {| body_title := ""; body_priority := None;
       body_status := Some Completed;
       body_dueDate := Some (noon + 20 * msPerDay);
       body_todoChecklist := Some (checked 2);
       body_labels := None; body_assignedTo := None |} in
  exists saved,
    fst (updateTask (Some reminded) alice body) = Some saved
    /\ status (doc saved) = Pending
    /\ progress (doc saved) = 0
    /\ todoChecklist (doc saved) = checked 2
    /\ map newValue (activityLog (doc saved)) = ["Completed"]%string
    /\ needsReminder (noon + 19 * msPerDay + 1) (doc saved) = false.
Proof.
  intros reminded body.
  destruct (general_update_keeps_status_progress_and_flag
              reminded alice body) as [_ Hsaved].
  destruct Hsaved as (saved & Hupd & Hst & Hprog & _ & _ & Hlist & _ & Hscan);
    [discriminate |].
  exists saved. rewrite Hupd. cbn [fst]. split; [reflexivity |].
  split; [exact Hst |]. split; [exact Hprog |].
  split; [now apply Hlist |].
  split; [| now apply Hscan].
  injection Hupd as <-. vm_compute. reflexivity.
Defined.

(* ===================================================================== *)
(** * The task list *)
(* ===================================================================== *)

Lemma In_firstn_in {A : Type} (n : nat) (l : list A) (x : A) :
  In x (firstn n l) -> In x l.
Proof.
  intros H. rewrite <- (firstn_skipn n l). apply in_or_app. now left.
Qed.

Lemma In_skipn_in {A : Type} (n : nat) (l : list A) (x : A) :
  In x (skipn n l) -> In x l.
Proof.
  intros H. rewrite <- (firstn_skipn n l). apply in_or_app. now right.
Qed.

Lemma pageOf_In (query : TaskQuery) (found : list Task) (t : Task) :
  In t (pageOf query found) -> In t found.
Proof.
  unfold pageOf. intros H. apply In_firstn_in, In_skipn_in in H.
  eapply Permutation_in; [| exact H].
  apply Permutation_sym, Array_sort_Permutation.
Qed.

Lemma pageOf_len (query : TaskQuery) (found : list Task) :
  len (pageOf query found)
  = Z.max 0 (Z.min (Z.pos (limitNum query))
                   (len found
                    - (Z.pos (pageNum query) - 1) * Z.pos (limitNum query))).
Proof.
  unfold pageOf, len. rewrite length_firstn, length_skipn.
  pose proof (Array_sort_len byCreatedAtDescending found) as Hlen.
  unfold len in Hlen.
  assert (Hskip : 0 <= (Z.pos (pageNum query) - 1) * Z.pos (limitNum query))
    by nia.
  set (skip := (Z.pos (pageNum query) - 1) * Z.pos (limitNum query)) in *.
  lia.
Qed.

(** The criterion on the assignee apart from the others. *)
Lemma matchesFilter_assignee (regexTest : string -> string -> bool)
    (query : TaskQuery) (id : Id) (t : Task) :
  matchesFilter regexTest query (Some id) t
  = existsb (String.eqb id) (assignedTo t)
    && matchesFilter regexTest query None t.
Proof.
  unfold matchesFilter.
  destruct (if String.eqb (q query) "" then true else _),
    (if String.eqb (q_status query) "" then true else _),
    (if String.eqb (q_priority query) "" then true else _),
    (existsb (String.eqb id) (assignedTo t)),
    (match q_dueDateFrom query with Some _ => _ | None => _ end);
    reflexivity.
Qed.

Lemma existsb_eqb_In (id : Id) (ids : list Id) :
  existsb (String.eqb id) ids = true <-> In id ids.
Proof.
  rewrite existsb_exists. split.
  - intros (a & Ha & Heq). apply String.eqb_eq in Heq. now subst a.
  - intros H. exists id. split; [exact H | apply String.eqb_refl].
Qed.

(** X29.  Whatever the query asks for, [getTasks] lists to a user who
    is not an admin only tasks that the user is assigned to: the
    [assignee] parameter is overwritten and changes nothing, and
    [totalItems] counts the user's own matches.  To an admin it lists
    at most [limit] tasks that each have an assignee of the admin's
    domain, while [totalItems] counts every match; an admin of a public
    domain is refused.  [completedCount] is the number of checked
    items. *)
Theorem task_list_shows_own_tasks_only :
  forall (regexTest : string -> string -> bool) (ofDomain : string -> bool)
         tasks users reqUser publicDomain query,
    (isAdmin reqUser = false ->
     exists r,
       getTasks regexTest ofDomain tasks users reqUser publicDomain query
       = Answered r
       /\ (forall item,
              In item (listedTasks r) ->
              In (listed item) tasks
              /\ In (uid reqUser) (assignedTo (listed item))
              /\ matchesFilter regexTest query None (listed item) = true
              /\ completedCount item
                 = count completed (todoChecklist (listed item)))
       /\ len (listedTasks r) <= Z.pos (limitNum query)
       /\ totalItems (pagination r)
          = count (fun t => existsb (String.eqb (uid reqUser)) (assignedTo t)
                            && matchesFilter regexTest query None t)
                  tasks
       /\ (forall assignee,
              getTasks regexTest ofDomain tasks users reqUser publicDomain
                       (withAssignee query assignee)
              = Answered r))
    /\ (isAdmin reqUser = true -> publicDomain = false ->
        exists r,
          getTasks regexTest ofDomain tasks users reqUser publicDomain query
          = Answered r
          /\ (forall item,
                 In item (listedTasks r) ->
                 In (listed item) tasks
                 /\ listedAssignees item <> []
                 /\ (forall u, In u (listedAssignees item) ->
                               ofDomain (email u) = true
                               /\ In (uid u) (assignedTo (listed item))))
          /\ len (listedTasks r) <= Z.pos (limitNum query)
          /\ totalItems (pagination r)
             = count (matchesFilter regexTest query
                        (if String.eqb (q_assignee query) "" then None
                         else Some (q_assignee query)))
                     tasks)
    /\ (isAdmin reqUser = true -> publicDomain = true ->
        getTasks regexTest ofDomain tasks users reqUser publicDomain query
        = Refused 403 "Admin access restricted for public domains.").
Proof.
  intros regexTest ofDomain tasks users reqUser publicDomain query.
  split; [| split].
  - intros Hmember. unfold getTasks. rewrite Hmember.
    eexists. split; [reflexivity |]. cbn [listedTasks pagination].
    split; [| split; [| split]].
    + intros item Hin. apply in_map_iff in Hin.
      destruct Hin as (pair & <- & Hin). apply in_map_iff in Hin.
      destruct Hin as (t & <- & Hin). cbn [withCompletedCount listed fst snd
        completedCount].
      apply pageOf_In, filter_In in Hin. destruct Hin as [Hin Hmatch].
      rewrite matchesFilter_assignee in Hmatch.
      apply andb_true_iff in Hmatch. destruct Hmatch as [Hown Hrest].
      apply existsb_eqb_In in Hown. repeat split; assumption.
    + unfold len. rewrite !length_map. unfold pageOf.
      rewrite length_firstn. lia.
    + unfold paginationOf. cbn [totalItems]. unfold count. f_equal.
      apply filter_ext. intros t. apply matchesFilter_assignee.
    + intros assignee. reflexivity.
  - intros Hadmin ->. unfold getTasks. rewrite Hadmin.
    eexists. split; [reflexivity |]. cbn [listedTasks pagination].
    split; [| split].
    + intros item Hin. apply in_map_iff in Hin.
      destruct Hin as (pair & <- & Hin). apply filter_In in Hin.
      destruct Hin as [Hin Hsome]. apply in_map_iff in Hin.
      destruct Hin as (t & <- & Hin).
      cbn [withCompletedCount listed listedAssignees fst snd] in *.
      apply pageOf_In, filter_In in Hin. destruct Hin as [Hin _].
      split; [exact Hin |]. split.
      * intros Hnil. rewrite Hnil in Hsome. discriminate Hsome.
      * intros u Hu. unfold populateMatching in Hu.
        apply filter_In in Hu. destruct Hu as [Hu Hdom].
        apply populate_In in Hu. tauto.
    + unfold len. rewrite length_map.
      etransitivity;
        [apply inj_le, (filter_length_le _ _) |].
      rewrite length_map. unfold pageOf. rewrite length_firstn. lia.
    + reflexivity.
  - intros Hadmin ->. unfold getTasks. now rewrite Hadmin.
Qed.

Lemma task_list_shows_own_tasks_only_witness :
  let never := fun _ _ : string => false in
  let anywhere := fun _ : string => true in
  documentsOf (getTasks never anywhere threeTasks [alice; bob] alice false
                        (withAssignee everything "u2"))
  = [dueIn "t1" tenHours ["u1"]%string None]
  /\ (exists r,
         getTasks never anywhere threeTasks [alice; bob] carol false
                  everything = Answered r
         /\ len (listedTasks r) = 2
         /\ totalItems (pagination r) = 3)
  /\ getTasks never anywhere threeTasks [alice; bob] carol true everything
     = Refused 403 "Admin access restricted for public domains.".
Proof.
  intros never anywhere.
  destruct (task_list_shows_own_tasks_only never anywhere threeTasks
              [alice; bob] alice false everything)
    as ((r & Hr & _ & _ & _ & Hassignee) & _); [reflexivity |].
  injection Hr as <-.
  destruct (task_list_shows_own_tasks_only never anywhere threeTasks
              [alice; bob] carol false everything)
    as (_ & (r' & Hr' & _ & _ & Htotal) & _); [reflexivity | reflexivity |].
  destruct (task_list_shows_own_tasks_only never anywhere threeTasks
              [alice; bob] carol true everything)
    as (_ & _ & Hpublic).
  split; [rewrite Hassignee; vm_compute; reflexivity |].
  split; [| apply Hpublic; reflexivity].
  exists r'. split; [exact Hr' |].
  split; [| rewrite Htotal; vm_compute; reflexivity].
  injection Hr' as <-. vm_compute. reflexivity.
Defined.

Lemma Math_ceil_ratio_spec (a b : Z) :
  0 < b ->
  b * (Math_ceil_ratio a b - 1) < a <= b * Math_ceil_ratio a b.
Proof.
  intros Hb. unfold Math_ceil_ratio.
  pose proof (Z.mul_div_le (- a) b Hb).
  pose proof (Z.mul_succ_div_gt (- a) b Hb).
  lia.
Qed.

(** Cutting a list into pieces of [n] loses nothing. *)
Lemma pieces_concat {A : Type} (n : nat) (k : nat) :
  forall l : list A,
    (List.length l <= k * n)%nat ->
    List.concat (map (fun i => firstn n (skipn (i * n) l)) (seq 0 k)) = l.
Proof.
  induction k as [| k IH]; intros l Hlen.
  - destruct l; [reflexivity | cbn in Hlen; lia].
  - cbn [seq map List.concat]. rewrite <- seq_shift, map_map.
    cbn [Nat.mul Nat.add skipn].
    transitivity (firstn n l ++ skipn n l); [| apply firstn_skipn].
    f_equal.
    rewrite <- (IH (skipn n l)) by (rewrite length_skipn; cbn in Hlen; lia).
    f_equal. apply map_ext. intros i.
    rewrite skipn_skipn. do 2 f_equal. lia.
Qed.

Lemma StronglySorted_app_r {A : Type} (R : A -> A -> Prop) (l l' : list A) :
  StronglySorted R (l ++ l') -> StronglySorted R l'.
Proof.
  induction l as [| a l IH]; cbn [app]; intros H; [exact H |].
  inversion H; subst. now apply IH.
Qed.

Lemma pageOf_sorted (query : TaskQuery) (found : list Task) :
  StronglySorted createdNoEarlier (pageOf query found).
Proof.
  unfold pageOf.
  pose proof (Array_sort_descending createdAt found) as Hsorted.
  change (fun a b : Task => createdAt b - createdAt a)
    with byCreatedAtDescending in Hsorted.
  change (fun a b : Task => createdAt b <= createdAt a)
    with createdNoEarlier in Hsorted.
  set (sorted := Array_sort byCreatedAtDescending found) in *.
  set (skip := Z.to_nat _).
  rewrite <- (firstn_skipn skip sorted) in Hsorted.
  apply StronglySorted_app_r in Hsorted.
  rewrite <- (firstn_skipn (Pos.to_nat (limitNum query)) (skipn skip sorted))
    in Hsorted.
  now apply StronglySorted_app_inv in Hsorted.
Qed.

(** The documents that a user who is not an admin is listed. *)
Lemma getTasks_member (regexTest : string -> string -> bool)
    (ofDomain : string -> bool) (tasks : list Task) (users : list User)
    (reqUser : User) (publicDomain : bool) (query : TaskQuery) :
  isAdmin reqUser = false ->
  let found :=
    filter (fun t => existsb (String.eqb (uid reqUser)) (assignedTo t)
                     && matchesFilter regexTest query None t) tasks in
  exists r,
    getTasks regexTest ofDomain tasks users reqUser publicDomain query
    = Answered r
    /\ pagination r = paginationOf query (len found)
    /\ map listed (listedTasks r) = pageOf query found.
Proof.
  intros Hmember found. unfold getTasks. rewrite Hmember.
  eexists. split; [reflexivity |]. cbn [pagination listedTasks].
  assert (Hfound : filter (matchesFilter regexTest query (Some (uid reqUser)))
                          tasks = found).
  { apply filter_ext. intros t. apply matchesFilter_assignee. }
  rewrite Hfound. split; [reflexivity |].
  rewrite !map_map. cbn [withCompletedCount listed fst]. apply map_id.
Qed.

(** X30.  The pages of [getTasks] for a user who is not an admin are
    the consecutive pieces of the user's matches, newest first:
    [totalPages] is the least number of pages of [limit] tasks that
    hold them all, a page holds [limit] tasks as long as there are that
    many left, [hasNextPage] says that there are tasks beyond the page
    and [hasPrevPage] that the page is not the first, and the pages from
    1 to [totalPages] one after another are all the matches, each
    once. *)
Theorem pages_cover_the_matches_in_order :
  forall (regexTest : string -> string -> bool) (ofDomain : string -> bool)
         tasks users reqUser publicDomain query,
    isAdmin reqUser = false ->
    let found :=
      filter (fun t => existsb (String.eqb (uid reqUser)) (assignedTo t)
                       && matchesFilter regexTest query None t) tasks in
    let limit := Z.pos (limitNum query) in
    let page := Z.pos (pageNum query) in
    exists r,
      getTasks regexTest ofDomain tasks users reqUser publicDomain query
      = Answered r
      /\ totalItems (pagination r) = len found
      /\ limit * (totalPages (pagination r) - 1) < len found
         <= limit * totalPages (pagination r)
      /\ (hasNextPage (pagination r) = true <-> page * limit < len found)
      /\ (hasPrevPage (pagination r) = true <-> 1 < page)
      /\ len (listedTasks r)
         = Z.max 0 (Z.min limit (len found - (page - 1) * limit))
      /\ StronglySorted createdNoEarlier (map listed (listedTasks r))
      /\ (forall t, In t (map listed (listedTasks r)) -> In t found)
      /\ List.concat
           (map (fun p =>
                   documentsOf
                     (getTasks regexTest ofDomain tasks users reqUser
                               publicDomain (withPage query (Pos.of_nat p))))
                (seq 1 (Z.to_nat (totalPages (pagination r)))))
         = Array_sort byCreatedAtDescending found.
Proof.
  intros regexTest ofDomain tasks users reqUser publicDomain query Hmember
         found limit page.
  destruct (getTasks_member regexTest ofDomain tasks users reqUser
              publicDomain query Hmember) as (r & Hr & Hpag & Hdocs).
  fold found in Hpag, Hdocs.
  exists r. split; [exact Hr |]. rewrite Hpag, Hdocs.
  unfold paginationOf.
  cbn [totalItems totalPages hasNextPage hasPrevPage].
  fold limit page.
  pose proof (Math_ceil_ratio_spec (len found) limit ltac:(subst limit; lia))
    as Hceil.
  pose proof (len_nonneg found) as Hn0.
  set (pages := Math_ceil_ratio (len found) limit) in *.
  assert (Hlimit : 0 < limit) by (subst limit; lia).
  assert (Hpage : 0 < page) by (subst page; lia).
  split; [reflexivity |].
  split; [exact Hceil |].
  split; [rewrite Z.ltb_lt; split; intros H; nia |].
  split; [split; intros H; lia |].
  split.
  { transitivity (len (pageOf query found)); [| apply pageOf_len].
    rewrite <- Hdocs. unfold len. now rewrite length_map. }
  split; [apply pageOf_sorted |].
  split; [intros t; apply pageOf_In |].
  rewrite <- seq_shift, map_map.
  rewrite <- (pieces_concat (Pos.to_nat (limitNum query)) (Z.to_nat pages)
                (Array_sort byCreatedAtDescending found)).
  - apply f_equal, map_ext. intros i.
    destruct (getTasks_member regexTest ofDomain tasks users reqUser
                publicDomain (withPage query (Pos.of_nat (S i))) Hmember)
      as (r' & Hr' & _ & Hdocs').
    rewrite Hr'. cbn [documentsOf]. rewrite Hdocs'.
    change (filter _ tasks) with found.
    unfold pageOf. cbn [withPage pageNum limitNum]. do 2 f_equal.
    assert (Hp : Z.pos (Pos.of_nat (S i)) = Z.of_nat (S i))
      by (rewrite <- positive_nat_Z, Nat2Pos.id; [reflexivity | discriminate]).
    rewrite Hp, <- (positive_nat_Z (limitNum query)).
    replace (Z.of_nat (S i) - 1) with (Z.of_nat i) by lia.
    rewrite <- Nat2Z.inj_mul. apply Nat2Z.id.
  - pose proof (Array_sort_len byCreatedAtDescending found) as Hlen.
    unfold len in Hlen, Hn0, Hceil. subst limit.
    rewrite <- positive_nat_Z in Hceil.
    assert (0 <= pages) by nia.
    nia.
Qed.

Lemma pages_cover_the_matches_in_order_witness :
  let never := fun _ _ : string => false in
  let anywhere := fun _ : string => true in
  let byTwo :=
    {| q := ""; q_status := ""; q_priority := ""; q_assignee := "";
       q_dueDateFrom := None; q_dueDateTo := None;
       pageNum := 2; limitNum := 2 |} in
  let mine :=
    [ dueIn "t1" tenHours ["u1"]%string None;
      dueIn "t2" tenHours ["u1"; "u2"]%string None;
      dueIn "t3" tenHours ["u1"]%string None ] in
  exists r,
    getTasks never anywhere mine [alice; bob] alice false byTwo = Answered r
    /\ totalPages (pagination r) = 2
    /\ hasNextPage (pagination r) = false
    /\ hasPrevPage (pagination r) = true
    /\ len (listedTasks r) = 1.
Proof.
  intros never anywhere byTwo mine.
  destruct (pages_cover_the_matches_in_order never anywhere mine [alice; bob]
              alice false byTwo eq_refl)
    as (r & Hr & _ & Hpages & Hnext & Hprev & Hlen & _).
  exists r. split; [exact Hr |].
  change (len (filter _ mine)) with 3 in *.
  change (Z.pos (limitNum byTwo)) with 2 in *.
  change (Z.pos (pageNum byTwo)) with 2 in *.
  split; [lia |].
  split.
  { destruct (hasNextPage (pagination r)); [| reflexivity].
    pose proof (proj1 Hnext eq_refl). lia. }
  split; [apply Hprev; lia | exact Hlen].
Defined.
